(** * Electric load forecasting: error history, alert policy, notification

    A shallow embedding of the error-tracking core of the forecasting
    pipeline and the properties its specification states about it:

    - [utils/error_history.py]     ([ErrorHistoryTracker], [get_tracker]),
    - [Models/scheduler.py]        ([evaluate_forecast_and_notify]),
    - [utils/telegram_notifier.py] ([TelegramNotifier]).

    Python values are modelled as the code has them: floats are IEEE
    binary64 numbers (Rocq's primitive floats, specified by [SpecFloat]),
    [str] is [string] compared by code point, [dict] is a finite map,
    an exception is a value of [exn] carried by [result], and the mutable
    tracker object lives in a store addressed by references. *)

From Stdlib Require Import ZArith Lia Bool List Ascii String.
From Stdlib Require Import Floats.
From stdpp Require Import base option list gmap strings sorting.

Set Default Proof Using "Type".
Open Scope string_scope.

(* ===================================================================== *)
(** * Part I: the embedding                                               *)
(* ===================================================================== *)

(** ** Python runtime: exceptions, results, floats *)

Module Py.

(** The exceptions the modelled code can raise.  All of them derive from
    Python's [Exception], so an [except Exception] clause catches each. *)
Inductive exn : Type :=
| ZeroDivisionError
| OverflowError
| KeyError (key : string)
| TypeError
| ValueError (msg : string)
| AttributeError (name : string)
| OSError
| RequestException
| RuntimeError.

(** The outcome of an expression: a value, or a raised exception. *)
Inductive result (A : Type) : Type :=
| Ok (a : A)
| Raise (e : exn).
Arguments Ok {A} a.
Arguments Raise {A} e.

Definition result_bind {A B} (f : A -> result B) (r : result A) : result B :=
  match r with
  | Ok a => f a
  | Raise e => Raise e
  end.

#[export] Instance result_ret : MRet result := fun _ a => Ok a.
#[export] Instance result_mbind : MBind result := fun _ _ f r => result_bind f r.

Definition is_ok {A} (r : result A) : bool :=
  match r with Ok _ => true | Raise _ => false end.

(** [x == 0] on floats: true for [0.0] and [-0.0], false for NaN. *)
Definition is_zero (x : float) : bool := PrimFloat.eqb x 0%float.

(** [x / y] on floats: Python raises where IEEE would return an infinity
    or NaN for a zero divisor. *)
Definition truediv (x y : float) : result float :=
  if is_zero y then Raise ZeroDivisionError else Ok (x / y)%float.

(** [x > y] is [y < x]; false as soon as one side is NaN. *)
Definition gt (x y : float) : bool := PrimFloat.ltb y x.

(** [float(n)] for a list length [n]. *)
Definition float_of_nat (n : nat) : float :=
  PrimFloat.of_uint63 (Uint63.of_Z (Z.of_nat n)).

(** [min(xs)] and [max(xs)] for a non-empty list, here head [x] and tail
    [xs]: CPython keeps the first item and replaces it by a later one only
    when that one compares strictly smaller (larger). *)
Definition min_from (x : float) (xs : list float) : float :=
  fold_left (fun best item => if PrimFloat.ltb item best then item else best) xs x.

Definition max_from (x : float) (xs : list float) : float :=
  fold_left (fun best item => if gt item best then item else best) xs x.

(** [sum(xs)]: starts from the integer [0] and adds from the left.
    (CPython 3.12 and later add floats with a compensated sum; the two
    agree whenever the plain sum is exact.) *)
Definition sum (xs : list float) : float :=
  fold_left (fun acc item => (acc + item)%float) xs 0%float.

(** [sum(1 for e in xs if p e)]. *)
Definition count_if {A} (p : A -> bool) (xs : list A) : nat :=
  List.length (List.filter p xs).

(** [x] is not NaN: [x == x]. *)
Definition not_nan (x : float) : Prop := PrimFloat.eqb x x = true.

(** The rank of a float that is not NaN: its sign class, then exponent and
    mantissa.  The comparisons of [SpecFloat] order floats by rank. *)
Definition rank (x : spec_float) : option (Z * (Z * Z)) :=
  match x with
  | S754_nan => None
  | S754_infinity true => Some (-2, (0, 0))
  | S754_finite true m e => Some (-1, (- e, Zneg m))
  | S754_zero _ => Some (0, (0, 0))
  | S754_finite false m e => Some (1, (e, Zpos m))
  | S754_infinity false => Some (2, (0, 0))
  end%Z.

Definition frank (x : float) : option (Z * (Z * Z)) := rank (Prim2SF x).

Definition lt3 (a b : Z * (Z * Z)) : Prop :=
  (a.1 < b.1 ∨ (a.1 = b.1 ∧ (a.2.1 < b.2.1 ∨ (a.2.1 = b.2.1 ∧ a.2.2 < b.2.2))))%Z.

Definition le3 (a b : Z * (Z * Z)) : Prop := lt3 a b ∨ a = b.

Definition cmp3 (a b : Z * (Z * Z)) : comparison :=
  match (a.1 ?= b.1)%Z with
  | Eq => match (a.2.1 ?= b.2.1)%Z with Eq => (a.2.2 ?= b.2.2)%Z | c => c end
  | c => c
  end.

(** Closes a goal about ranks by linear arithmetic on their components. *)
Ltac rank_lia :=
  repeat match goal with a : (Z * (Z * Z))%type |- _ => destruct a as [? [? ?]] end;
  unfold le3, lt3 in *; cbn [fst snd] in *; simplify_eq;
  repeat match goal with H : _ ∨ _ |- _ => destruct H end; simplify_eq; try lia.

End Py.

Export Py.

(** ** The calendar behind [datetime]

    [datetime.now()], [timedelta(days=k)], [strftime('%Y-%m-%d')] and
    [isoformat()] come from Python's standard library; the part of them the
    code relies on is modelled here.  A date is a proleptic Gregorian
    (year, month, day) with the year in 1..9999, as [datetime] has it. *)

Module Calendar.

Record date : Type := Date { year : Z; month : Z; day : Z }.

Record datetime : Type := DateTime {
  dt_date : date;
  hour : Z;
  minute : Z;
  second : Z;
  microsecond : Z
}.

Definition is_leap (y : Z) : bool :=
  (y mod 4 =? 0)%Z && (negb (y mod 100 =? 0)%Z || (y mod 400 =? 0)%Z).

Definition days_in_month (y m : Z) : Z :=
  match m with
  | 2 => if is_leap y then 29 else 28
  | 4 | 6 | 9 | 11 => 30
  | _ => 31
  end%Z.

Definition valid_date (d : date) : bool :=
  (1 <=? year d)%Z && (year d <=? 9999)%Z &&
  (1 <=? month d)%Z && (month d <=? 12)%Z &&
  (1 <=? day d)%Z && (day d <=? days_in_month (year d) (month d))%Z.

(** Chronological order: lexicographic on (year, month, day). *)
Definition date_compare (a b : date) : comparison :=
  match (year a ?= year b)%Z with
  | Eq => match (month a ?= month b)%Z with
          | Eq => (day a ?= day b)%Z
          | c => c
          end
  | c => c
  end.

(** [a] is older than [b]. *)
Definition older (a b : date) : Prop := date_compare a b = Lt.

(** One day back and one day forward; [datetime] raises [OverflowError]
    when the result leaves the years 1..9999. *)
Definition prev_day (d : date) : result date :=
  if (1 <? day d)%Z then Ok (Date (year d) (month d) (day d - 1))
  else if (1 <? month d)%Z then
    Ok (Date (year d) (month d - 1) (days_in_month (year d) (month d - 1)))
  else if (1 <? year d)%Z then Ok (Date (year d - 1) 12 31)
  else Raise OverflowError.

Definition next_day (d : date) : result date :=
  if (day d <? days_in_month (year d) (month d))%Z then
    Ok (Date (year d) (month d) (day d + 1))
  else if (month d <? 12)%Z then Ok (Date (year d) (month d + 1) 1)
  else if (year d <? 9999)%Z then Ok (Date (year d + 1) 1 1)
  else Raise OverflowError.

Fixpoint iterate (step : date -> result date) (n : nat) (d : date) : result date :=
  match n with
  | O => Ok d
  | S n' => d' ← step d; iterate step n' d'
  end.

(** [d - timedelta(days=k)]: [timedelta] itself refuses more than
    999999999 days either way. *)
Definition minus_days (d : date) (k : Z) : result date :=
  if (Z.abs k >? 999999999)%Z then Raise OverflowError
  else if (0 <=? k)%Z then iterate prev_day (Z.to_nat k) d
  else iterate next_day (Z.to_nat (- k)) d.

(** Decimal rendering with leading zeros, as [%Y], [%m], [%d] and the
    fields of [isoformat] produce it for the ranges of a valid [datetime]. *)
Definition digit (n : Z) : ascii := ascii_of_nat (Z.to_nat (48 + n mod 10)).

Definition pad2 (n : Z) (rest : string) : string :=
  String (digit (n / 10)) (String (digit n) rest).

Definition pad4 (n : Z) (rest : string) : string :=
  String (digit (n / 1000)) (String (digit (n / 100)) (pad2 n rest)).

Definition pad6 (n : Z) (rest : string) : string :=
  String (digit (n / 100000)) (String (digit (n / 10000)) (pad4 n rest)).

(** [d.strftime('%Y-%m-%d')].  The four digits of [%Y] are what every
    platform writes for the years 1000 to 9999; for an earlier year the C
    library decides, and glibc leaves the leading zeros out. *)
Definition strftime (d : date) : string :=
  pad4 (year d) (String "-" (pad2 (month d) (String "-" (pad2 (day d) "")))).

(** [t.isoformat()]: the microseconds are left out when they are zero. *)
Definition isoformat (t : datetime) : string :=
  pad4 (year (dt_date t)) (String "-" (pad2 (month (dt_date t)) (String "-"
  (pad2 (day (dt_date t)) (String "T" (pad2 (hour t) (String ":"
  (pad2 (minute t) (String ":" (pad2 (second t)
  (if (microsecond t =? 0)%Z then "" else String "." (pad6 (microsecond t) "")))))))))))).

(** Python compares strings by code point, left to right: [a >= b]. *)
Definition str_ge (a b : string) : bool := String.leb b a.

End Calendar.

Export Calendar.

(** ** Values, files and the world the code runs in *)

(** The values an observation holds: the floats of [error], [actual],
    [predicted], [abs_error], and the string of [timestamp]. *)
Inductive value : Type :=
| VFloat (f : float)
| VStr (s : string).

(** A formatted message is kept as the pieces of its f-string, the
    rendering of a number under a format specification left symbolic. *)
Inductive piece : Type :=
| Lit (s : string)
| Fmt (spec : string) (x : float)
| Stamp (tz : string) (t : datetime).

Inductive level : Type := DEBUG | INFO | WARNING | ERROR.

(** What a history file holds: a snapshot [json.load] accepts, or bytes it
    rejects. *)
Inductive file_content : Type :=
| Snapshot (h : gmap string (gmap string (gmap string value)))
| Garbled.

(** What [requests.post] does: an HTTP response with its status code, or
    an exception (a [RequestException] such as a timeout, or another). *)
Inductive http_outcome : Type :=
| Response (status : nat)
| Fails (e : exn).

(** [ErrorHistoryTracker]'s attributes. *)
Record ErrorHistoryTracker : Type := Tracker {
  history_file : string;
  max_days : Z;
  history : gmap string (gmap string (gmap string value))
}.

(** The state outside the function being run: the clock, the file system,
    the process environment, the messaging channel with the requests
    posted to it so far, what was logged and printed, the tracker objects
    and the module global [_tracker] that refers to one of them.  A call is
    taken as instantaneous: each [datetime.now()] in it reads the same
    [now]. *)
Record World : Type := MkWorld {
  now : datetime;
  files : gmap string file_content;
  writable : string -> bool;
  mkdir_ok : string -> bool;
  environ : gmap string string;
  http : string -> list piece -> http_outcome;
  posted : list (string * list piece);
  log : list (level * list piece);
  stdout : list (list piece);
  objects : gmap nat ErrorHistoryTracker;
  _tracker : option nat
}.

Definition set_files (f : gmap string file_content) (w : World) : World :=
  MkWorld (now w) f (writable w) (mkdir_ok w) (environ w) (http w) (posted w)
          (log w) (stdout w) (objects w) (_tracker w).

Definition set_posted (d : list (string * list piece)) (w : World) : World :=
  MkWorld (now w) (files w) (writable w) (mkdir_ok w) (environ w) (http w) d
          (log w) (stdout w) (objects w) (_tracker w).

Definition set_log (l : list (level * list piece)) (w : World) : World :=
  MkWorld (now w) (files w) (writable w) (mkdir_ok w) (environ w) (http w) (posted w)
          l (stdout w) (objects w) (_tracker w).

Definition set_stdout (s : list (list piece)) (w : World) : World :=
  MkWorld (now w) (files w) (writable w) (mkdir_ok w) (environ w) (http w) (posted w)
          (log w) s (objects w) (_tracker w).

Definition set_objects (o : gmap nat ErrorHistoryTracker) (w : World) : World :=
  MkWorld (now w) (files w) (writable w) (mkdir_ok w) (environ w) (http w) (posted w)
          (log w) (stdout w) o (_tracker w).

Definition set_tracker_global (g : option nat) (w : World) : World :=
  MkWorld (now w) (files w) (writable w) (mkdir_ok w) (environ w) (http w) (posted w)
          (log w) (stdout w) (objects w) g.

(** [logger.<level>(msg)] and [print(msg)]. *)
Definition logging (l : level) (msg : list piece) (w : World) : World :=
  set_log (log w ++ [(l, msg)]) w.

Definition print (msg : list piece) (w : World) : World :=
  set_stdout (stdout w ++ [msg]) w.

(** ** utils/error_history.py *)

Module ErrorHistory.

(** What [get_error_statistics] returns: the dict with the keys [count],
    [min], [max], [avg] and [above_threshold_count]; [None] is Python's
    [None]. *)
Record Stats : Type := MkStats {
  count : nat;
  min : option float;
  max : option float;
  avg : option float;
  above_threshold_count : nat
}.

(** [__init__] with [history_file=None] stores the file under the package's
    [data] directory. *)
Definition data_dir : string := "data".
Definition default_history_file : string := "data/error_history.json".

(** [_load_history]: a missing or unreadable file gives an empty history. *)
Definition _load_history (path : string) (w : World)
  : gmap string (gmap string (gmap string value)) * World :=
  match files w !! path with
  | None =>
      (∅, logging INFO [Lit "No history file found at "; Lit path;
                        Lit ". Creating a new one."] w)
  | Some (Snapshot h) =>
      (h, logging INFO [Lit "Loaded error history from "; Lit path] w)
  | Some Garbled =>
      (∅, logging ERROR [Lit "Error decoding JSON from "; Lit path;
                         Lit ". Creating a new history."] w)
  end.

(** [__init__]: [data_dir.mkdir(exist_ok=True)] is outside any [try]. *)
Definition __init__ (history_file : option string) (max_days : Z) (w : World)
  : result ErrorHistoryTracker * World :=
  match history_file with
  | None =>
      if mkdir_ok w data_dir then
        let '(h, w') := _load_history default_history_file w in
        (Ok (Tracker default_history_file max_days h), w')
      else (Raise OSError, w)
  | Some path =>
      let '(h, w') := _load_history path w in
      (Ok (Tracker path max_days h), w')
  end.

(** [_save_history]: creating the directory, opening the file and dumping
    the snapshot sit in one [try]; whichever of them fails, the method logs
    and returns [False].  [writable] says whether they all succeed; a
    failure is taken to leave the file as it was. *)
Definition _save_history (self : ErrorHistoryTracker) (w : World) : bool * World :=
  if writable w (history_file self) then
    (true,
     logging INFO [Lit "Saved error history to "; Lit (history_file self)]
       (set_files (<[history_file self := Snapshot (history self)]> (files w)) w))
  else
    (false, logging ERROR [Lit "Error saving history file: "] w).

(** The cutoff both [_prune_old_entries] and [get_recent_errors] compute:
    [(datetime.now() - timedelta(days=days)).strftime('%Y-%m-%d')]. *)
Definition cutoff_date (w : World) (days : Z) : result string :=
  c ← minus_days (dt_date (now w)) days; Ok (strftime c).

(** The dict comprehension of [_prune_old_entries]. *)
Definition recent_entries (cutoff : string) (entries : gmap string (gmap string value))
  : gmap string (gmap string value) :=
  filter (λ kv, str_ge kv.1 cutoff = true) entries.

(** [_prune_old_entries]: every model's entries are replaced by the recent
    ones. *)
Definition _prune_old_entries (self : ErrorHistoryTracker) (w : World)
  : result unit * ErrorHistoryTracker :=
  match cutoff_date w (max_days self) with
  | Raise e => (Raise e, self)
  | Ok cutoff =>
      (Ok tt,
       Tracker (history_file self) (max_days self)
               (recent_entries cutoff <$> history self))
  end.

(** The entry [add_error] builds: [error] and [timestamp], then
    [entry.update(additional_metrics)] when the metrics are a non-empty
    dict.  [update] overwrites the keys the two dicts share. *)
Definition new_entry (error_value : float) (w : World)
    (additional_metrics : option (gmap string value)) : gmap string value :=
  let entry : gmap string value :=
    <["error" := VFloat error_value]>
      (<["timestamp" := VStr (isoformat (now w))]> ∅) in
  match additional_metrics with
  | Some metrics => if (size metrics =? 0)%nat then entry else metrics ∪ entry
  | None => entry
  end.

(** [add_error].  The history is changed before pruning and saving, so the
    tracker is returned also when pruning raises. *)
Definition add_error (model_name : string) (error_value : float)
    (forecast_date : option string) (additional_metrics : option (gmap string value))
    (self : ErrorHistoryTracker) (w : World)
  : result bool * ErrorHistoryTracker * World :=
  let forecast_date := default (strftime (dt_date (now w))) forecast_date in
  let h1 := match history self !! model_name with
            | None => <[model_name := ∅]> (history self)
            | Some _ => history self
            end in
  let entry := new_entry error_value w additional_metrics in
  let h2 := alter (insert forecast_date entry) model_name h1 in
  let self1 := Tracker (history_file self) (max_days self) h2 in
  match _prune_old_entries self1 w with
  | (Raise e, self2) => (Raise e, self2, w)
  | (Ok _, self2) =>
      let '(saved, w') := _save_history self2 w in (Ok saved, self2, w')
  end.

(** [get_model_history]. *)
Definition get_model_history (self : ErrorHistoryTracker) (model_name : string)
  : gmap string (gmap string value) :=
  default ∅ (history self !! model_name).

(** [(date, entry['error'])] for each item; a missing key raises. *)
Fixpoint date_errors (items : list (string * gmap string value))
  : result (list (string * value)) :=
  match items with
  | [] => Ok []
  | (date, entry) :: rest =>
      match entry !! "error" with
      | None => Raise (KeyError "error")
      | Some v => tl ← date_errors rest; Ok ((date, v) :: tl)
      end
  end.

(** The order [sorted(..., key=lambda x: x[0])] sorts by. *)
Definition by_date (a b : string * value) : Prop := String.leb a.1 b.1 = true.

#[export] Instance by_date_dec a b : Decision (by_date a b).
Proof. unfold by_date. apply _. Defined.

(** [get_recent_errors].  The dates of a dict are distinct, so the sorted
    list does not depend on the order the dict is walked in. *)
Definition get_recent_errors (self : ErrorHistoryTracker) (model_name : string)
    (days : Z) (w : World) : result (list (string * value)) :=
  let model_history := get_model_history self model_name in
  if (size model_history =? 0)%nat then Ok []
  else
    cutoff ← cutoff_date w days;
    recent ← date_errors
      (List.filter (λ kv, str_ge kv.1 cutoff) (map_to_list model_history));
    Ok (merge_sort by_date recent).

(** The errors as floats: [min], [max] and [sum] raise [TypeError] as soon
    as an [error] is not a number. *)
Fixpoint floats (vs : list value) : result (list float) :=
  match vs with
  | [] => Ok []
  | VFloat f :: rest => tl ← floats rest; Ok (f :: tl)
  | VStr _ :: _ => Raise TypeError
  end.

(** The statistics of a list of errors. *)
Definition statistics (recent_errors : list float) : Stats :=
  match recent_errors with
  | [] => MkStats 0 None None None 0
  | e :: es =>
      MkStats (length recent_errors)
              (Some (min_from e es))
              (Some (max_from e es))
              (Some (Py.sum recent_errors / float_of_nat (length recent_errors))%float)
              (count_if (λ e, gt e 5.0%float) recent_errors)
  end.

(** [get_error_statistics].  The divisor of [avg] is the length of a
    non-empty list. *)
Definition get_error_statistics (self : ErrorHistoryTracker) (model_name : string)
    (days : Z) (w : World) : result Stats :=
  recent ← get_recent_errors self model_name days w;
  recent_errors ← floats (snd <$> recent);
  Ok (statistics recent_errors).

(** The date an [add_error] call writes under, the history it has built
    before it prunes, and whether its pruning keeps a date. *)
Definition written_date (w : World) (forecast_date : option string) : string :=
  default (strftime (dt_date (now w))) forecast_date.

Definition inserted (model_name date : string) (entry : gmap string value)
    (h : gmap string (gmap string (gmap string value)))
  : gmap string (gmap string (gmap string value)) :=
  alter (insert date entry) model_name
    (match h !! model_name with
     | None => <[model_name := ∅]> h
     | Some _ => h
     end).

Definition retained (w : World) (self : ErrorHistoryTracker) (date : string) : bool :=
  match cutoff_date w (max_days self) with
  | Ok cutoff => str_ge date cutoff
  | Raise _ => true
  end.

(** The observations a tracker holds for a (model, date) key. *)
Definition observations (self : ErrorHistoryTracker) (model_name date : string)
  : list (string * gmap string value) :=
  List.filter (λ kv, bool_decide (kv.1 = date))
    (map_to_list (get_model_history self model_name)).

(** A sequence of [add_error] calls on one tracker, each in the world it
    is made in; the tracker is kept also when a call raises. *)
Record Call : Type := MkCall {
  c_model : string;
  c_error : float;
  c_date : option string;
  c_metrics : option (gmap string value);
  c_world : World
}.

Definition perform (c : Call) (self : ErrorHistoryTracker) : ErrorHistoryTracker :=
  (add_error (c_model c) (c_error c) (c_date c) (c_metrics c) self (c_world c)).1.2.

Fixpoint run (calls : list Call) (self : ErrorHistoryTracker) : ErrorHistoryTracker :=
  match calls with
  | [] => self
  | c :: rest => run rest (perform c self)
  end.

Definition writes (c : Call) (model_name date : string) : Prop :=
  c_model c = model_name ∧ written_date (c_world c) (c_date c) = date.

#[export] Instance writes_dec c m d : Decision (writes c m d).
Proof. unfold writes. apply _. Defined.

(** The entry of the last call of the sequence that wrote the key, or what
    was there before when none did. *)
Fixpoint last_write (model_name date : string) (calls : list Call)
    (before : option (gmap string value)) : option (gmap string value) :=
  match calls with
  | [] => before
  | c :: rest =>
      last_write model_name date rest
        (if decide (writes c model_name date)
         then Some (new_entry (c_error c) (c_world c) (c_metrics c))
         else before)
  end.

(** The module's [get_tracker]: the global [_tracker] is assigned on the
    first call only; the arguments of a later call are not looked at. *)
Definition get_tracker (history_file : option string) (max_days : Z) (w : World)
  : result nat * World :=
  match _tracker w with
  | None =>
      match __init__ history_file max_days w with
      | (Raise e, w') => (Raise e, w')
      | (Ok t, w') =>
          let ref := fresh (dom (objects w')) in
          (Ok ref, set_tracker_global (Some ref) (set_objects (<[ref := t]> (objects w')) w'))
      end
  | Some ref => (Ok ref, w)
  end.

(** A method called through a reference: the object it leaves behind
    replaces the one in the store, also when the method raises.  (A
    reference always has its object; the other case makes the function
    total.) *)
Definition call {A} (ref : nat)
    (method : ErrorHistoryTracker -> World -> result A * ErrorHistoryTracker * World)
    (w : World) : result A * World :=
  match objects w !! ref with
  | None => (Raise RuntimeError, w)
  | Some self =>
      let '(r, self', w') := method self w in
      (r, set_objects (<[ref := self']> (objects w')) w')
  end.

(** A method that only reads its object. *)
Definition query {A} (ref : nat) (method : ErrorHistoryTracker -> World -> result A)
    (w : World) : result A * World :=
  match objects w !! ref with
  | None => (Raise RuntimeError, w)
  | Some self => (method self w, w)
  end.

End ErrorHistory.

(** ** utils/telegram_notifier.py *)

Module Telegram.

(** [TelegramNotifier]'s attributes (the logger apart). *)
Record TelegramNotifier : Type := Notifier {
  token : string;
  chat_id : string;
  timezone : string
}.

(** The names an instance answers to: what the class defines and what
    [__init__] assigns.  Any other name raises [AttributeError]. *)
Definition class_methods : list string :=
  ["__init__"; "_validate_and_fix_token"; "send_alert"; "test_connection";
   "_send_message"].

Definition instance_attributes : list string :=
  ["token"; "chat_id"; "timezone"; "logger"].

Definition getattr (self : TelegramNotifier) (name : string) : result unit :=
  if bool_decide (name ∈ (class_methods ++ instance_attributes)%list) then Ok tt
  else Raise (AttributeError name).

(** [s.split(':')] and [s.count(':')]. *)
Fixpoint split_colon (s : string) : list string :=
  match s with
  | EmptyString => [EmptyString]
  | String c rest =>
      if Ascii.eqb c ":" then EmptyString :: split_colon rest
      else match split_colon rest with
           | [] => [String c EmptyString]
           | part :: parts => String c part :: parts
           end
  end.

Definition count_colon (s : string) : nat := length (split_colon s) - 1.

(** [arg or os.environ.get(name)]. *)
Definition or_environ (arg : option string) (name : string) (w : World) : option string :=
  match arg with
  | Some s => if String.eqb s "" then environ w !! name else Some s
  | None => environ w !! name
  end.

(** [_validate_and_fix_token]. *)
Definition _validate_and_fix_token (self : TelegramNotifier) (w : World)
  : TelegramNotifier * World :=
  if String.eqb (token self) "" then (self, w)
  else
    let '(self1, w1) :=
      if (1 <? count_colon (token self))%nat then
        let w1 := logging WARNING
          [Lit "Token format issue detected - appears to be duplicated. Attempting to fix..."] w in
        match split_colon (token self) with
        | p0 :: p1 :: _ =>
            (Notifier (p0 ++ ":" ++ List.hd "" (split_colon p1)) (chat_id self) (timezone self),
             logging INFO [Lit "Token format fixed"] w1)
        | _ => (self, w1)
        end
      else (self, w) in
    if (count_colon (token self1) =? 0)%nat then
      (self1, logging WARNING
         [Lit "Token doesn't contain required format (numbers:letters)"] w1)
    else (self1, w1).

(** [__init__]: without a token or a chat id the notifier refuses to be
    built. *)
Definition __init__ (token chat_id : option string) (timezone : string) (w : World)
  : result TelegramNotifier * World :=
  match or_environ token "TELEGRAM_BOT_TOKEN" w,
        or_environ chat_id "TELEGRAM_CHAT_ID" w with
  | Some t, Some c =>
      if String.eqb t "" || String.eqb c "" then
        (Raise (ValueError "Missing Telegram token or chat_id"),
         logging ERROR [Lit "Missing Telegram token or chat_id. Set TELEGRAM_BOT_TOKEN and TELEGRAM_CHAT_ID environment variables."] w)
      else
        let '(self, w') := _validate_and_fix_token (Notifier t c timezone) w in
        (Ok self, w')
  | _, _ =>
      (Raise (ValueError "Missing Telegram token or chat_id"),
       logging ERROR [Lit "Missing Telegram token or chat_id. Set TELEGRAM_BOT_TOKEN and TELEGRAM_CHAT_ID environment variables."] w)
  end.

(** The token as the debug line shows it. *)
Definition masked_token (t : string) : string :=
  if (10 <? String.length t)%nat then
    substring 0 5 t ++ "..." ++ substring (String.length t - 5) 5 t
  else "***masked***".

Definition api_url (self : TelegramNotifier) : string :=
  "https://api.telegram.org/bot" ++ token self ++ "/sendMessage".

(** An outcome the caller sees as a failure: an exception, or a response
    [raise_for_status] refuses. *)
Definition rejected (o : http_outcome) : bool :=
  match o with
  | Response status => (400 <=? status)%nat && (status <? 600)%nat
  | Fails _ => true
  end.

(** [_send_message]: one POST; [raise_for_status] turns a 4xx or 5xx
    response into an [HTTPError], which is a [RequestException].  Every
    failure is logged and answered with [False]; nothing else is kept. *)
Definition _send_message (self : TelegramNotifier) (message : list piece) (w : World)
  : bool * World :=
  let api_url := api_url self in
  let w1 := logging DEBUG
    [Lit "Sending request to: https://api.telegram.org/bot";
     Lit (masked_token (token self)); Lit "/sendMessage"] w in
  let w2 := set_posted (posted w1 ++ [(api_url, message)])%list w1 in
  match http w api_url message with
  | Response status =>
      if (400 <=? status)%nat && (status <? 600)%nat then
        (false, logging ERROR [Lit "Failed to send Telegram message: "] w2)
      else
        (true, logging INFO [Lit "Message sent to Telegram chat "; Lit (chat_id self)] w2)
  | Fails RequestException =>
      (false, logging ERROR [Lit "Failed to send Telegram message: "] w2)
  | Fails _ =>
      (false, logging ERROR [Lit "Unexpected error sending Telegram message: "] w2)
  end.

(** [s.lower()] on the ASCII letters. *)
Definition lower_ascii (c : ascii) : ascii :=
  let n := nat_of_ascii c in
  if (65 <=? n)%nat && (n <=? 90)%nat then ascii_of_nat (n + 32) else c.

Fixpoint lower (s : string) : string :=
  match s with
  | EmptyString => EmptyString
  | String c rest => String (lower_ascii c) (lower rest)
  end.

(** [emoji_map.get(error_level.lower(), ...)]. *)
Definition emoji (error_level : string) : string :=
  let l := lower error_level in
  if String.eqb l "info" then "ℹ️"
  else if String.eqb l "warning" then "⚠️"
  else if String.eqb l "error" then "🚨"
  else if String.eqb l "critical" then "🔥"
  else "ℹ️".

Definition nl : string := String (ascii_of_nat 10) EmptyString.

(** The message [send_alert] formats. *)
Definition formatted_message (self : TelegramNotifier) (message : list piece)
    (error_level : string) (model_name : option string) (error_value : option float)
    (w : World) : list piece :=
  ([Lit (emoji error_level); Lit " *Load Forecasting Alert* "; Lit (emoji error_level);
   Lit nl; Lit nl]
  ++ match model_name with
     | Some m => if String.eqb m "" then [] else [Lit "*Model:* `"; Lit m; Lit "`"; Lit nl]
     | None => []
     end
  ++ match error_value with
     | Some e => [Lit "*Forecast Error:* `"; Fmt ".2f" e; Lit "%`"; Lit nl; Lit nl]
     | None => []
     end
  ++ message ++ [Lit nl; Lit nl]
  ++ [Lit "*Time:* `"; Stamp (timezone self) (now w); Lit "`"])%list.

(** [send_alert]: format, then [_send_message]; its answer is passed on.
    This is the method for a notifier whose time zone [pytz] knows, the
    default ['Asia/Kolkata'] among them; the lookup of line 96, which
    raises for another one, is in [Zoned.send_alert]. *)
Definition send_alert (self : TelegramNotifier) (message : list piece)
    (error_level : string) (model_name : option string) (error_value : option float)
    (w : World) : bool * World :=
  _send_message self (formatted_message self message error_level model_name error_value w) w.

(** [test_connection]. *)
Definition test_connection (self : TelegramNotifier) (w : World) : bool * World :=
  let '(r, w') := _send_message self
    [Lit "🔄 *Connection Test*"; Lit nl; Lit nl;
     Lit "This is a test message from the Electric Load Forecasting system."] w in
  (r, logging (if r then INFO else ERROR)
        [Lit (if r then "Telegram connection test successful"
              else "Telegram connection test failed")] w').

End Telegram.

(** ** The time zone of an alert

    [send_alert] resolves its time zone before it formats anything:
    [pytz.timezone(self.timezone)] at line 96, outside any [try], raises
    [UnknownTimeZoneError], a [KeyError], for a name the zone database does
    not have.  [known] is that database. *)

Module Zoned.

Definition send_alert (known : string -> bool) (self : Telegram.TelegramNotifier)
    (message : list piece) (error_level : string) (model_name : option string)
    (error_value : option float) (w : World) : result bool * World :=
  if known (Telegram.timezone self) then
    let '(sent, w') :=
      Telegram.send_alert self message error_level model_name error_value w in
    (Ok sent, w')
  else (Raise (KeyError (Telegram.timezone self)), w).

End Zoned.

(** ** Models/scheduler.py *)

Module Scheduler.

Import ErrorHistory.

(** A computation that reads and changes the world and may raise. *)
Definition Run (A : Type) : Type := World -> result A * World.

Definition ret {A} (a : A) : Run A := λ w, (Ok a, w).

Definition bind {A B} (m : Run A) (f : A -> Run B) : Run B :=
  λ w, match m w with
       | (Ok a, w') => f a w'
       | (Raise e, w') => (Raise e, w')
       end.

Notation "'do' x <- m ; k" := (bind m (λ x, k))
  (at level 10, x name, m at level 100, k at level 200).

(** [try: body except Exception: handler]. *)
Definition try_except {A} (body : Run A) (handler : Run A) : Run A :=
  λ w, match body w with
       | (Ok a, w') => (Ok a, w')
       | (Raise _, w') => handler w'
       end.

Definition pure {A} (r : result A) : Run A := λ w, (r, w).
Definition effect (f : World -> World) : Run unit := λ w, (Ok tt, f w).
Definition total {A} (f : World -> A * World) : Run A :=
  λ w, let '(a, w') := f w in (Ok a, w').

(** Lines 36-39: the absolute percentage error.  The integer [0] of the
    branch [actual == 0 == predicted] is the float it equals. *)
Definition error_pct_of (actual_value predicted_value : float) : result float :=
  if is_zero actual_value then
    Ok (if negb (is_zero predicted_value) then infinity else 0%float)
  else
    q ← truediv (actual_value - predicted_value)%float actual_value;
    Ok (PrimFloat.abs q * 100)%float.

(** Lines 48-53: the statistics before any are read. *)
Definition no_stats : Stats := MkStats 0 None None None 0.

(** Lines 61-65: the context stored with the error. *)
Definition context (actual_value predicted_value : float) : gmap string value :=
  <["actual" := VFloat actual_value]>
    (<["predicted" := VFloat predicted_value]>
       (<["abs_error" := VFloat (PrimFloat.abs (actual_value - predicted_value))]> ∅)).

(** Lines 56-81: the error goes into the history and the 7-day statistics
    are read; whatever is raised on the way is printed and dropped. *)
Definition save_to_history (actual_value predicted_value error_pct : float)
    (model_name forecast_date : string) : Run Stats :=
  try_except
    (do tracker <- get_tracker None 30;
     do _ <- call tracker (add_error model_name error_pct (Some forecast_date)
                          (Some (context actual_value predicted_value)));
     do stats <- query tracker (λ self, get_error_statistics self model_name 7);
     do _ <- effect (match avg stats, min stats, max stats with
                  | Some a, Some lo, Some hi =>
                      print [Lit model_name; Lit " 7-day avg error: "; Fmt ".2f" a;
                             Lit "% (min: "; Fmt ".2f" lo; Lit "%, max: "; Fmt ".2f" hi;
                             Lit "%)"]
                  | _, _, _ => id
                  end);
     ret stats)
    (do _ <- effect (print [Lit "Failed to save error history: "]); ret no_stats).

(** Lines 90-95: the tier of an alert and the text it opens with. *)
Definition severity (error_pct : float) : string * list piece :=
  if gt error_pct 10.0%float then
    ("critical", [Lit "Critical forecast deviation detected. Immediate review required."])
  else
    ("error", [Lit "Forecast error exceeds acceptable threshold. Manual review recommended."]).

(** Lines 98-100: the comparison with the 7-day average. *)
Definition with_trend (error_pct : float) (stats : Stats) (message : list piece)
  : result (list piece) :=
  match avg stats with
  | Some a =>
      if gt error_pct (a * 1.5)%float then
        ratio ← truediv error_pct a;
        Ok (message ++ [Lit Telegram.nl; Lit Telegram.nl; Lit "This error is ";
                        Fmt ".1f" ratio; Lit "x higher than the 7-day average (";
                        Fmt ".2f" a; Lit "%)."])%list
      else Ok message
  | None => Ok message
  end.

(** Lines 85-113: build the notifier, choose the tier, send. *)
Definition notify (error_pct : float) (model_name : string) (stats : Stats) : Run unit :=
  try_except
    (do notifier <- Telegram.__init__ None None "Asia/Kolkata";
     let '(level, message) := severity error_pct in
     do message <- pure (with_trend error_pct stats message);
     do _ <- total (Telegram.send_alert notifier message level (Some model_name)
                   (Some error_pct));
     effect (print [Lit "Alert notification sent for "; Lit model_name]))
    (effect (print [Lit "Failed to send notification: "])).

(** [evaluate_forecast_and_notify]. *)
Definition evaluate_forecast_and_notify (actual_value predicted_value : float)
    (model_name : string) (forecast_date : option string) : Run float :=
  do error_pct <- pure (error_pct_of actual_value predicted_value);
  do _ <- effect (print [Lit model_name; Lit " forecast error: "; Fmt ".2f" error_pct;
                      Lit "%"]);
  do today <- (λ w, (Ok (strftime (dt_date (now w))), w));
  let forecast_date := default today forecast_date in
  do stats <- save_to_history actual_value predicted_value error_pct model_name
             forecast_date;
  do _ <- (if gt error_pct 5.0%float then notify error_pct model_name stats else ret tt);
  ret error_pct.

(** The formula as the specification writes it:
    [|actual - predicted| / actual * 100]. *)
Definition claimed_error_pct (actual predicted : float) : float :=
  (PrimFloat.abs (actual - predicted) / actual * 100)%float.

End Scheduler.

(** ** A running program

    What a program does after its first [get_tracker]: call it again with
    any arguments, write an error through a reference, run a forecast
    evaluation, or let the clock, the disk and the network change. *)

Module Session.

Import ErrorHistory Scheduler.

Inductive action : Type :=
| GetTracker (history_file : option string) (max_days : Z)
| AddError (ref : nat) (model_name : string) (error_value : float)
    (forecast_date : option string) (additional_metrics : option (gmap string value))
| Evaluate (actual predicted : float) (model_name : string) (forecast_date : option string)
| Elapse (t : datetime) (writable : string → bool)
    (http : string → list piece → http_outcome).

Definition step (a : action) (w : World) : World :=
  match a with
  | GetTracker history_file max_days => (get_tracker history_file max_days w).2
  | AddError ref model_name error_value forecast_date additional_metrics =>
      (call ref (add_error model_name error_value forecast_date additional_metrics) w).2
  | Evaluate actual predicted model_name forecast_date =>
      (evaluate_forecast_and_notify actual predicted model_name forecast_date w).2
  | Elapse t wr h =>
      MkWorld t (files w) wr (mkdir_ok w) (environ w) h (posted w) (log w) (stdout w)
              (objects w) (_tracker w)
  end.

Definition steps (actions : list action) (w : World) : World :=
  fold_left (λ w a, step a w) actions w.

(** The storage path and retention window of the tracker behind a
    reference. *)
Definition config (w : World) (ref : nat) : option (string * Z) :=
  (λ self, (history_file self, max_days self)) <$> objects w !! ref.

(** The error a tracker holds under a (model, date) key. *)
Definition recorded_error (w : World) (ref : nat) (model_name date : string)
  : option value :=
  match objects w !! ref with
  | Some self =>
      match get_model_history self model_name !! date with
      | Some entry => entry !! "error"
      | None => None
      end
  | None => None
  end.

(** [w'] has the global and every tracker's configuration as [w] has. *)
Definition keeps (w w' : World) : Prop :=
  _tracker w' = _tracker w ∧ ∀ r, config w' r = config w r.

(** [w'] has the clock, the channel and the environment as [w] has, and
    nothing more was posted. *)
Definition same_channel (w w' : World) : Prop :=
  now w' = now w ∧ posted w' = posted w ∧ http w' = http w ∧ environ w' = environ w.

End Session.

(** ** A concrete world

    The clock reads 2026-11-03 08:38:00, no history file exists yet, the
    disk takes writes, the credentials are set and the channel answers
    200. *)

Module Sample.

Definition clock : datetime := DateTime (Date 2026 11 3) 8 38 0 0.

Definition credentials : gmap string string :=
  <["TELEGRAM_BOT_TOKEN" := "123456:ABCDEF"]> (<["TELEGRAM_CHAT_ID" := "42"]> ∅).

Definition world : World :=
  MkWorld clock ∅ (λ _, true) (λ _, true) credentials (λ _ _, Response 200)
          [] [] [] ∅ None.

(** The same world with a disk that refuses every write. *)
Definition read_only_world : World :=
  MkWorld clock ∅ (λ _, false) (λ _, true) credentials (λ _ _, Response 200)
          [] [] [] ∅ None.

(** The same world with a channel that times out. *)
Definition offline_world : World :=
  MkWorld clock ∅ (λ _, true) (λ _, true) credentials (λ _ _, Fails RequestException)
          [] [] [] ∅ None.

Definition tracker : ErrorHistoryTracker := Tracker "data/error_history.json" 30 ∅.

Definition notifier : Telegram.TelegramNotifier :=
  Telegram.Notifier "123456:ABCDEF" "42" "Asia/Kolkata".

Definition observation (error : float) : gmap string value :=
  <["error" := VFloat error]> (<["timestamp" := VStr "2026-11-03T08:00:00"]> ∅).

(** A tracker with the errors 3.0, 7.0 and 12.0 on three recent days. *)
Definition busy_tracker : ErrorHistoryTracker :=
  Tracker "data/error_history.json" 30
    (<["ARIMA" := <["2026-11-01" := observation 3]>
                    (<["2026-11-02" := observation 7]>
                       (<["2026-11-03" := observation 12]> ∅))]> ∅).

(** A tracker that still holds an entry from two months ago. *)
Definition stale_tracker : ErrorHistoryTracker :=
  Tracker "data/error_history.json" 30
    (<["ARIMA" := <["2026-09-01" := observation 4]>
                    (<["2026-10-20" := observation 2]> ∅)]> ∅).

(** A world whose singleton tracker holds one recent entry, of error 0. *)
Definition quiet_world : World :=
  MkWorld clock ∅ (λ _, true) (λ _, true) credentials (λ _ _, Response 200)
          [] [] []
          (<[0%nat := Tracker "data/error_history.json" 30
                        (<["ARIMA" := <["2026-11-02" := observation 0]> ∅]> ∅)]> ∅)
          (Some 0%nat).

(** Metrics that carry the reserved keys. *)
Definition forged : gmap string value :=
  <["error" := VFloat 99]> (<["timestamp" := VStr "never"]> ∅).

End Sample.

(** ** notification.py *)

Module Notification.

Import Scheduler.

(** The module reads both credentials once, when it is imported:
    [os.environ.get(name, '')]. *)
Definition TELEGRAM_BOT_TOKEN (w : World) : string :=
  default "" (environ w !! "TELEGRAM_BOT_TOKEN").

Definition TELEGRAM_CHAT_ID (w : World) : string :=
  default "" (environ w !! "TELEGRAM_CHAT_ID").

(** Lines 50-58: the emoji and the severity of an error value. *)
Definition tier (error_value : float) : string * string :=
  if gt error_value 10%float then ("🚨", "Critical")
  else if gt error_value 5%float then ("⚠️", "Warning")
  else ("ℹ️", "Info").

(** [datetime.now().strftime("%Y-%m-%d %H:%M:%S")]. *)
Definition strftime_seconds (t : datetime) : string :=
  strftime (dt_date t) ++ " " ++
  pad2 (hour t) (String ":" (pad2 (minute t) (String ":" (pad2 (second t) "")))).

(** Lines 61-68: the text of the alert. *)
Definition text (model_name : string) (error_value : float) (message : option string)
    (w : World) : list piece :=
  ([Lit (tier error_value).1; Lit " *"; Lit (tier error_value).2;
    Lit " Forecast Alert* "; Lit (tier error_value).1; Lit Telegram.nl; Lit Telegram.nl;
    Lit "*Model:* `"; Lit model_name; Lit "`"; Lit Telegram.nl;
    Lit "*Error:* `"; Fmt ".2f" error_value; Lit "%`"; Lit Telegram.nl; Lit Telegram.nl]
   ++ match message with
      | Some m => if String.eqb m "" then [] else [Lit m; Lit Telegram.nl; Lit Telegram.nl]
      | None => []
      end
   ++ [Lit "*Time:* `"; Lit (strftime_seconds (now w)); Lit "`"])%list.

(** [Bot(token=...)] followed by [await bot.send_message(chat_id, text,
    parse_mode)]: the call into the Telegram library.  The world records
    the call and tells its outcome: it returns when the channel takes the
    message and raises otherwise. *)
Definition send_message (token : string) (text : list piece) : Run unit :=
  λ w,
    let url := "https://api.telegram.org/bot" ++ token ++ "/sendMessage" in
    let w' := set_posted (posted w ++ [(url, text)])%list w in
    match http w url text with
    | Response status =>
        if Telegram.rejected (Response status) then (Raise RequestException, w')
        else (Ok tt, w')
    | Fails e => (Raise e, w')
    end.

(** [send_forecast_alert]. *)
Definition send_forecast_alert (model_name : string) (error_value : float)
    (message : option string) : Run bool :=
  λ w,
    if String.eqb (TELEGRAM_BOT_TOKEN w) "" || String.eqb (TELEGRAM_CHAT_ID w) "" then
      (Ok false,
       logging ERROR [Lit "Cannot send notification: Missing Telegram credentials"] w)
    else
      try_except
        (if String.eqb (TELEGRAM_BOT_TOKEN w) "" then
           do _ <- effect (logging ERROR [Lit "Cannot send notification: Bot token is None"]);
           ret false
         else if String.eqb (TELEGRAM_CHAT_ID w) "" then
           do _ <- effect (logging ERROR [Lit "Cannot send notification: Chat ID is None"]);
           ret false
         else
           do _ <- send_message (TELEGRAM_BOT_TOKEN w)
                     (text model_name error_value message w);
           do _ <- effect (logging INFO [Lit "Sent "; Lit (Telegram.lower (tier error_value).2);
                                      Lit " notification for "; Lit model_name]);
           ret true)
        (do _ <- effect (logging ERROR [Lit "Failed to send notification: "]); ret false)
        w.

End Notification.

(** ** test_alert.py *)

Module TestAlert.

Import Scheduler.

(** [await v] for a [v] that is a plain [bool]: Python raises
    [TypeError], a [bool] not being awaitable. *)
Definition await_bool (v : bool) : result unit := Raise TypeError.

(** Lines 49-62: the wrapper the script defines when [notification]
    cannot be imported.  The notifier is built outside the [try]. *)
Definition send_forecast_alert (model_name : string) (error_value : float)
    (message : option string) : Run bool :=
  do notifier <- Telegram.__init__ None None "Asia/Kolkata";
  let level := if gt error_value 10.0%float then "critical" else "error" in
  let message :=
    match message with
    | Some m => if String.eqb m "" then "Forecast error exceeds acceptable threshold. Manual review recommended." else m
    | None => "Forecast error exceeds acceptable threshold. Manual review recommended."
    end in
  try_except
    (do sent <- total (Telegram.send_alert notifier [Lit message] level (Some model_name)
                      (Some error_value));
     do _ <- pure (await_bool sent);
     ret true)
    (do _ <- effect (logging ERROR [Lit "Error sending alert: "]); ret false).

(** [test_notification], with the [send_forecast_alert] the imports left:
    the one of [notification] or the wrapper.  [BOT_TOKEN] and [CHAT_ID]
    are what the environment held when the script started. *)
Definition test_notification (send : string → float → option string → Run bool)
  : Run bool :=
  do _ <- effect (logging INFO [Lit "Sending test forecast alert..."]);
  try_except
    (do result <- send "ARIMA" 8.75%float
                    (Some "This is a test alert from the Electric Load Forecasting system.");
     if result : bool then
       do _ <- effect (logging INFO
                      [Lit "✅ Test alert sent successfully! Check your Telegram."]);
       do _ <- effect (λ w,
                 match environ w !! "TELEGRAM_BOT_TOKEN" with
                 | Some t =>
                     if String.eqb t "" then w
                     else logging INFO
                            [Lit "   Bot Token: ...";
                             Lit (substring (String.length t - 4) 4 t);
                             Lit " (last 4 characters)"] w
                 | None => w
                 end);
       do _ <- effect (λ w,
                 logging INFO
                   [Lit "   Chat ID: ";
                    Lit (default "None" (environ w !! "TELEGRAM_CHAT_ID"))] w);
       ret true
     else
       do _ <- effect (logging ERROR [Lit "❌ Failed to send test alert."]);
       ret false)
    (do _ <- effect (logging ERROR [Lit "❌ Error sending test alert: "]); ret false).

End TestAlert.

(** ** test_telegram.py *)

Module TestTelegram.

Import Scheduler.

(** [not os.environ.get(name)]: the variable is unset or empty. *)
Definition unset (name : string) (w : World) : bool :=
  String.eqb (default "" (environ w !! name)) "".

(** The double quote of the example lines. *)
Definition quote : string := String (ascii_of_nat 34) EmptyString.

(** [test_notification].  [float(error_value)] of a float is that float,
    so the inner [except ValueError] has nothing to catch; the
    [AttributeError] of [notifier.process_queue()] passes it and reaches
    the outer [except Exception]. *)
Definition test_notification (error_value : option float) (model_name : option string)
  : Run bool :=
  λ w,
    if unset "TELEGRAM_BOT_TOKEN" w || unset "TELEGRAM_CHAT_ID" w then
      (Ok false,
       print [Lit "TELEGRAM_CHAT_ID="; Lit quote; Lit "YOUR_CHAT_ID_HERE"; Lit quote]
         (print [Lit "TELEGRAM_BOT_TOKEN="; Lit quote; Lit "YOUR_BOT_TOKEN_HERE"; Lit quote]
            (print [Lit Telegram.nl; Lit "Example .env file contents:"]
               (print [Lit "Please set TELEGRAM_BOT_TOKEN and TELEGRAM_CHAT_ID in .env file."]
                  (print [Lit "Error: Missing Telegram credentials."] w)))))
    else
      try_except
        (do notifier <- Telegram.__init__ None None "Asia/Kolkata";
         do connected <- total (Telegram.test_connection notifier);
         if connected : bool then
           do _ <- effect (print [Lit "✅ Connection to Telegram API successful!"]);
           do _ <- match error_value with
                   | Some error_value =>
                       let error_level := if gt error_value 5.0%float then "error" else "info" in
                       let message :=
                         if gt error_value 5.0%float then "Manual review recommended."
                         else "Forecasting within acceptable range." in
                       do _ <- effect (print [Lit "Sending sample alert with ";
                                              Fmt "" error_value; Lit "% error..."]);
                       do success <- total (Telegram.send_alert notifier [Lit message]
                                              error_level
                                              (Some (match model_name with
                                                     | Some m => if String.eqb m "" then "ARIMA" else m
                                                     | None => "ARIMA"
                                                     end))
                                              (Some error_value));
                       do _ <- effect (print [Lit (if success : bool
                                                   then "✅ Alert sent successfully! Check your Telegram."
                                                   else "❌ Failed to send alert. Message queued for retry.")]);
                       pure (Telegram.getattr notifier "process_queue")
                   | None => ret tt
                   end;
           ret true
         else
           do _ <- effect (print [Lit "❌ Failed to connect to Telegram API."]);
           ret false)
        (do _ <- effect (print [Lit "❌ Error: "]); ret false)
        w.

End TestTelegram.

(** ** test_forecast_alert.py *)

Module TestForecastAlert.

Import Scheduler.

(** [test_forecast_alert].  The literal [1.08] is the binary64 value
    [0x1.147ae147ae148p+0]. *)
Definition test_forecast_alert (actual : float) (predicted error_pct : option float)
    (model : string) : Run bool :=
  λ w,
    if TestTelegram.unset "TELEGRAM_BOT_TOKEN" w || TestTelegram.unset "TELEGRAM_CHAT_ID" w then
      (Ok false,
       print [Lit "Please set TELEGRAM_BOT_TOKEN and TELEGRAM_CHAT_ID in .env file."]
         (print [Lit "Error: Missing Telegram credentials."] w))
    else
      let predicted :=
        match error_pct, predicted with
        | Some p, None => Some (actual * (1 + p / 100))%float
        | _, _ => predicted
        end in
      let predicted := default (actual * 0x1.147ae147ae148p+0)%float predicted in
      (do _ <- effect (print [Lit "Testing with actual="; Fmt "" actual;
                              Lit ", predicted="; Fmt "" predicted]);
       try_except
         (do error <- evaluate_forecast_and_notify actual predicted model None;
          do _ <- effect (print [Lit "Test completed. Calculated error: "; Fmt ".2f" error;
                                 Lit "%"]);
          do _ <- effect (print [Lit "Check your Telegram for notifications if error > 5%"]);
          ret true)
         (do _ <- effect (print [Lit "Error during test: "]); ret false))
        w.

End TestForecastAlert.

(** ** server/swag/utils.py *)

Module Dashboard.

Import ErrorHistory.

(** An item of a model's [errors] list: the date, the value ([None] for a
    date the model has no entry for), its rendering and the violation
    flag. *)
Record Cell : Type := MkCell {
  cell_date : string;
  cell_value : option float;
  cell_formatted : list piece;
  is_violation : bool
}.

(** [model_data]; the keys [avg_formatted], [max_formatted] and
    [min_formatted] are renderings of the three numbers. *)
Record ModelData : Type := MkModelData {
  name : string;
  errors : list Cell;
  avg_error : float;
  max_error : float;
  min_error : float;
  violations : nat
}.

Definition avg_formatted (m : ModelData) : list piece := [Fmt ".2f" (avg_error m); Lit "%"].
Definition max_formatted (m : ModelData) : list piece := [Fmt ".2f" (max_error m); Lit "%"].
Definition min_formatted (m : ModelData) : list piece :=
  if PrimFloat.eqb (min_error m) infinity then [Lit "-"]
  else [Fmt ".2f" (min_error m); Lit "%"].

(** The three running totals of lines 59-61. *)
Record Totals : Type := MkTotals {
  total_errors : list float;
  total_forecasts : nat;
  threshold_violations : nat
}.

(** [result]: [models] is a dict, kept in insertion order; the keys
    [violation_rate] and the formatted ones exist once there is data. *)
Record Result : Type := MkResult {
  has_data : bool;
  models : list (string * ModelData);
  dates : list string;
  overall_avg_error : float;
  overall_threshold_violations : nat;
  overall_total_forecasts : nat;
  violation_rate : option float
}.

(** Lines 21-30. *)
Definition empty_result : Result := MkResult false [] [] 0 0 0 None.

(** A [for] loop whose body may raise. *)
Fixpoint for_each {A S} (body : A → S → result S) (items : list A) (s : S) : result S :=
  match items with
  | [] => Ok s
  | x :: rest => s' ← body x s; for_each body rest s'
  end.

(** Lines 76-105: one date of one model.  [f'{error_value:.2f}'] raises
    [ValueError] for a string. *)
Definition visit (model_dates : gmap string (gmap string value)) (date : string)
    (s : ModelData * list float * Totals) : result (ModelData * list float * Totals) :=
  let '(model_data, model_errors, totals) := s in
  match model_dates !! date with
  | Some entry =>
      match entry !! "error" with
      | None => Raise (KeyError "error")
      | Some (VStr _) => Raise (ValueError "Unknown format code 'f' for object of type 'str'")
      | Some (VFloat error_value) =>
          let violation := gt error_value 5.0%float in
          Ok (MkModelData (name model_data)
                (errors model_data ++
                 [MkCell date (Some error_value) [Fmt ".2f" error_value; Lit "%"] violation])
                (avg_error model_data)
                (if gt error_value (max_error model_data) then error_value
                 else max_error model_data)
                (if PrimFloat.ltb error_value (min_error model_data) then error_value
                 else min_error model_data)
                (if violation then S (violations model_data) else violations model_data),
              (model_errors ++ [error_value])%list,
              MkTotals (total_errors totals ++ [error_value])
                       (S (total_forecasts totals))
                       (if violation then S (threshold_violations totals)
                        else threshold_violations totals))
      end
  | None =>
      Ok (MkModelData (name model_data)
            (errors model_data ++ [MkCell date None [Lit "-"] false])
            (avg_error model_data) (max_error model_data) (min_error model_data)
            (violations model_data),
          model_errors, totals)
  end.

(** Lines 63-115: the loop over the models.  What it has put into
    [result['models']] stays there when a later model raises. *)
Fixpoint format_models (sorted_dates : list string)
    (history_data : list (string * gmap string (gmap string value)))
    (models : list (string * ModelData)) (totals : Totals)
  : list (string * ModelData) * result Totals :=
  match history_data with
  | [] => (models, Ok totals)
  | (model, model_dates) :: rest =>
      match for_each (visit model_dates) sorted_dates
              (MkModelData model [] 0 0 infinity 0, [], totals) with
      | Raise e => (models, Raise e)
      | Ok (model_data, model_errors, totals') =>
          format_models sorted_dates rest
            (match model_errors with
             | [] => models
             | _ :: _ =>
                 (models ++
                  [(model,
                    MkModelData (name model_data) (errors model_data)
                      (Py.sum model_errors / float_of_nat (List.length model_errors))
                      (max_error model_data) (min_error model_data)
                      (violations model_data))])%list
             end)
            totals'
      end
  end.

(** The order [sorted] puts the dates in. *)
Definition date_le (a b : string) : Prop := String.leb a b = true.

#[export] Instance date_le_dec a b : Decision (date_le a b).
Proof. unfold date_le. apply _. Defined.

(** Lines 47-55: the dates at or after the cutoff, over all models. *)
Definition all_dates (history_data : list (string * gmap string (gmap string value)))
    (cutoff : string) : gset string :=
  ⋃ ((λ item : string * gmap string (gmap string value),
        filter (λ date, str_ge date cutoff = true) (dom item.2)) <$> history_data).

(** Lines 44-127, for the loaded dict with its items in the order
    [history_data] lists them.  The [except] clause returns [result] as
    the code has left it. *)
Definition format_history (history_data : list (string * gmap string (gmap string value)))
    (cutoff : string) : Result :=
  let sorted_dates := merge_sort date_le (elements (all_dates history_data cutoff)) in
  match format_models sorted_dates history_data [] (MkTotals [] 0 0) with
  | (models, Ok totals) =>
      match total_errors totals with
      | [] => MkResult false models sorted_dates 0 0 0 None
      | _ :: _ =>
          MkResult true models sorted_dates
            (Py.sum (total_errors totals) / float_of_nat (List.length (total_errors totals)))
            (threshold_violations totals) (total_forecasts totals)
            (Some (if (0 <? total_forecasts totals)%nat
                   then (float_of_nat (threshold_violations totals)
                         / float_of_nat (total_forecasts totals) * 100)%float
                   else 0%float))
      end
  | (models, Raise _) => MkResult false models sorted_dates 0 0 0 None
  end.

(** [get_formatted_error_history].  The world keeps a snapshot as a map,
    which has the models of the file but not their order: the items are
    taken in the map's order. *)
Definition get_formatted_error_history (days : Z) (w : World) : Result :=
  match files w !! default_history_file with
  | None => empty_result
  | Some Garbled => empty_result
  | Some (Snapshot history_data) =>
      if (size history_data =? 0)%nat then empty_result
      else
        match cutoff_date w days with
        | Raise _ => empty_result
        | Ok cutoff => format_history (map_to_list history_data) cutoff
        end
  end.

(** The float a model's entry of a date holds under [error], if any. *)
Definition error_of (model_dates : gmap string (gmap string value)) (date : string)
  : option float :=
  match model_dates !! date ≫= (.!! "error") with
  | Some (VFloat e) => Some e
  | _ => None
  end.

(** A row of the table: it carries its model's name, one cell per listed
    date, in order, and each cell holds what the model's entry of that date
    holds. *)
Definition aligned (history_data : list (string * gmap string (gmap string value)))
    (sorted_dates : list string) (item : string * ModelData) : Prop :=
  name item.2 = item.1 ∧
  cell_date <$> errors item.2 = sorted_dates ∧
  ∃ model_dates, (item.1, model_dates) ∈ history_data ∧
    Forall (λ cell, cell_value cell = error_of model_dates (cell_date cell)) (errors item.2).

End Dashboard.

(** ** Views of the state used to state properties *)

Module Views.

Import ErrorHistory.

(** The items [get_recent_errors] reads: those of the model's dict dated
    at or after the cutoff. *)
Definition window (self : ErrorHistoryTracker) (model_name cutoff : string)
  : list (string * gmap string value) :=
  List.filter (λ kv, str_ge kv.1 cutoff) (map_to_list (get_model_history self model_name)).


End Views.

(** ** More concrete worlds *)

Module Cases.

(** The sample world without the two credentials. *)
Definition anonymous_world : World :=
  MkWorld Sample.clock ∅ (λ _, true) (λ _, true) ∅ (λ _ _, Response 200)
          [] [] [] ∅ None.

(** The sample world where the data directory cannot be created. *)
Definition no_data_dir_world : World :=
  MkWorld Sample.clock ∅ (λ _, true) (λ _, false) Sample.credentials
          (λ _ _, Response 200) [] [] [] ∅ None.

(** An entry without the [error] key. *)
Definition broken_entry : gmap string value :=
  <["timestamp" := VStr "2026-11-02T08:00:00"]> ∅.

(** A tracker holding a broken entry beside a sound one. *)
Definition malformed_tracker : ErrorHistoryTracker :=
  Tracker "data/error_history.json" 30
    (<["ARIMA" := <["2026-11-02" := broken_entry]>
                    (<["2026-11-03" := Sample.observation 4]> ∅)]> ∅).

(** The sample world with a history file on disk. *)
Definition world_with_file (h : gmap string (gmap string (gmap string value))) : World :=
  MkWorld Sample.clock (<["data/error_history.json" := Snapshot h]> ∅)
          (λ _, true) (λ _, true) Sample.credentials (λ _ _, Response 200)
          [] [] [] ∅ None.

(** What the first write of the error 3.0 for ARIMA leaves: the history,
    and the world with the snapshot on disk. *)
Definition saved_history : gmap string (gmap string (gmap string value)) :=
  <["ARIMA" := <["2026-11-03" := ErrorHistory.new_entry 3 Sample.world None]> ∅]> ∅.

Definition saved_world : World :=
  logging INFO [Lit "Saved error history to "; Lit "data/error_history.json"]
    (set_files (<["data/error_history.json" := Snapshot saved_history]> ∅) Sample.world).

End Cases.

(* ===================================================================== *)
(** * Part II: properties                                                 *)
(* ===================================================================== *)

(** ** Order and sign facts of binary64 floats

    The comparisons of floats are read off [SpecFloat]'s [SFcompare]
    through [rank]: [<], [<=] and [==] compare ranks lexicographically, and
    nothing compares with NaN. *)

Module FloatFacts.

Local Open Scope Z_scope.

Lemma SFcompare_rank x y :
  SFcompare x y =
  match rank x, rank y with
  | Some a, Some b => Some (cmp3 a b)
  | _, _ => None
  end.
Proof.
  destruct x as [s| s | |s m e], y as [s'|s'| |s' m' e']; try destruct s; try destruct s';
    try reflexivity; cbn -[Z.compare]; unfold cmp3; cbn -[Z.compare].
  change (-1 ?= -1) with Eq. cbv iota. rewrite Z.compare_opp, (Z.compare_antisym e e').
  destruct (e ?= e'); reflexivity.
Qed.

Lemma cmp3_Lt a b : cmp3 a b = Lt ↔ lt3 a b.
Proof.
  destruct a as [a1 [a2 a3]], b as [b1 [b2 b3]]. unfold cmp3, lt3. cbn [fst snd].
  destruct (Z.compare_spec a1 b1), (Z.compare_spec a2 b2), (Z.compare_spec a3 b3);
    split; intros; try discriminate; try reflexivity; try lia.
Qed.

Lemma cmp3_Eq a b : cmp3 a b = Eq ↔ a = b.
Proof.
  destruct a as [a1 [a2 a3]], b as [b1 [b2 b3]]. unfold cmp3. cbn [fst snd].
  destruct (Z.compare_spec a1 b1), (Z.compare_spec a2 b2), (Z.compare_spec a3 b3);
    split; intros H'; try discriminate; try reflexivity; try (inversion H'; lia);
    subst; reflexivity.
Qed.

Lemma ltb_rank x y :
  PrimFloat.ltb x y = true ↔ ∃ a b, frank x = Some a ∧ frank y = Some b ∧ lt3 a b.
Proof.
  rewrite FloatAxioms.ltb_spec. unfold SFltb, frank. rewrite SFcompare_rank.
  destruct (rank (Prim2SF x)) as [a|], (rank (Prim2SF y)) as [b|];
    try (split; [discriminate | intros (?&?&?&?&?); discriminate]).
  destruct (cmp3 a b) eqn:E; split; try discriminate;
    try (intros _; exists a, b; repeat split; now apply cmp3_Lt).
  - intros (?&?&[= <-]&[= <-]&H). apply cmp3_Lt in H. congruence.
  - reflexivity.
  - intros (?&?&[= <-]&[= <-]&H). apply cmp3_Lt in H. congruence.
Qed.

Lemma leb_rank x y :
  PrimFloat.leb x y = true ↔ ∃ a b, frank x = Some a ∧ frank y = Some b ∧ le3 a b.
Proof.
  rewrite FloatAxioms.leb_spec. unfold SFleb, frank, le3. rewrite SFcompare_rank.
  destruct (rank (Prim2SF x)) as [a|], (rank (Prim2SF y)) as [b|];
    try (split; [discriminate | intros (?&?&?&?&?); discriminate]).
  destruct (cmp3 a b) eqn:E; split; try discriminate; try reflexivity.
  - intros _. exists a, b. repeat split. right. now apply cmp3_Eq.
  - intros _. exists a, b. repeat split. left. now apply cmp3_Lt.
  - intros (?&?&[= <-]&[= <-]&[H|H]).
    + apply cmp3_Lt in H. congruence.
    + apply cmp3_Eq in H. congruence.
Qed.

Lemma eqb_rank x y :
  PrimFloat.eqb x y = true ↔ ∃ a, frank x = Some a ∧ frank y = Some a.
Proof.
  rewrite FloatAxioms.eqb_spec. unfold SFeqb, frank. rewrite SFcompare_rank.
  destruct (rank (Prim2SF x)) as [a|], (rank (Prim2SF y)) as [b|];
    try (split; [discriminate | intros (?&?&?); discriminate]).
  destruct (cmp3 a b) eqn:E; split; try discriminate; try reflexivity.
  - intros _. apply cmp3_Eq in E. subst. eauto.
  - intros (?&[= <-]&[= <-]). assert (cmp3 b b = Eq) by now apply cmp3_Eq. congruence.
  - intros (?&[= <-]&[= <-]). assert (cmp3 b b = Eq) by now apply cmp3_Eq. congruence.
Qed.

(** [x <= y] excludes [x > y]. *)
Lemma leb_not_gt x y : PrimFloat.leb x y = true → PrimFloat.ltb y x = false.
Proof.
  intros (a&b&Ha&Hb&Hab)%leb_rank. destruct (PrimFloat.ltb y x) eqn:E; [|done].
  apply ltb_rank in E as (b'&a'&?&?&Hlt). exfalso. rank_lia.
Qed.

Lemma ltb_trans x y z :
  PrimFloat.ltb x y = true → PrimFloat.ltb y z = true → PrimFloat.ltb x z = true.
Proof.
  intros (a&b&Ha&Hb&Hab)%ltb_rank (b'&c&?&?&Hbc)%ltb_rank.
  apply ltb_rank. exists a, c. repeat split; try done. clear Ha. rank_lia.
Qed.

Lemma leb_trans x y z :
  PrimFloat.leb x y = true → PrimFloat.leb y z = true → PrimFloat.leb x z = true.
Proof.
  intros (a&b&Ha&Hb&Hab)%leb_rank (b'&c&?&?&Hbc)%leb_rank.
  apply leb_rank. exists a, c. repeat split; try done.
  assert (b' = b) by congruence. subst b'. clear -Hab Hbc.
  destruct a as [? [? ?]], b as [? [? ?]], c as [? [? ?]].
  unfold le3, lt3 in *; cbn [fst snd] in *.
  destruct Hab as [?|?], Hbc as [?|?]; simplify_eq; auto; left; lia.
Qed.

Lemma leb_refl x : not_nan x → PrimFloat.leb x x = true.
Proof.
  intros (a&Ha&_)%eqb_rank. apply leb_rank. exists a, a. repeat split; try done. by right.
Qed.

Lemma ltb_leb x y : PrimFloat.ltb x y = true → PrimFloat.leb x y = true.
Proof.
  intros (a&b&Ha&Hb&Hab)%ltb_rank. apply leb_rank. exists a, b.
  repeat split; try done. by left.
Qed.

(** Two floats that are not NaN always compare. *)
Lemma nlt_leb x y :
  not_nan x → not_nan y → PrimFloat.ltb x y = false → PrimFloat.leb y x = true.
Proof.
  intros (a&Ha&_)%eqb_rank (b&Hb&_)%eqb_rank H.
  apply leb_rank. exists b, a. repeat split; try done.
  assert (¬ lt3 a b) as N.
  { intros L. assert (PrimFloat.ltb x y = true) by (apply ltb_rank; eauto 6). congruence. }
  clear -N. destruct a as [a1 [a2 a3]], b as [b1 [b2 b3]].
  unfold le3, lt3 in *. cbn [fst snd] in *.
  destruct (Z.compare_spec a1 b1), (Z.compare_spec a2 b2), (Z.compare_spec a3 b3); subst;
    try (exfalso; apply N; lia); try (left; lia). by right.
Qed.

(** Rounding does not look at the sign, so [abs] commutes with division. *)
Lemma SFabs_round s m e l :
  SFabs (binary_round_aux prec emax s m e l) = binary_round_aux prec emax false m e l.
Proof.
  unfold binary_round_aux.
  destruct (shr_fexp prec emax m e l) as [mrs' e'].
  destruct (shr_fexp prec emax _ e' loc_Exact) as [mrs'' e''].
  destruct (shr_m mrs''); try reflexivity.
  destruct (e'' <=? emax - prec)%Z; reflexivity.
Qed.

Lemma SFabs_div x y : SFabs (SF64div x y) = SF64div (SFabs x) (SFabs y).
Proof.
  destruct x as [s| s | |s m e], y as [s'|s'| |s' m' e']; try reflexivity.
  unfold SF64div, SFdiv, SFabs.
  destruct (SFdiv_core_binary prec emax (Z.pos m) e (Z.pos m') e') as [[mz ez] lz].
  apply SFabs_round.
Qed.

Lemma abs_div x y : PrimFloat.abs (x / y) = (PrimFloat.abs x / PrimFloat.abs y)%float.
Proof.
  apply Prim2SF_inj. rewrite abs_spec, !div_spec, !abs_spec. apply SFabs_div.
Qed.

Lemma abs_opp x : PrimFloat.abs (- x) = PrimFloat.abs x.
Proof.
  apply Prim2SF_inj. rewrite !abs_spec, opp_spec. by destruct (Prim2SF x).
Qed.

Lemma abs_positive x : PrimFloat.ltb 0 x = true → PrimFloat.abs x = x.
Proof.
  rewrite FloatAxioms.ltb_spec. intros H. apply Prim2SF_inj. rewrite abs_spec.
  change (Prim2SF 0) with (S754_zero false) in H.
  destruct (Prim2SF x) as [s|[]| |[] m e]; try done.
Qed.

(** [min] and [max] return an item of the list, and a bound of it when no
    item is NaN. *)
Lemma min_from_cons x y ys :
  min_from x (y :: ys) = min_from (if PrimFloat.ltb y x then y else x) ys.
Proof. reflexivity. Qed.

Lemma max_from_cons x y ys :
  max_from x (y :: ys) = max_from (if PrimFloat.ltb x y then y else x) ys.
Proof. reflexivity. Qed.

Lemma min_from_elem xs : ∀ x, min_from x xs ∈ x :: xs.
Proof.
  induction xs as [|y ys IH]; intros x.
  - left.
  - rewrite min_from_cons. specialize (IH (if PrimFloat.ltb y x then y else x)).
    apply elem_of_cons in IH as [->|IH].
    + destruct (PrimFloat.ltb y x); [right; left | left].
    + by do 2 right.
Qed.

Lemma max_from_elem xs : ∀ x, max_from x xs ∈ x :: xs.
Proof.
  induction xs as [|y ys IH]; intros x.
  - left.
  - rewrite max_from_cons. specialize (IH (if PrimFloat.ltb x y then y else x)).
    apply elem_of_cons in IH as [->|IH].
    + destruct (PrimFloat.ltb x y); [right; left | left].
    + by do 2 right.
Qed.

Lemma min_from_le xs : ∀ x,
  not_nan x → Forall not_nan xs →
  Forall (λ e, PrimFloat.leb (min_from x xs) e = true) (x :: xs).
Proof.
  induction xs as [|y ys IH]; intros x Hx Hxs.
  - constructor; [by apply leb_refl|constructor].
  - apply Forall_cons in Hxs as [Hy Hys]. rewrite min_from_cons.
    destruct (PrimFloat.ltb y x) eqn:E.
    + specialize (IH y Hy Hys). apply Forall_cons in IH as [Hmy Hrest].
      constructor; [|by constructor].
      eapply leb_trans; [exact Hmy|]. by apply ltb_leb.
    + specialize (IH x Hx Hys). apply Forall_cons in IH as [Hmx Hrest].
      constructor; [done|]. constructor; [|done].
      eapply leb_trans; [exact Hmx|]. by apply nlt_leb.
Qed.

Lemma max_from_ge xs : ∀ x,
  not_nan x → Forall not_nan xs →
  Forall (λ e, PrimFloat.leb e (max_from x xs) = true) (x :: xs).
Proof.
  induction xs as [|y ys IH]; intros x Hx Hxs.
  - constructor; [by apply leb_refl|constructor].
  - apply Forall_cons in Hxs as [Hy Hys]. rewrite max_from_cons.
    destruct (PrimFloat.ltb x y) eqn:E.
    + specialize (IH y Hy Hys). apply Forall_cons in IH as [Hmy Hrest].
      constructor; [|by constructor].
      eapply leb_trans; [|exact Hmy]. by apply ltb_leb.
    + specialize (IH x Hx Hys). apply Forall_cons in IH as [Hmx Hrest].
      constructor; [done|]. constructor; [|done].
      eapply leb_trans; [|exact Hmx]. by apply nlt_leb.
Qed.

End FloatFacts.

(** ** Dates as strings

    The code compares dates as ['%Y-%m-%d'] strings.  For the dates of a
    [datetime] that order is the order of the calendar. *)

Module CalendarFacts.

Local Open Scope Z_scope.

Lemma digit_compare x y :
  Ascii.compare (digit x) (digit y) = (x mod 10 ?= y mod 10).
Proof.
  unfold digit.
  pose proof (Z.mod_pos_bound x 10 eq_refl) as Hx.
  pose proof (Z.mod_pos_bound y 10 eq_refl) as Hy.
  generalize dependent (x mod 10). generalize dependent (y mod 10). intros b Hb a Ha.
  assert (a = 0 ∨ a = 1 ∨ a = 2 ∨ a = 3 ∨ a = 4 ∨ a = 5 ∨ a = 6 ∨ a = 7 ∨ a = 8 ∨ a = 9)
    as Ea by lia.
  assert (b = 0 ∨ b = 1 ∨ b = 2 ∨ b = 3 ∨ b = 4 ∨ b = 5 ∨ b = 6 ∨ b = 7 ∨ b = 8 ∨ b = 9)
    as Eb by lia.
  repeat (destruct Ea as [->|Ea]); try subst a;
    repeat (destruct Eb as [->|Eb]); try subst b; reflexivity.
Qed.

Lemma pad2_compare n1 n2 r1 r2 :
  0 <= n1 < 100 → 0 <= n2 < 100 →
  String.compare (pad2 n1 r1) (pad2 n2 r2) =
    match n1 ?= n2 with Eq => String.compare r1 r2 | c => c end.
Proof.
  intros H1 H2. unfold pad2. cbn [String.compare]. rewrite !digit_compare.
  destruct (Z.compare_spec ((n1 / 10) mod 10) ((n2 / 10) mod 10)) as [E|E|E];
  destruct (Z.compare_spec (n1 mod 10) (n2 mod 10)) as [E'|E'|E'];
  destruct (Z.compare_spec n1 n2) as [E''|E''|E'']; try reflexivity; exfalso;
  revert E E' E''; Z.div_mod_to_equations; lia.
Qed.

Lemma pad2_mod n r : pad2 n r = pad2 (n mod 100) r.
Proof.
  assert ((n / 10) mod 10 = (n mod 100 / 10) mod 10) as E1
    by (Z.div_mod_to_equations; lia).
  assert (n mod 10 = (n mod 100) mod 10) as E2 by (Z.div_mod_to_equations; lia).
  unfold pad2, digit. by rewrite E1, E2.
Qed.

Lemma pad4_pad2 n r : pad4 n r = pad2 (n / 100) (pad2 (n mod 100) r).
Proof.
  assert ((n / 1000) mod 10 = (n / 100 / 10) mod 10) as E
    by (Z.div_mod_to_equations; lia).
  unfold pad4. rewrite (pad2_mod n). unfold pad2 at 3, digit. by rewrite E.
Qed.

Lemma pad4_compare n1 n2 r1 r2 :
  0 <= n1 < 10000 → 0 <= n2 < 10000 →
  String.compare (pad4 n1 r1) (pad4 n2 r2) =
    match n1 ?= n2 with Eq => String.compare r1 r2 | c => c end.
Proof.
  intros H1 H2. rewrite !pad4_pad2.
  rewrite pad2_compare by (Z.div_mod_to_equations; lia).
  rewrite pad2_compare by (Z.div_mod_to_equations; lia).
  destruct (Z.compare_spec (n1 / 100) (n2 / 100)) as [E1|E1|E1];
  destruct (Z.compare_spec (n1 mod 100) (n2 mod 100)) as [E2|E2|E2];
  destruct (Z.compare_spec n1 n2) as [E|E|E]; try reflexivity; exfalso;
  revert E1 E2 E; Z.div_mod_to_equations; lia.
Qed.

Lemma days_in_month_bounds y m : 28 <= days_in_month y m <= 31.
Proof.
  unfold days_in_month. destruct (is_leap y);
  repeat (match goal with |- context [match ?x with _ => _ end] => destruct x end); lia.
Qed.

Lemma valid_date_spec d :
  valid_date d = true ↔
  1 <= year d <= 9999 ∧ 1 <= month d <= 12 ∧ 1 <= day d <= days_in_month (year d) (month d).
Proof. unfold valid_date. rewrite !andb_true_iff, !Z.leb_le. tauto. Qed.

Lemma strftime_compare a b :
  valid_date a = true → valid_date b = true →
  String.compare (strftime a) (strftime b) = date_compare a b.
Proof.
  intros (Hy & Hm & Hd)%valid_date_spec (Hy' & Hm' & Hd')%valid_date_spec.
  pose proof (days_in_month_bounds (year a) (month a)).
  pose proof (days_in_month_bounds (year b) (month b)).
  unfold strftime, date_compare.
  rewrite pad4_compare by lia. cbn [String.compare].
  change (Ascii.compare "-" "-") with Eq. cbv iota.
  rewrite pad2_compare by lia. cbn [String.compare].
  change (Ascii.compare "-" "-") with Eq. cbv iota.
  rewrite pad2_compare by lia. cbn [String.compare].
  destruct (year a ?= year b), (month a ?= month b), (day a ?= day b); reflexivity.
Qed.

(** On well-formed dates the string order the code uses is the calendar's. *)
Lemma str_ge_strftime a b :
  valid_date a = true → valid_date b = true →
  str_ge (strftime a) (strftime b) = true ↔ ¬ older a b.
Proof.
  intros Ha Hb. unfold str_ge, String.leb, older.
  rewrite (strftime_compare b a) by done.
  unfold date_compare.
  rewrite (Z.compare_antisym (year a) (year b)), (Z.compare_antisym (month a) (month b)),
          (Z.compare_antisym (day a) (day b)).
  destruct (year a ?= year b), (month a ?= month b), (day a ?= day b); cbn; naive_solver.
Qed.

Lemma prev_day_valid d d' : valid_date d = true → prev_day d = Ok d' → valid_date d' = true.
Proof.
  intros (Hy & Hm & Hd)%valid_date_spec. unfold prev_day.
  repeat case_match; intros [= <-]; apply valid_date_spec; cbn [year month day];
    repeat match goal with
           | H : (_ <? _) = _ |- _ => first [apply Z.ltb_lt in H | apply Z.ltb_ge in H]
           end.
  - lia.
  - pose proof (days_in_month_bounds (year d) (month d - 1)). lia.
  - cbn. lia.
Qed.

Lemma next_day_valid d d' : valid_date d = true → next_day d = Ok d' → valid_date d' = true.
Proof.
  intros (Hy & Hm & Hd)%valid_date_spec. unfold next_day.
  repeat case_match; intros [= <-]; apply valid_date_spec; cbn [year month day];
    repeat match goal with
           | H : (_ <? _) = _ |- _ => first [apply Z.ltb_lt in H | apply Z.ltb_ge in H]
           end.
  - lia.
  - pose proof (days_in_month_bounds (year d) (month d + 1)). lia.
  - cbn. lia.
Qed.

Lemma iterate_valid step :
  (∀ d d', valid_date d = true → step d = Ok d' → valid_date d' = true) →
  ∀ n d d', valid_date d = true → iterate step n d = Ok d' → valid_date d' = true.
Proof.
  intros Hstep n. induction n as [|n IH]; intros d d' Hd; cbn.
  - by intros [= <-].
  - destruct (step d) as [d1|] eqn:E; cbn; [|done]. intros H.
    eapply IH; [|done]. eauto.
Qed.

(** A date some days before (or after) a date of the calendar is a date of
    the calendar. *)
Lemma minus_days_valid d k d' :
  valid_date d = true → minus_days d k = Ok d' → valid_date d' = true.
Proof.
  intros Hd. unfold minus_days. repeat case_match; try done.
  - intros Hi. by eapply (iterate_valid prev_day prev_day_valid).
  - intros Hi. by eapply (iterate_valid next_day next_day_valid).
Qed.

End CalendarFacts.

(** ** The error history *)

Module ErrorHistoryFacts.

Import ErrorHistory FloatFacts CalendarFacts.

Lemma recent_entries_lookup cutoff (entries : gmap string (gmap string value)) date :
  recent_entries cutoff entries !! date =
    if str_ge date cutoff then entries !! date else None.
Proof.
  unfold recent_entries. rewrite map_lookup_filter.
  destruct (entries !! date) as [x|]; cbn -[str_ge]; [|by destruct (str_ge date cutoff)].
  destruct (str_ge date cutoff) eqn:E.
  - by rewrite option_guard_True.
  - by rewrite option_guard_False.
Qed.

Lemma inserted_lookup model_name date entry h m :
  inserted model_name date entry h !! m =
    if decide (m = model_name) then Some (<[date := entry]> (default ∅ (h !! model_name)))
    else h !! m.
Proof.
  unfold inserted. destruct (decide (m = model_name)) as [->|Hne].
  - rewrite lookup_alter_eq. destruct (h !! model_name) as [inner|] eqn:E.
    + by rewrite E.
    + by rewrite lookup_insert_eq.
  - rewrite lookup_alter_ne by done. destruct (h !! model_name) eqn:E; [done|].
    by rewrite lookup_insert_ne.
Qed.

(** [add_error], step by step: insert, prune, save. *)
Lemma add_error_unfold model_name error_value forecast_date additional_metrics self w :
  add_error model_name error_value forecast_date additional_metrics self w =
    let h2 := inserted model_name (written_date w forecast_date)
                (new_entry error_value w additional_metrics) (history self) in
    match cutoff_date w (max_days self) with
    | Raise e => (Raise e, Tracker (history_file self) (max_days self) h2, w)
    | Ok cutoff =>
        let self2 := Tracker (history_file self) (max_days self)
                             (recent_entries cutoff <$> h2) in
        (Ok (_save_history self2 w).1, self2, (_save_history self2 w).2)
    end.
Proof.
  unfold add_error, _prune_old_entries, inserted, written_date.
  cbn [max_days history_file history].
  destruct (cutoff_date w (max_days self)); [|done].
  by destruct (_save_history _ w).
Qed.

(** What a key holds after [add_error]: the new entry under the written
    key, the old one elsewhere, and nothing where pruning removed it. *)
Lemma add_error_lookup model_name error_value forecast_date additional_metrics self w m date :
  get_model_history
    (add_error model_name error_value forecast_date additional_metrics self w).1.2 m !! date =
  if decide (m = model_name ∧ date = written_date w forecast_date) then
    if retained w self date then Some (new_entry error_value w additional_metrics) else None
  else if retained w self date then get_model_history self m !! date else None.
Proof.
  rewrite add_error_unfold. cbn zeta. unfold retained, get_model_history.
  destruct (cutoff_date w (max_days self)) as [cutoff|e]; cbn [fst snd history].
  - rewrite lookup_fmap, inserted_lookup.
    destruct (decide (m = model_name)) as [->|Hm]; cbn.
    + rewrite recent_entries_lookup. destruct (str_ge date cutoff); [|by repeat case_decide].
      destruct (decide (date = written_date w forecast_date)) as [->|Hd].
      * rewrite decide_True by done. by rewrite lookup_insert_eq.
      * rewrite decide_False by (intros [? ?]; congruence). by rewrite lookup_insert_ne.
    + rewrite decide_False by (intros [? ?]; congruence).
      destruct (history self !! m) as [entries|]; cbn.
      * apply recent_entries_lookup.
      * rewrite lookup_empty. by destruct (str_ge date cutoff).
  - rewrite inserted_lookup. destruct (decide (m = model_name)) as [->|Hm]; cbn.
    + destruct (decide (date = written_date w forecast_date)) as [->|Hd].
      * rewrite decide_True by done. by rewrite lookup_insert_eq.
      * rewrite decide_False by (intros [? ?]; congruence). by rewrite lookup_insert_ne.
    + by rewrite decide_False by (intros [? ?]; congruence).
Qed.

(** [add_error] leaves the storage path and the retention window alone. *)
Lemma add_error_config model_name error_value forecast_date additional_metrics self w :
  history_file (add_error model_name error_value forecast_date additional_metrics self w).1.2
    = history_file self ∧
  max_days (add_error model_name error_value forecast_date additional_metrics self w).1.2
    = max_days self.
Proof.
  rewrite add_error_unfold. cbn zeta. by destruct (cutoff_date w (max_days self)).
Qed.

(** The fields of the entry [add_error] builds: [update] lets a key of the
    metrics win over the one the store computed. *)
Lemma new_entry_lookup error_value w additional_metrics k :
  new_entry error_value w additional_metrics !! k =
    match additional_metrics ≫= (.!! k) with
    | Some v => Some v
    | None =>
        if decide (k = "error") then Some (VFloat error_value)
        else if decide (k = "timestamp") then Some (VStr (isoformat (now w)))
        else None
    end.
Proof.
  assert (∀ k, (<["error" := VFloat error_value]>
                 (<["timestamp" := VStr (isoformat (now w))]> (∅ : gmap string value))) !! k =
               if decide (k = "error") then Some (VFloat error_value)
               else if decide (k = "timestamp") then Some (VStr (isoformat (now w)))
               else None) as Hbase.
  { intros k'. rewrite !lookup_insert, lookup_empty.
    repeat case_decide; congruence. }
  unfold new_entry. destruct additional_metrics as [metrics|]; cbn; [|apply Hbase].
  destruct (size metrics =? 0)%nat eqn:E.
  - apply Nat.eqb_eq, map_size_empty_iff in E. subst. rewrite lookup_empty. apply Hbase.
  - destruct (metrics !! k) as [v|] eqn:Hk; cbn.
    + by apply lookup_union_Some_l.
    + rewrite lookup_union_r by done. apply Hbase.
Qed.

(** C2, as stated, fails: [entry.update(additional_metrics)] runs after
    [error] and [timestamp] are set, so metrics that carry these keys
    replace the store's values.  Written with the metrics
    [{'error': 99.0, 'timestamp': 'never'}], the error 3.0 is stored as
    99.0 and the creation instant as ['never']. *)
Lemma reserved_keys_counterexample :
  ∃ entry,
    get_model_history
      (add_error "ARIMA" 3 (Some "2026-11-03") (Some Sample.forged)
         Sample.tracker Sample.world).1.2
      "ARIMA" !! "2026-11-03" = Some entry ∧
    entry !! "error" = Some (VFloat 99) ∧
    entry !! "error" ≠ Some (VFloat 3) ∧
    entry !! "timestamp" = Some (VStr "never") ∧
    entry !! "timestamp" ≠ Some (VStr (isoformat (now Sample.world))).
Proof.
  rewrite add_error_lookup. rewrite decide_True by done.
  replace (retained Sample.world Sample.tracker "2026-11-03") with true by (by vm_compute).
  eexists. split; [done|]. rewrite !new_entry_lookup. cbn.
  repeat split; done.
Qed.

(** C2, amended.  The observation [add_error] stores has, under
    [error] and [timestamp], the float of [error_value] and the creation
    instant unless the caller-supplied metrics carry that key, in which
    case the caller's value is stored; every other key is the caller's. *)
Theorem stored_entry_fields model_name error_value forecast_date additional_metrics self w
    entry :
  get_model_history
    (add_error model_name error_value forecast_date additional_metrics self w).1.2
    model_name !! written_date w forecast_date = Some entry →
  entry !! "error" =
    Some (default (VFloat error_value) (additional_metrics ≫= (.!! "error"))) ∧
  entry !! "timestamp" =
    Some (default (VStr (isoformat (now w))) (additional_metrics ≫= (.!! "timestamp"))) ∧
  (∀ k, k ≠ "error" → k ≠ "timestamp" → entry !! k = additional_metrics ≫= (.!! k)).
Proof.
  rewrite add_error_lookup, decide_True by done.
  destruct (retained _ _ _); [|done]. intros [= <-].
  repeat split; intros; rewrite new_entry_lookup.
  - by destruct (additional_metrics ≫= _).
  - by destruct (additional_metrics ≫= _).
  - destruct (additional_metrics ≫= _); [done|]. by rewrite !decide_False.
Qed.

Lemma stored_entry_fields_witness :
  let entry := new_entry 3 Sample.world (Some (Scheduler.context 100 103)) in
  get_model_history
    (add_error "ARIMA" 3 None (Some (Scheduler.context 100 103))
       Sample.tracker Sample.world).1.2
    "ARIMA" !! "2026-11-03" = Some entry ∧
  entry !! "error" = Some (VFloat 3) ∧
  entry !! "timestamp" = Some (VStr "2026-11-03T08:38:00") ∧
  (∀ k, k ≠ "error" → k ≠ "timestamp" → entry !! k = Scheduler.context 100 103 !! k).
Proof.
  assert (get_model_history
            (add_error "ARIMA" 3 None (Some (Scheduler.context 100 103))
               Sample.tracker Sample.world).1.2
            "ARIMA" !! "2026-11-03"
          = Some (new_entry 3 Sample.world (Some (Scheduler.context 100 103)))) as H
    by (vm_compute; reflexivity).
  split; [exact H|].
  exact (stored_entry_fields "ARIMA" 3 None (Some (Scheduler.context 100 103))
           Sample.tracker Sample.world _ H).
Defined.

(** Without metrics, and with metrics that carry other keys only, the two
    fields are the store's. *)
Example store_computed_fields :
  new_entry 3 Sample.world None !! "error" = Some (VFloat 3) ∧
  new_entry 3 Sample.world (Some (Scheduler.context 100 103)) !! "error"
    = Some (VFloat 3) ∧
  new_entry 3 Sample.world (Some (Scheduler.context 100 103)) !! "actual"
    = Some (VFloat 100).
Proof. repeat split; vm_compute; reflexivity. Qed.

Lemma filter_key_length {A} (l : list (string * A)) k :
  NoDup (l.*1) → (List.length (List.filter (λ kv, bool_decide (kv.1 = k)) l) ≤ 1)%nat.
Proof.
  induction l as [|[k' v] l IH]; cbn; [lia|].
  intros [Hnin Hnd]%NoDup_cons. specialize (IH Hnd).
  case_bool_decide; cbn in *; [|done]. subst.
  assert (List.filter (λ kv : string * A, bool_decide (kv.1 = k)) l = []) as ->; [|cbn; lia].
  clear -Hnin. induction l as [|[k'' v'] l IH]; cbn; [done|].
  case_bool_decide; cbn in *.
  - subst. exfalso. apply Hnin. left.
  - apply IH. intros ?. apply Hnin. by right.
Qed.

Lemma run_last_write calls : ∀ self model_name date before,
  get_model_history self model_name !! date = None ∨
  get_model_history self model_name !! date = before →
  get_model_history (run calls self) model_name !! date = None ∨
  get_model_history (run calls self) model_name !! date
    = last_write model_name date calls before.
Proof.
  induction calls as [|c rest IH]; intros self m d before H; cbn [run last_write]; [done|].
  apply IH. unfold perform. rewrite add_error_lookup. unfold writes.
  destruct (decide (m = c_model c ∧ d = written_date (c_world c) (c_date c))) as [[-> ->]|Hne].
  - rewrite decide_True by done. destruct (retained _ _ _); auto.
  - rewrite decide_False by (intros [? ?]; apply Hne; done).
    destruct (retained _ _ _); auto.
Qed.

Lemma run_max_days calls : ∀ self, max_days (run calls self) = max_days self.
Proof.
  induction calls as [|c rest IH]; intros self; cbn [run]; [done|].
  rewrite IH. apply add_error_config.
Qed.

(** C5.  After any sequence of [add_error] calls the history holds at
    most one observation per (model, date); what it holds under a key is
    the entry of the last call that wrote the key (or nothing, once pruned);
    and a second write of a key leaves exactly the second entry, so only
    the latest error value is retained. *)
Theorem last_write_wins calls self model_name date :
  (List.length (observations (run calls self) model_name date) ≤ 1)%nat ∧
  (get_model_history (run calls self) model_name !! date = None ∨
   get_model_history (run calls self) model_name !! date
     = last_write model_name date calls (get_model_history self model_name !! date)) ∧
  ∀ e1 x1 w1 e2 x2 w2,
    get_model_history
      (run [MkCall model_name e1 (Some date) x1 w1; MkCall model_name e2 (Some date) x2 w2]
           (run calls self)) model_name !! date
    = if retained w2 self date then Some (new_entry e2 w2 x2) else None.
Proof.
  split; [|split].
  - apply filter_key_length, NoDup_fst_map_to_list.
  - apply run_last_write. by right.
  - intros. cbn [run]. unfold perform at 1. cbn [c_model c_error c_date c_metrics c_world].
    rewrite add_error_lookup. rewrite decide_True by done.
    unfold retained, perform. by rewrite (proj2 (add_error_config _ _ _ _ _ _)), run_max_days.
Qed.

(** The same key written twice, with the errors 3.0 and then 7.5: the
    history keeps one observation, and its error is 7.5. *)
Example second_write_replaces :
  let self := run [MkCall "ARIMA" 3 (Some "2026-11-02") (Some Sample.forged) Sample.world;
                   MkCall "ARIMA" 7.5 (Some "2026-11-02") None Sample.world]
                  Sample.tracker in
  map_to_list (get_model_history self "ARIMA")
    = [("2026-11-02", new_entry 7.5 Sample.world None)] ∧
  new_entry 7.5 Sample.world None !! "error" = Some (VFloat 7.5).
Proof. split; vm_compute; reflexivity. Qed.

(** C7.  [get_error_statistics] is computed from what [get_recent_errors]
    returns: for no recent entry, a zero count, no minimum, maximum or
    average, and a zero violation count; for the errors of the recent
    entries, their number, an item that is their minimum, one that is their
    maximum, their sum over their number, and the number of them above
    5.0. *)
Theorem statistics_of_recent_errors self model_name days w recent :
  get_recent_errors self model_name days w = Ok recent →
  (recent = [] →
   get_error_statistics self model_name days w = Ok (MkStats 0 None None None 0)) ∧
  (∀ errors, recent.*2 = VFloat <$> errors → errors ≠ [] →
     ∃ lo hi,
       get_error_statistics self model_name days w =
         Ok (MkStats (List.length errors) (Some lo) (Some hi)
               (Some (Py.sum errors / float_of_nat (List.length errors))%float)
               (List.length (List.filter (λ e, PrimFloat.ltb 5 e) errors))) ∧
       lo ∈ errors ∧ hi ∈ errors ∧
       (Forall not_nan errors →
        Forall (λ e, PrimFloat.leb lo e = true ∧ PrimFloat.leb e hi = true) errors)).
Proof.
  intros Hrecent. unfold get_error_statistics. rewrite Hrecent.
  cbn [mbind result_mbind result_bind].
  split.
  - by intros ->.
  - intros errors Herrors Hne.
    assert (floats (recent.*2) = Ok errors) as ->.
    { rewrite Herrors. clear. induction errors as [|e es IH]; cbn; [done|]. by rewrite IH. }
    cbn [result_bind]. destruct errors as [|e es]; [done|].
    exists (min_from e es), (max_from e es). split; [done|].
    split; [apply min_from_elem|]. split; [apply max_from_elem|].
    intros [He Hes]%Forall_cons.
    pose proof (min_from_le es e He Hes) as Hmin.
    pose proof (max_from_ge es e He Hes) as Hmax.
    rewrite Forall_forall in Hmin, Hmax. apply Forall_forall. intros x Hx. split; auto.
Qed.

Lemma statistics_of_recent_errors_witness :
  (([("2026-11-01", VFloat 3); ("2026-11-02", VFloat 7); ("2026-11-03", VFloat 12)]
      : list (string * value)) = [] →
   get_error_statistics Sample.busy_tracker "ARIMA" 30 Sample.world
     = Ok (MkStats 0 None None None 0)) ∧
  (∀ errors, [VFloat 3; VFloat 7; VFloat 12] = VFloat <$> errors → errors ≠ [] →
     ∃ lo hi,
       get_error_statistics Sample.busy_tracker "ARIMA" 30 Sample.world =
         Ok (MkStats (List.length errors) (Some lo) (Some hi)
               (Some (Py.sum errors / float_of_nat (List.length errors))%float)
               (List.length (List.filter (λ e, PrimFloat.ltb 5 e) errors))) ∧
       lo ∈ errors ∧ hi ∈ errors ∧
       (Forall not_nan errors →
        Forall (λ e, PrimFloat.leb lo e = true ∧ PrimFloat.leb e hi = true) errors)).
Proof.
  exact (statistics_of_recent_errors Sample.busy_tracker "ARIMA" 30 Sample.world
           [("2026-11-01", VFloat 3); ("2026-11-02", VFloat 7); ("2026-11-03", VFloat 12)]
           eq_refl).
Defined.

(** The entries 3.0, 7.0 and 12.0: three of them, from 3.0 to 12.0, 22/3
    on average, two above the threshold; and an unknown model has none. *)
Example statistics_of_three_errors :
  get_error_statistics Sample.busy_tracker "ARIMA" 30 Sample.world
    = Ok (MkStats 3 (Some 3%float) (Some 12%float) (Some (22 / 3)%float) 2) ∧
  get_error_statistics Sample.busy_tracker "LSTM" 30 Sample.world
    = Ok (MkStats 0 None None None 0).
Proof. split; vm_compute; reflexivity. Qed.

(** C8, as stated, fails when the date written is older than the
    retention window: the entry is inserted, pruned in the same call, and
    then the save fails.  [add_error] returns [False], and the history does
    not hold the observation. *)
Lemma failed_save_counterexample :
  (add_error "ARIMA" 3 (Some "2020-01-01") None Sample.tracker Sample.read_only_world).1.1
    = Ok false ∧
  get_model_history
    (add_error "ARIMA" 3 (Some "2020-01-01") None Sample.tracker Sample.read_only_world).1.2
    "ARIMA" !! "2020-01-01" = None.
Proof.
  split; [by vm_compute|].
  rewrite add_error_lookup, decide_True by done. by vm_compute.
Qed.

(** C8, amended.  When pruning has gone through and the snapshot cannot
    be written, [add_error] returns [False] without raising, and the
    tracker it leaves is the one it leaves in any world with the same
    clock, a writable one included: nothing is rolled back.  It holds the
    new observation unless the date written is older than the cutoff. *)
Theorem failed_save_keeps_memory model_name error_value forecast_date additional_metrics
    self w cutoff :
  cutoff_date w (max_days self) = Ok cutoff →
  writable w (history_file self) = false →
  let r := add_error model_name error_value forecast_date additional_metrics self w in
  r.1.1 = Ok false ∧
  (∀ w', now w' = now w →
     (add_error model_name error_value forecast_date additional_metrics self w').1.2 = r.1.2) ∧
  get_model_history r.1.2 model_name !! written_date w forecast_date =
    (if str_ge (written_date w forecast_date) cutoff
     then Some (new_entry error_value w additional_metrics) else None).
Proof.
  intros Hc Hw r. split; [|split].
  - subst r. rewrite add_error_unfold. cbn zeta. rewrite Hc. cbn [fst snd].
    unfold _save_history. cbn [history_file]. by rewrite Hw.
  - intros w' Hnow. subst r. rewrite !add_error_unfold. cbn zeta.
    unfold cutoff_date, written_date, new_entry in *. rewrite Hnow.
    by destruct (minus_days _ _).
  - subst r. rewrite add_error_lookup, decide_True by done.
    unfold retained. by rewrite Hc.
Qed.

Lemma failed_save_keeps_memory_witness :
  (add_error "ARIMA" 3 None None Sample.tracker Sample.read_only_world).1.1 = Ok false ∧
  (∀ w', now w' = Sample.clock →
     (add_error "ARIMA" 3 None None Sample.tracker w').1.2
     = (add_error "ARIMA" 3 None None Sample.tracker Sample.read_only_world).1.2) ∧
  get_model_history
    (add_error "ARIMA" 3 None None Sample.tracker Sample.read_only_world).1.2
    "ARIMA" !! "2026-11-03" = Some (new_entry 3 Sample.read_only_world None).
Proof.
  exact (failed_save_keeps_memory "ARIMA" 3 None None Sample.tracker Sample.read_only_world
           "2026-10-04" eq_refl eq_refl).
Defined.

(** C9.  After [add_error] on a tracker with [max_days = 30], every date
    a model's history still holds is, as a string, at least the cutoff
    ['%Y-%m-%d'] of 30 days before the call; so no entry dated by a calendar
    date is older than 30 days before the call. *)
Theorem pruned_after_add_error model_name error_value forecast_date additional_metrics
    self w cutoff m :
  max_days self = 30%Z →
  valid_date (dt_date (now w)) = true →
  minus_days (dt_date (now w)) 30 = Ok cutoff →
  let self' := (add_error model_name error_value forecast_date additional_metrics self w).1.2 in
  (∀ key, is_Some (get_model_history self' m !! key) → str_ge key (strftime cutoff) = true) ∧
  (∀ d, valid_date d = true → is_Some (get_model_history self' m !! strftime d) →
        ¬ older d cutoff).
Proof.
  intros Hmax Hnow Hcut self'.
  assert (∀ key, is_Some (get_model_history self' m !! key) →
                 str_ge key (strftime cutoff) = true) as Hkeys.
  { intros key [entry Hentry]. subst self'. revert Hentry.
    unfold add_error, _prune_old_entries, cutoff_date. cbn [max_days history_file history].
    rewrite Hmax, Hcut. cbn. destruct (_save_history _ w) as [saved w']. cbn.
    unfold get_model_history. cbn [history]. rewrite lookup_fmap.
    match goal with |- context [alter ?f ?k ?h] => destruct (alter f k h !! m) as [entries|] end;
      cbn; [|by rewrite lookup_empty].
    unfold recent_entries. intros H%map_lookup_filter_Some_1_2. exact H. }
  split; [done|].
  intros d Hd Hsome.
  assert (valid_date cutoff = true) as Hc by exact (minus_days_valid _ _ _ Hnow Hcut).
  by apply (proj1 (str_ge_strftime d cutoff Hd Hc)), Hkeys.
Qed.

Lemma pruned_after_add_error_witness :
  let self' := (add_error "ARIMA" 3 None None Sample.stale_tracker Sample.world).1.2 in
  (∀ key, is_Some (get_model_history self' "ARIMA" !! key) →
          str_ge key "2026-10-04" = true) ∧
  (∀ d, valid_date d = true → is_Some (get_model_history self' "ARIMA" !! strftime d) →
        ¬ older d (Date 2026 10 4)).
Proof.
  exact (pruned_after_add_error "ARIMA" 3 None None Sample.stale_tracker Sample.world
           (Date 2026 10 4) "ARIMA" eq_refl eq_refl eq_refl).
Defined.

(** The entry of 2026-09-01 is gone after a write on 2026-11-03; the one
    of 2026-10-20 stays. *)
Example stale_entry_pruned :
  let self' := (add_error "ARIMA" 3 None None Sample.stale_tracker Sample.world).1.2 in
  get_model_history self' "ARIMA" !! "2026-09-01" = None ∧
  get_model_history self' "ARIMA" !! "2026-10-20" = Some (Sample.observation 2) ∧
  get_model_history Sample.stale_tracker "ARIMA" !! "2026-09-01"
    = Some (Sample.observation 4).
Proof. repeat split; by vm_compute. Qed.

End ErrorHistoryFacts.

(** ** The notifier *)

Module TelegramFacts.



(** A delivered alert, for comparison: the same call with the channel
    answering 200 returns [True]. *)
Example delivered_alert :
  (Telegram.send_alert Sample.notifier [Lit "Manual review recommended."] "error"
     (Some "ARIMA") (Some 8.75%float) Sample.world).1 = true.
Proof. reflexivity. Qed.

End TelegramFacts.

(** ** The scheduler *)

Module SchedulerFacts.

Import ErrorHistory Scheduler Session FloatFacts ErrorHistoryFacts.

Lemma error_pct_of_zero actual predicted :
  is_zero actual = true →
  error_pct_of actual predicted = Ok (if is_zero predicted then 0%float else infinity).
Proof.
  intros H. unfold error_pct_of. rewrite H. by destruct (is_zero predicted).
Qed.

Lemma error_pct_of_nonzero actual predicted :
  is_zero actual = false →
  error_pct_of actual predicted =
    Ok (PrimFloat.abs ((actual - predicted) / actual) * 100)%float.
Proof. intros H. unfold error_pct_of, truediv. by rewrite H. Qed.

(** The division is guarded: the computation raises for no input. *)
Lemma error_pct_of_total actual predicted :
  ∃ error_pct, error_pct_of actual predicted = Ok error_pct.
Proof.
  destruct (is_zero actual) eqn:H.
  - eexists. by apply error_pct_of_zero.
  - eexists. by apply error_pct_of_nonzero.
Qed.

(** Both [try] blocks absorb what is raised inside them. *)
Lemma save_to_history_absorbs actual predicted error_pct model_name forecast_date w :
  ∃ stats w', save_to_history actual predicted error_pct model_name forecast_date w
              = (Ok stats, w').
Proof.
  unfold save_to_history, try_except.
  match goal with
  | |- context [match ?b w with _ => _ end] => destruct (b w) as [[stats|e] w']
  end.
  - eauto.
  - cbv [bind effect ret]. eauto.
Qed.

Lemma notify_absorbs error_pct model_name stats w :
  ∃ w', notify error_pct model_name stats w = (Ok tt, w').
Proof.
  unfold notify, try_except.
  match goal with
  | |- context [match ?b w with _ => _ end] => destruct (b w) as [[[]|e] w']
  end.
  - eauto.
  - cbv [effect]. eauto.
Qed.

(** What [evaluate_forecast_and_notify] does after the error is computed:
    print it, store it, and alert when it is above the threshold. *)
Lemma evaluate_unfold actual predicted model_name forecast_date w error_pct :
  error_pct_of actual predicted = Ok error_pct →
  ∃ stats w1 w2,
    let w0 := print [Lit model_name; Lit " forecast error: "; Fmt ".2f" error_pct; Lit "%"] w in
    save_to_history actual predicted error_pct model_name
      (default (strftime (dt_date (now w0))) forecast_date) w0 = (Ok stats, w1) ∧
    (if gt error_pct 5.0%float then notify error_pct model_name stats w1 else ret tt w1)
      = (Ok tt, w2) ∧
    evaluate_forecast_and_notify actual predicted model_name forecast_date w
      = (Ok error_pct, w2).
Proof.
  intros He. cbn zeta.
  set (w0 := print _ w).
  destruct (save_to_history_absorbs actual predicted error_pct model_name
              (default (strftime (dt_date (now w0))) forecast_date) w0) as (stats & w1 & Hs).
  assert (∃ w2, (if gt error_pct 5.0%float then notify error_pct model_name stats w1
                 else ret tt w1) = (Ok tt, w2)) as [w2 Hn].
  { destruct (gt error_pct 5.0%float); [apply notify_absorbs | by eexists]. }
  exists stats, w1, w2. split; [done|]. split; [done|].
  unfold evaluate_forecast_and_notify, bind at 1, pure. rewrite He.
  unfold bind at 1, effect. fold w0. unfold bind at 1.
  unfold bind at 1. rewrite Hs.
  unfold bind at 1.
  destruct (gt error_pct 5.0%float); rewrite Hn; reflexivity.
Qed.

(** The function returns the error it computed, whatever else happens. *)
Lemma evaluate_returns actual predicted model_name forecast_date w :
  (evaluate_forecast_and_notify actual predicted model_name forecast_date w).1
  = error_pct_of actual predicted.
Proof.
  destruct (error_pct_of_total actual predicted) as [e He].
  destruct (evaluate_unfold actual predicted model_name forecast_date w e He)
    as (stats & w1 & w2 & _ & _ & ->). by rewrite He.
Qed.

(** C3.  With [actual == 0] the error computation does not divide: it
    yields 0 when [predicted == 0] and +infinity otherwise, and
    [evaluate_forecast_and_notify] returns that value instead of raising. *)
Theorem zero_actual_saturates actual predicted model_name forecast_date w :
  is_zero actual = true →
  error_pct_of actual predicted = Ok (if is_zero predicted then 0%float else infinity) ∧
  (evaluate_forecast_and_notify actual predicted model_name forecast_date w).1
    = Ok (if is_zero predicted then 0%float else infinity).
Proof.
  intros H. rewrite evaluate_returns. split; by apply error_pct_of_zero.
Qed.

Lemma zero_actual_saturates_witness :
  error_pct_of 0 5 = Ok infinity ∧
  (evaluate_forecast_and_notify 0 5 "ARIMA" None Sample.world).1 = Ok infinity.
Proof. exact (zero_actual_saturates 0 5 "ARIMA" None Sample.world eq_refl). Defined.

(** Both zero: the error is 0, and a negative zero counts as zero. *)
Example zero_actual_zero_predicted :
  error_pct_of 0 0 = Ok 0%float ∧ error_pct_of (-0) 5 = Ok infinity.
Proof. split; reflexivity. Qed.

(** C4, as stated, fails for a negative [actual]: the code takes the
    absolute value of the quotient, the stated formula divides an absolute
    value by [actual] and so changes sign with it.  For [actual = -100] and
    [predicted = -90] the code returns 10, the formula gives -10. *)
Lemma claimed_error_pct_counterexample :
  error_pct_of (-100) (-90) = Ok 10%float ∧
  error_pct_of (-100) (-90) ≠ Ok (claimed_error_pct (-100) (-90)).
Proof.
  split; [reflexivity|]. intros H.
  apply (f_equal (λ r, match r with Ok x => PrimFloat.ltb 0 x | Raise _ => false end)) in H.
  vm_compute in H. discriminate.
Qed.

(** C4, amended.  For [actual != 0] the function returns
    [|(actual - predicted) / actual| * 100], which is
    [|actual - predicted| / |actual| * 100]; it is the stated formula
    whenever [actual > 0]; and it is the same for two predictions whose
    differences to [actual] are opposite. *)
Theorem error_pct_formula actual predicted model_name forecast_date w :
  is_zero actual = false →
  (evaluate_forecast_and_notify actual predicted model_name forecast_date w).1
    = Ok (PrimFloat.abs ((actual - predicted) / actual) * 100)%float ∧
  error_pct_of actual predicted
    = Ok (PrimFloat.abs (actual - predicted) / PrimFloat.abs actual * 100)%float ∧
  (PrimFloat.ltb 0 actual = true →
   error_pct_of actual predicted = Ok (claimed_error_pct actual predicted)) ∧
  (∀ predicted',
     (actual - predicted')%float = (- (actual - predicted))%float →
     error_pct_of actual predicted' = error_pct_of actual predicted).
Proof.
  intros H. rewrite evaluate_returns, error_pct_of_nonzero by done.
  split; [done|]. rewrite abs_div. split; [done|]. split.
  - intros Hpos. unfold claimed_error_pct. by rewrite (abs_positive actual).
  - intros p' Hp'. rewrite error_pct_of_nonzero by done. by rewrite abs_div, Hp', abs_opp.
Qed.

Lemma error_pct_formula_witness :
  (evaluate_forecast_and_notify 100 108 "ARIMA" None Sample.world).1 = Ok 8%float ∧
  error_pct_of 100 108 = Ok 8%float ∧
  (PrimFloat.ltb 0 100 = true → error_pct_of 100 108 = Ok (claimed_error_pct 100 108)) ∧
  (∀ predicted', (100 - predicted')%float = (- (100 - 108))%float →
                 error_pct_of 100 predicted' = error_pct_of 100 108).
Proof. exact (error_pct_formula 100 108 "ARIMA" None Sample.world eq_refl). Defined.

(** A prediction of 92 errs as much as one of 108. *)
Example opposite_differences : error_pct_of 100 92 = error_pct_of 100 108.
Proof. reflexivity. Qed.

(** The steps of the scheduler leave the clock, the channel and the
    environment alone, and post nothing, until [notify] runs. *)
Lemma same_channel_refl w : same_channel w w.
Proof. by repeat split. Qed.

Lemma same_channel_trans w1 w2 w3 :
  same_channel w1 w2 → same_channel w2 w3 → same_channel w1 w3.
Proof. unfold same_channel. intros (?&?&?&?) (?&?&?&?). repeat split; congruence. Qed.

Lemma load_history_channel path w : same_channel w (_load_history path w).2.
Proof. unfold _load_history. by repeat case_match. Qed.

Lemma init_channel history_file max_days w :
  same_channel w (__init__ history_file max_days w).2.
Proof.
  unfold __init__. destruct history_file as [path|].
  - pose proof (load_history_channel path w). by destruct (_load_history path w).
  - destruct (mkdir_ok w data_dir); [|apply same_channel_refl].
    pose proof (load_history_channel default_history_file w).
    by destruct (_load_history default_history_file w).
Qed.

Lemma get_tracker_channel history_file max_days w :
  same_channel w (get_tracker history_file max_days w).2.
Proof.
  unfold get_tracker. destruct (_tracker w); [apply same_channel_refl|].
  pose proof (init_channel history_file max_days w) as H.
  destruct (__init__ history_file max_days w) as [[t|e] w']; exact H.
Qed.

Lemma save_history_channel self w : same_channel w (_save_history self w).2.
Proof. unfold _save_history. by destruct (writable w (history_file self)). Qed.

Lemma add_error_channel model_name error_value forecast_date additional_metrics self w :
  same_channel w (add_error model_name error_value forecast_date additional_metrics self w).2.
Proof.
  rewrite add_error_unfold. cbn zeta.
  destruct (cutoff_date w (max_days self));
    [apply save_history_channel | apply same_channel_refl].
Qed.

Lemma call_channel {A} ref
    (method : ErrorHistoryTracker → World → result A * ErrorHistoryTracker * World) w :
  (∀ self, same_channel w (method self w).2) →
  same_channel w (call ref method w).2.
Proof.
  intros H. unfold call. destruct (objects w !! ref) as [self|]; [|apply same_channel_refl].
  specialize (H self). by destruct (method self w) as [[r self'] w'].
Qed.

Lemma save_to_history_channel actual predicted error_pct model_name forecast_date w :
  same_channel w (save_to_history actual predicted error_pct model_name forecast_date w).2.
Proof.
  unfold save_to_history, try_except, bind.
  pose proof (get_tracker_channel None 30 w) as H1.
  destruct (get_tracker None 30 w) as [[ref|e] w1]; [|exact H1].
  pose proof (call_channel ref (add_error model_name error_pct (Some forecast_date)
                (Some (context actual predicted))) w1
                (λ self, add_error_channel _ _ _ _ self w1)) as H2.
  destruct (call ref _ w1) as [[saved|e] w2]; cbn [snd] in *;
    [|exact (same_channel_trans _ _ _ H1 H2)].
  unfold query. destruct (objects w2 !! ref) as [self|];
    [|exact (same_channel_trans _ _ _ H1 H2)].
  destruct (get_error_statistics self model_name 7 w2) as [stats|e];
    [|exact (same_channel_trans _ _ _ H1 H2)].
  unfold effect, ret. cbn [snd].
  eapply same_channel_trans; [exact (same_channel_trans _ _ _ H1 H2)|].
  by repeat case_match.
Qed.

Lemma telegram_init_channel token chat_id tz w :
  same_channel w (Telegram.__init__ token chat_id tz w).2.
Proof.
  unfold Telegram.__init__, Telegram._validate_and_fix_token.
  repeat case_match; simplify_eq; by repeat split.
Qed.

(** What a send adds to the requests posted. *)
Lemma send_message_posts self message w :
  posted (Telegram._send_message self message w).2
  = (posted w ++ [(Telegram.api_url self, message)])%list.
Proof.
  unfold Telegram._send_message. destruct (http w _ _) as [status|ex].
  - by destruct ((400 <=? status)%nat && (status <? 600)%nat).
  - by destruct ex.
Qed.

(** The token repair does not look at the world. *)
Lemma validate_and_fix_token_world self w w2 :
  (Telegram._validate_and_fix_token self w2).1 = (Telegram._validate_and_fix_token self w).1.
Proof.
  unfold Telegram._validate_and_fix_token.
  destruct (String.eqb (Telegram.token self) ""); [done|].
  destruct (1 <? Telegram.count_colon (Telegram.token self))%nat.
  - destruct (Telegram.split_colon (Telegram.token self)) as [|p0 [|p1 rest]];
      by repeat case_match.
  - by repeat case_match.
Qed.

(** The notifier [__init__] builds is read off the environment alone. *)
Lemma telegram_init_notifier token chat_id tz w w2 :
  environ w2 = environ w →
  (Telegram.__init__ token chat_id tz w2).1 = (Telegram.__init__ token chat_id tz w).1.
Proof.
  intros Henv. unfold Telegram.__init__.
  assert (∀ arg name, Telegram.or_environ arg name w2 = Telegram.or_environ arg name w) as Hor
    by (intros; unfold Telegram.or_environ; by rewrite Henv).
  rewrite !Hor.
  destruct (Telegram.or_environ token _ w) as [t|]; [|done].
  destruct (Telegram.or_environ chat_id _ w) as [c|]; [|done].
  destruct (String.eqb t "" || String.eqb c ""); [done|].
  pose proof (validate_and_fix_token_world (Telegram.Notifier t c tz) w w2) as H.
  destruct (Telegram._validate_and_fix_token _ w2), (Telegram._validate_and_fix_token _ w).
  cbn [fst] in *. by rewrite H.
Qed.

(** The text [send_alert] formats reads the world's clock only. *)
Lemma formatted_message_now self message level model_name error_value w w2 :
  now w2 = now w →
  Telegram.formatted_message self message level model_name error_value w2
  = Telegram.formatted_message self message level model_name error_value w.
Proof. intros H. unfold Telegram.formatted_message. by rewrite H. Qed.

(** What [with_trend] returns opens with the message it was given. *)
Lemma with_trend_prefix error_pct stats message message' :
  with_trend error_pct stats message = Ok message' →
  ∃ clause, message' = (message ++ clause)%list.
Proof.
  unfold with_trend. destruct (avg stats) as [a|].
  - destruct (gt error_pct (a * 1.5)).
    + destruct (truediv error_pct a) as [ratio|]; cbn; [|done]. intros [= <-]. eauto.
    + intros [= <-]. exists []. by rewrite app_nil_r.
  - intros [= <-]. exists []. by rewrite app_nil_r.
Qed.

(** [notify], once the notifier is built and the message composed: one
    request, to the notifier's URL, with the formatted text of the tier. *)
Lemma notify_sends error_pct model_name stats w ws notifier w1 message :
  same_channel w ws →
  Telegram.__init__ None None "Asia/Kolkata" w = (Ok notifier, w1) →
  with_trend error_pct stats (severity error_pct).2 = Ok message →
  posted (notify error_pct model_name stats ws).2
  = (posted w ++ [(Telegram.api_url notifier,
                   Telegram.formatted_message notifier message (severity error_pct).1
                     (Some model_name) (Some error_pct) w)])%list.
Proof.
  intros (Hnow & Hposted & _ & Henv) Hinit Htrend.
  pose proof (telegram_init_notifier None None "Asia/Kolkata" w ws Henv) as Hsame.
  rewrite Hinit in Hsame. cbn [fst] in Hsame.
  pose proof (telegram_init_channel None None "Asia/Kolkata" ws) as (Hnow1 & Hposted1 & _).
  unfold notify, try_except, bind.
  destruct (Telegram.__init__ None None "Asia/Kolkata" ws) as [r ws1].
  cbn [fst snd] in *. subst r.
  destruct (severity error_pct) as [tier text]. cbn [fst snd] in *.
  unfold pure. rewrite Htrend. unfold total, Telegram.send_alert.
  pose proof (send_message_posts notifier
                (Telegram.formatted_message notifier message tier (Some model_name)
                   (Some error_pct) ws1) ws1) as Hp.
  destruct (Telegram._send_message notifier _ ws1) as [sent ws2]. cbn [snd] in Hp |- *.
  unfold effect. cbn [snd]. change (posted (print _ ws2)) with (posted ws2).
  rewrite Hp, Hposted1, Hposted.
  by rewrite (formatted_message_now _ _ _ _ _ w ws1) by congruence.
Qed.

(** [notify] when composing the message raises: nothing is posted. *)
Lemma notify_trend_raises error_pct model_name stats ws e :
  with_trend error_pct stats (severity error_pct).2 = Raise e →
  posted (notify error_pct model_name stats ws).2 = posted ws.
Proof.
  intros Htrend. unfold notify, try_except, bind.
  pose proof (telegram_init_channel None None "Asia/Kolkata" ws) as (_ & Hposted & _).
  destruct (Telegram.__init__ None None "Asia/Kolkata" ws) as [[notifier|e'] w1];
    cbn [snd] in Hposted; [|done].
  destruct (severity error_pct) as [tier text]. cbn [snd] in Htrend.
  unfold pure. by rewrite Htrend.
Qed.

Lemma is_zero_spec a : is_zero a = true → ∃ s, Prim2SF a = S754_zero s.
Proof.
  unfold is_zero. rewrite FloatAxioms.eqb_spec. change (Prim2SF 0) with (S754_zero false).
  destruct (Prim2SF a) as [s|[]| |[] m e]; try done. eauto.
Qed.

(** An error above 5.0 is above one and a half times a zero average. *)
Lemma zero_times_above_5 a e :
  is_zero a = true → gt e 5.0%float = true → gt e (a * 1.5)%float = true.
Proof.
  intros [s Ha]%is_zero_spec. unfold gt. rewrite !FloatAxioms.ltb_spec, mul_spec, Ha.
  replace (Prim2SF 5) with (S754_finite false 5629499534213120 (-50)) by (by vm_compute).
  replace (Prim2SF 1.5) with (S754_finite false 6755399441055744 (-52)) by (by vm_compute).
  cbn. destruct (Prim2SF e) as [s'|[]| |[] m x]; try done.
Qed.

Lemma gt_10_gt_5 x : gt x 10.0%float = true → gt x 5.0%float = true.
Proof. unfold gt. intros H. by apply (ltb_trans 5 10 x). Qed.

Lemma severity_error x : PrimFloat.leb x 10 = true → (severity x).1 = "error".
Proof. intros H%leb_not_gt. unfold severity, gt. by rewrite H. Qed.

Lemma severity_critical x : gt x 10.0%float = true → (severity x).1 = "critical".
Proof. intros H. unfold severity. by rewrite H. Qed.

(** The history step stores the error under its (model, date) key, as
    long as the date is within the retention window. *)
Lemma save_to_history_records actual predicted error_pct model_name forecast_date w
    ref w1 self cutoff :
  get_tracker None 30 w = (Ok ref, w1) →
  objects w1 !! ref = Some self →
  cutoff_date w (max_days self) = Ok cutoff →
  str_ge forecast_date cutoff = true →
  recorded_error (save_to_history actual predicted error_pct model_name forecast_date w).2
    ref model_name forecast_date = Some (VFloat error_pct).
Proof.
  intros Hget Hobj Hcut Hge.
  cut (∃ self' entry,
    objects (save_to_history actual predicted error_pct model_name forecast_date w).2 !! ref
      = Some self' ∧
    get_model_history self' model_name !! forecast_date = Some entry ∧
    entry !! "error" = Some (VFloat error_pct)).
  { intros (self' & entry & H1 & H2 & H3). unfold recorded_error. by rewrite H1, H2. }
  pose proof (get_tracker_channel None 30 w) as (Hnow & _). rewrite Hget in Hnow. cbn in Hnow.
  set (method := add_error model_name error_pct (Some forecast_date)
                   (Some (context actual predicted))).
  exists (method self w1).1.2, (new_entry error_pct w1 (Some (context actual predicted))).
  split; [|split].
  - unfold save_to_history, try_except, bind. rewrite Hget. fold method.
    unfold call. rewrite Hobj. destruct (method self w1) as [[r self'] w2]. cbn [fst snd].
    assert (objects (set_objects (<[ref:=self']> (objects w2)) w2) !! ref = Some self') as Hl
      by (cbn; apply lookup_insert_eq).
    destruct r as [saved|e]; [|exact Hl].
    unfold query. rewrite Hl.
    destruct (get_error_statistics self' model_name 7 _) as [stats|e]; [|exact Hl].
    unfold effect, ret. cbn [snd]. by repeat case_match.
  - subst method. rewrite add_error_lookup. rewrite decide_True by done.
    unfold retained, cutoff_date in *. rewrite Hnow, Hcut. by rewrite Hge.
  - rewrite new_entry_lookup. cbn. unfold context.
    rewrite !lookup_insert_ne by done. rewrite lookup_empty. by rewrite decide_True.
Qed.

(** C6: what the code does with the alert decision.  Whatever the error,
    [evaluate_forecast_and_notify] first runs the history step, which posts
    nothing and records the error under its key (for a date within the
    retention window).  An error of at most 5.0 ends there: no alert.  An
    error above 5.0 runs [notify]: when the notifier is built and the
    message composed, exactly one request is posted, to the notifier's URL,
    carrying the text formatted for the tier ("error" up to 10.0,
    "critical" above 10.0), this model and this error, and opening with the
    tier's own message.  But composing the message divides the error by the
    7-day average without looking at it: when that average is zero the
    division raises, the handler of [notify] takes over, and an error above
    5.0 raises no alert at all. *)
Theorem alert_tiers actual predicted model_name forecast_date w error_pct :
  error_pct_of actual predicted = Ok error_pct →
  let w0 := print [Lit model_name; Lit " forecast error: "; Fmt ".2f" error_pct; Lit "%"] w in
  let date := default (strftime (dt_date (now w))) forecast_date in
  let history_step := save_to_history actual predicted error_pct model_name date w0 in
  let run := evaluate_forecast_and_notify actual predicted model_name forecast_date w in
  ∃ stats,
    history_step.1 = Ok stats ∧
    run.1 = Ok error_pct ∧
    posted history_step.2 = posted w ∧
    (∀ ref w1 self cutoff,
       get_tracker None 30 w0 = (Ok ref, w1) → objects w1 !! ref = Some self →
       cutoff_date w (max_days self) = Ok cutoff → str_ge date cutoff = true →
       recorded_error history_step.2 ref model_name date = Some (VFloat error_pct)) ∧
    (PrimFloat.leb error_pct 5 = true → run.2 = history_step.2) ∧
    (gt error_pct 5.0%float = true →
       run.2 = (notify error_pct model_name stats history_step.2).2 ∧
       (∀ notifier w1 message,
          Telegram.__init__ None None "Asia/Kolkata" w = (Ok notifier, w1) →
          with_trend error_pct stats (severity error_pct).2 = Ok message →
          (∃ clause, message = ((severity error_pct).2 ++ clause)%list) ∧
          posted run.2
          = (posted w ++ [(Telegram.api_url notifier,
                           Telegram.formatted_message notifier message (severity error_pct).1
                             (Some model_name) (Some error_pct) w)])%list) ∧
       (∀ a, avg stats = Some a → is_zero a = true →
          with_trend error_pct stats (severity error_pct).2 = Raise ZeroDivisionError ∧
          posted run.2 = posted w)) ∧
    (gt error_pct 5.0%float = true → PrimFloat.leb error_pct 10 = true →
       (severity error_pct).1 = "error") ∧
    (gt error_pct 10.0%float = true →
       gt error_pct 5.0%float = true ∧ (severity error_pct).1 = "critical").
Proof.
  intros He w0 date history_step run.
  destruct (evaluate_unfold actual predicted model_name forecast_date w error_pct He)
    as (stats & ws & w' & Hsave & Hnotify & Heval).
  cbn zeta in Hsave. fold w0 in Hsave. change (now w0) with (now w) in Hsave.
  fold date in Hsave. fold history_step in Hsave. fold run in Heval.
  pose proof (save_to_history_channel actual predicted error_pct model_name date w0)
    as Hchannel. fold history_step in Hchannel.
  assert (same_channel w history_step.2) as Hch by exact Hchannel.
  destruct Hchannel as (Hnow & Hposted & _).
  change (posted w0) with (posted w) in Hposted. change (now w0) with (now w) in Hnow.
  rewrite Hsave in *. rewrite Heval. cbn [fst snd] in *.
  exists stats. split; [done|]. split; [done|]. split; [done|].
  split; [|split; [|split; [|split]]].
  - intros ref w1 self cutoff Hget Hobj Hcut Hge.
    pose proof (save_to_history_records actual predicted error_pct model_name date w0
                  ref w1 self cutoff Hget Hobj Hcut Hge) as H1.
    fold history_step in H1. by rewrite Hsave in H1.
  - intros Hle%leb_not_gt. unfold gt in Hnotify. rewrite Hle in Hnotify.
    by injection Hnotify.
  - intros Hgt. rewrite Hgt in Hnotify.
    assert (w' = (notify error_pct model_name stats ws).2) as -> by by rewrite Hnotify.
    split; [done|]. split.
    + intros notifier w1 message Hinit Htrend.
      split; [by eapply with_trend_prefix|].
      by apply (notify_sends error_pct model_name stats w ws notifier w1 message).
    + intros a Havg Hzero.
      assert (with_trend error_pct stats (severity error_pct).2 = Raise ZeroDivisionError)
        as Htrend.
      { unfold with_trend, truediv. rewrite Havg.
        by rewrite (zero_times_above_5 a error_pct Hzero Hgt), Hzero. }
      split; [done|]. rewrite <- Hposted. by eapply notify_trend_raises.
  - intros _. apply severity_error.
  - intros Hgt. split; [by apply gt_10_gt_5 | by apply severity_critical].
Qed.

Lemma alert_tiers_witness :
  posted (evaluate_forecast_and_notify 100 108 "ARIMA" None Sample.world).2
  = [(Telegram.api_url Sample.notifier,
      Telegram.formatted_message Sample.notifier (severity 8).2 "error" (Some "ARIMA")
        (Some 8%float) Sample.world)] ∧
  (severity 8).1 = "error" ∧
  posted (evaluate_forecast_and_notify 100 108 "ARIMA" (Some "2026-10-20")
            Sample.quiet_world).2 = [].
Proof.
  destruct (alert_tiers 100 108 "ARIMA" None Sample.world 8 eq_refl)
    as (stats & Hstats & _ & _ & _ & _ & Hsent & Htier & _).
  destruct (alert_tiers 100 108 "ARIMA" (Some "2026-10-20") Sample.quiet_world 8 eq_refl)
    as (stats' & Hstats' & _ & _ & _ & _ & Hlost & _).
  apply (f_equal (λ r, match r with Ok s => avg s | Raise _ => None end)) in Hstats, Hstats'.
  vm_compute in Hstats, Hstats'.
  change (Some 8%float = avg stats) in Hstats.
  change (Some 0%float = avg stats') in Hstats'.
  destruct (Hsent eq_refl) as (_ & Hposted & _).
  destruct (Hlost eq_refl) as (_ & _ & Hzero).
  split; [|split].
  - apply (Hposted Sample.notifier
             (Telegram.__init__ None None "Asia/Kolkata" Sample.world).2 (severity 8).2).
    + vm_compute. reflexivity.
    + unfold with_trend. rewrite <- Hstats. reflexivity.
  - exact (Htier eq_refl eq_refl).
  - exact (proj2 (Hzero 0%float (eq_sym Hstats') eq_refl)).
Defined.

(** The tiers at 4.9, 5.1 and 10.1 percent, the boundaries included: the
    requests posted by a run in the sample world. *)
Example tiers_at_the_boundaries :
  posted (evaluate_forecast_and_notify 1000 951 "ARIMA" None Sample.world).2 = [] ∧
  posted (evaluate_forecast_and_notify 1000 950 "ARIMA" None Sample.world).2 = [] ∧
  (λ r, hd_error r.2) <$> posted (evaluate_forecast_and_notify 1000 949 "ARIMA" None
                                    Sample.world).2 = [Some (Lit (Telegram.emoji "error"))] ∧
  (λ r, hd_error r.2) <$> posted (evaluate_forecast_and_notify 1000 900 "ARIMA" None
                                    Sample.world).2 = [Some (Lit (Telegram.emoji "error"))] ∧
  (λ r, hd_error r.2) <$> posted (evaluate_forecast_and_notify 1000 899 "ARIMA" None
                                    Sample.world).2 = [Some (Lit (Telegram.emoji "critical"))].
Proof. repeat split; vm_compute; reflexivity. Qed.

(** An alert [notify] does not get to send: the error of a date more than
    seven days back is compared with a 7-day average of 0.0, the division
    raises inside the [try], and nothing is posted. *)
Example alert_lost_to_zero_average :
  let run := evaluate_forecast_and_notify 100 108 "ARIMA" (Some "2026-10-20")
               Sample.quiet_world in
  run.1 = Ok 8%float ∧ posted run.2 = [] ∧
  last (stdout run.2) = Some [Lit "Failed to send notification: "].
Proof. repeat split; vm_compute; reflexivity. Qed.

(** The history step records also when no alert follows. *)
Example recorded_without_alert :
  let w' := (evaluate_forecast_and_notify 1000 951 "ARIMA" None Sample.world).2 in
  posted w' = [] ∧
  PrimFloat.leb (PrimFloat.abs ((1000 - 951) / 1000) * 100) 5 = true ∧
  recorded_error w' 0 "ARIMA" "2026-11-03"
    = Some (VFloat (PrimFloat.abs ((1000 - 951) / 1000) * 100)).
Proof. repeat split; vm_compute; reflexivity. Qed.

End SchedulerFacts.

(** ** The singleton tracker *)

Module SessionFacts.

Import ErrorHistory Scheduler Session ErrorHistoryFacts SchedulerFacts.

Lemma keeps_refl w : keeps w w.
Proof. by split. Qed.

Lemma keeps_trans w1 w2 w3 : keeps w1 w2 → keeps w2 w3 → keeps w1 w3.
Proof. intros [? H1] [? H2]. split; [congruence|]. intros r. by rewrite H2, H1. Qed.

(** Once the global is set, [get_tracker] returns it and touches nothing. *)
Lemma get_tracker_set history_file max_days w ref :
  _tracker w = Some ref → get_tracker history_file max_days w = (Ok ref, w).
Proof. intros H. unfold get_tracker. by rewrite H. Qed.

(** A call that returns has set the global to what it returns. *)
Lemma get_tracker_sets_global history_file max_days w ref w1 :
  get_tracker history_file max_days w = (Ok ref, w1) → _tracker w1 = Some ref.
Proof.
  unfold get_tracker. destruct (_tracker w) as [r|] eqn:Hg.
  - by intros [= <- <-].
  - destruct (__init__ history_file max_days w) as [[t|e] w']; [|done].
    by intros [= <- <-].
Qed.

(** The tracker the first call builds has the path and the window that
    call was given. *)
Lemma get_tracker_first history_file max_days w ref w1 :
  _tracker w = None →
  get_tracker history_file max_days w = (Ok ref, w1) →
  config w1 ref = Some (default default_history_file history_file, max_days).
Proof.
  intros Hg. unfold get_tracker, __init__, config. rewrite Hg.
  destruct history_file as [path|]; cbn [default].
  - destruct (_load_history path w) as [h w']. intros [= <- <-]. cbn.
    by rewrite lookup_insert_eq.
  - destruct (mkdir_ok w data_dir); [|done].
    destruct (_load_history default_history_file w) as [h w']. intros [= <- <-]. cbn.
    by rewrite lookup_insert_eq.
Qed.

Lemma save_history_keeps self w : keeps w (_save_history self w).2.
Proof. unfold _save_history. by destruct (writable w (history_file self)). Qed.

Lemma add_error_keeps model_name error_value forecast_date additional_metrics self w :
  keeps w (add_error model_name error_value forecast_date additional_metrics self w).2.
Proof.
  rewrite add_error_unfold. cbn zeta.
  destruct (cutoff_date w (max_days self)); [apply save_history_keeps | apply keeps_refl].
Qed.

Lemma call_add_error_keeps ref model_name error_value forecast_date additional_metrics w :
  keeps w (call ref (add_error model_name error_value forecast_date additional_metrics) w).2.
Proof.
  unfold call. destruct (objects w !! ref) as [self|] eqn:Hobj; [|apply keeps_refl].
  pose proof (add_error_keeps model_name error_value forecast_date additional_metrics self w)
    as [Hg Hc].
  pose proof (add_error_config model_name error_value forecast_date additional_metrics self w)
    as [Hf Hm].
  destruct (add_error _ _ _ _ self w) as [[r self'] w']. cbn [fst snd] in *.
  split; [done|]. intros r'. unfold config in *. cbn [objects set_objects].
  destruct (decide (r' = ref)) as [->|Hne].
  - rewrite lookup_insert_eq, Hobj. cbn. by rewrite Hf, Hm.
  - rewrite lookup_insert_ne by done. apply Hc.
Qed.

Lemma telegram_init_keeps token chat_id tz w :
  keeps w (Telegram.__init__ token chat_id tz w).2.
Proof.
  unfold Telegram.__init__, Telegram._validate_and_fix_token.
  repeat case_match; simplify_eq; by split.
Qed.

Lemma send_alert_keeps notifier message tier model_name error_value w :
  keeps w (Telegram.send_alert notifier message tier model_name error_value w).2.
Proof.
  unfold Telegram.send_alert, Telegram._send_message.
  repeat case_match; by split.
Qed.

Lemma notify_keeps error_pct model_name stats w :
  keeps w (notify error_pct model_name stats w).2.
Proof.
  unfold notify, try_except, bind.
  pose proof (telegram_init_keeps None None "Asia/Kolkata" w) as H1.
  destruct (Telegram.__init__ None None "Asia/Kolkata" w) as [[notifier|e] w1];
    cbn [snd] in *; [|exact H1].
  destruct (severity error_pct) as [tier message].
  unfold pure. destruct (with_trend error_pct stats message) as [message'|e]; [|exact H1].
  unfold total.
  pose proof (send_alert_keeps notifier message' tier (Some model_name) (Some error_pct) w1)
    as H2.
  destruct (Telegram.send_alert _ _ _ _ _ w1) as [sent w2]. cbn [snd] in *.
  exact (keeps_trans _ _ _ H1 H2).
Qed.

Lemma save_to_history_keeps actual predicted error_pct model_name forecast_date w ref :
  _tracker w = Some ref →
  keeps w (save_to_history actual predicted error_pct model_name forecast_date w).2.
Proof.
  intros Hg. unfold save_to_history, try_except, bind.
  rewrite (get_tracker_set None 30 w ref Hg).
  pose proof (call_add_error_keeps ref model_name error_pct (Some forecast_date)
                (Some (context actual predicted)) w) as H2.
  destruct (call ref _ w) as [[saved|e] w2]; cbn [snd] in *; [|exact H2].
  unfold query. destruct (objects w2 !! ref) as [self|]; [|exact H2].
  destruct (get_error_statistics self model_name 7 w2) as [stats|e]; [|exact H2].
  unfold effect, ret. cbn [snd].
  eapply keeps_trans; [exact H2|]. by repeat case_match.
Qed.

Lemma evaluate_keeps actual predicted model_name forecast_date w ref :
  _tracker w = Some ref →
  keeps w (evaluate_forecast_and_notify actual predicted model_name forecast_date w).2.
Proof.
  intros Hg.
  destruct (error_pct_of_total actual predicted) as [e He].
  destruct (evaluate_unfold actual predicted model_name forecast_date w e He)
    as (stats & w1 & w2 & Hs & Hn & ->). cbn zeta in Hs. cbn [snd].
  set (w0 := print _ w) in Hs.
  pose proof (save_to_history_keeps actual predicted e model_name
                (default (strftime (dt_date (now w0))) forecast_date) w0 ref Hg) as H1.
  rewrite Hs in H1. cbn [snd] in H1.
  assert (keeps w1 w2) as H2.
  { destruct (gt e 5.0%float).
    - pose proof (notify_keeps e model_name stats w1) as H. by rewrite Hn in H.
    - injection Hn as <-. apply keeps_refl. }
  exact (keeps_trans w w1 w2 H1 H2).
Qed.

Lemma step_keeps a w ref : _tracker w = Some ref → keeps w (step a w).
Proof.
  intros Hg. destruct a; cbn [step].
  - rewrite (get_tracker_set _ _ w ref Hg). apply keeps_refl.
  - apply call_add_error_keeps.
  - by apply (evaluate_keeps _ _ _ _ w ref).
  - by split.
Qed.

Lemma steps_keeps actions : ∀ w ref, _tracker w = Some ref → keeps w (steps actions w).
Proof.
  induction actions as [|a rest IH]; intros w ref Hg; [apply keeps_refl|].
  change (steps (a :: rest) w) with (steps rest (step a w)).
  pose proof (step_keeps a w ref Hg) as H1.
  eapply keeps_trans; [exact H1|]. apply (IH _ ref). destruct H1 as [-> _]. done.
Qed.

(** C10.  Once [get_tracker] has returned a tracker, every later call,
    whatever the program did in between and whatever [history_file] and
    [max_days] it passes, returns that same reference and leaves the world
    as it is; the tracker's storage path and retention window are still
    the ones it had after the first call. *)
Theorem get_tracker_singleton history_file max_days w ref w1 actions history_file' max_days' :
  get_tracker history_file max_days w = (Ok ref, w1) →
  let w2 := steps actions w1 in
  get_tracker history_file' max_days' w2 = (Ok ref, w2) ∧
  config w2 ref = config w1 ref ∧
  (_tracker w = None →
   config w2 ref = Some (default default_history_file history_file, max_days)).
Proof.
  intros Hfirst w2. pose proof (get_tracker_sets_global _ _ _ _ _ Hfirst) as Hset.
  destruct (steps_keeps actions w1 ref Hset) as [Hg Hc]. fold w2 in Hg, Hc.
  split; [|split].
  - apply get_tracker_set. congruence.
  - apply Hc.
  - intros Hnone. rewrite Hc. by apply (get_tracker_first history_file max_days w).
Qed.

Lemma get_tracker_singleton_witness :
  let w1 := (get_tracker None 30 Sample.world).2 in
  let w2 := steps [AddError 0 "ARIMA" 3 None None; GetTracker (Some "elsewhere.json") 7;
                   Evaluate 100 108 "ARIMA" None] w1 in
  get_tracker (Some "other.json") 90 w2 = (Ok 0%nat, w2) ∧
  config w2 0 = config w1 0 ∧
  (_tracker Sample.world = None → config w2 0 = Some ("data/error_history.json", 30%Z)).
Proof.
  exact (get_tracker_singleton None 30 Sample.world 0 (get_tracker None 30 Sample.world).2
           [AddError 0 "ARIMA" 3 None None; GetTracker (Some "elsewhere.json") 7;
            Evaluate 100 108 "ARIMA" None]
           (Some "other.json") 90 eq_refl).
Defined.

End SessionFacts.

(** ** Strings: order, concatenation and fields *)

Module StringFacts.

Import Telegram.

Lemma ascii_compare_refl a : Ascii.compare a a = Eq.
Proof. apply N.compare_refl. Qed.

Lemma ascii_compare_trans a b c o :
  Ascii.compare a b = o → Ascii.compare b c = o → Ascii.compare a c = o.
Proof.
  unfold Ascii.compare. intros H1 H2.
  destruct o.
  - apply N.compare_eq in H1, H2. rewrite H1, H2. apply N.compare_refl.
  - rewrite N.compare_lt_iff in *. lia.
  - rewrite N.compare_gt_iff in *. lia.
Qed.

Lemma string_compare_refl s : String.compare s s = Eq.
Proof. induction s as [|c s IH]; [done|]. cbn. by rewrite ascii_compare_refl. Qed.

Lemma string_compare_trans : ∀ s1 s2 s3 o,
  String.compare s1 s2 = o → String.compare s2 s3 = o → String.compare s1 s3 = o.
Proof.
  induction s1 as [|c1 s1 IH]; intros [|c2 s2] [|c3 s3] o; cbn; try congruence.
  destruct (Ascii.compare c1 c2) eqn:E12, (Ascii.compare c2 c3) eqn:E23;
    intros H1 H2; subst; try congruence.
  - apply Ascii.compare_eq_iff in E12, E23. subst.
    rewrite ascii_compare_refl. eauto.
  - apply Ascii.compare_eq_iff in E12. subst. by rewrite E23.
  - apply Ascii.compare_eq_iff in E12. subst. by rewrite E23.
  - apply Ascii.compare_eq_iff in E23. subst. by rewrite E12.
  - by rewrite (ascii_compare_trans _ _ _ _ E12 E23).
  - apply Ascii.compare_eq_iff in E23. subst. by rewrite E12.
  - by rewrite (ascii_compare_trans _ _ _ _ E12 E23).
Qed.

(** Python's [<=] on strings is transitive. *)
Lemma string_leb_trans s1 s2 s3 :
  String.leb s1 s2 = true → String.leb s2 s3 = true → String.leb s1 s3 = true.
Proof.
  unfold String.leb.
  destruct (String.compare s1 s2) eqn:E12; [| |done];
  destruct (String.compare s2 s3) eqn:E23; try done; intros _ _.
  - apply String.compare_eq_iff in E12, E23. subst.
    by rewrite string_compare_refl.
  - apply String.compare_eq_iff in E12. subst. by rewrite E23.
  - apply String.compare_eq_iff in E23. subst. by rewrite E12.
  - by rewrite (string_compare_trans _ _ _ _ E12 E23).
Qed.

Lemma string_leb_ltb a b : String.leb a b = true → a ≠ b → String.ltb a b = true.
Proof.
  unfold String.leb, String.ltb.
  destruct (String.compare a b) eqn:E; try done.
  apply String.compare_eq_iff in E. congruence.
Qed.

(** A sorted list without duplicates is strictly ascending. *)
Lemma sorted_strict_strings (l : list string) :
  StronglySorted (λ a b, String.leb a b = true) l → NoDup l →
  StronglySorted (λ a b, String.ltb a b = true) l.
Proof.
  induction 1 as [|a l Hs IH Hall]; [constructor|].
  intros [Hnin Hnd]%NoDup_cons. constructor; [auto|].
  rewrite Forall_forall in *. intros b Hb. apply string_leb_ltb; [by apply Hall|].
  by intros ->.
Qed.

Lemma string_app_cons c (a b : string) : String c a ++ b = String c (a ++ b).
Proof. reflexivity. Qed.

Lemma string_app_length (a b : string) :
  String.length (a ++ b) = (String.length a + String.length b)%nat.
Proof. induction a as [|c a IH]; [done|]. rewrite string_app_cons. cbn. by rewrite IH. Qed.

Lemma string_app_assoc (a b c : string) : (a ++ b) ++ c = a ++ (b ++ c).
Proof. induction a as [|x a IH]; [done|]. rewrite !string_app_cons. by rewrite IH. Qed.

Lemma string_app_empty (a : string) : a ++ "" = a.
Proof. induction a as [|x a IH]; [done|]. rewrite string_app_cons. by rewrite IH. Qed.

Lemma concat_cons2 sep (x y : string) l :
  String.concat sep (x :: y :: l) = x ++ sep ++ String.concat sep (y :: l).
Proof. reflexivity. Qed.

Lemma split_colon_nonempty s : split_colon s ≠ [].
Proof.
  destruct s as [|c s]; cbn; [done|].
  destruct (Ascii.eqb c ":"); [done|]. by destruct (split_colon s).
Qed.

(** A string without a colon is its own single field. *)
Lemma split_colon_free s : count_colon s = 0%nat ↔ split_colon s = [s].
Proof.
  unfold count_colon. induction s as [|c s IH]; cbn; [done|].
  destruct (Ascii.eqb c ":") eqn:E.
  - pose proof (split_colon_nonempty s). destruct (split_colon s); [done|]. cbn. split; [lia|done].
  - destruct (split_colon s) as [|p ps] eqn:Hs; [by apply split_colon_nonempty in Hs|].
    cbn in *. split.
    + intros H. assert (ps = []) as -> by (destruct ps; [done|cbn in H; lia]).
      f_equal. f_equal. assert ([p] = [s]) as [= ->]; [|done]. apply IH. done.
    + intros [= -> ->]. done.
Qed.

(** The fields [split] returns hold no colon. *)
Lemma split_colon_fields s : Forall (λ p, count_colon p = 0%nat) (split_colon s).
Proof.
  induction s as [|c s IH]; cbn.
  - by constructor.
  - destruct (Ascii.eqb c ":") eqn:E.
    + by constructor.
    + destruct (split_colon s) as [|p ps] eqn:Hs; [by apply split_colon_nonempty in Hs|].
      apply Forall_cons in IH as [Hp Hps]. constructor; [|done].
      apply split_colon_free. cbn. rewrite E.
      apply split_colon_free in Hp. by rewrite Hp.
Qed.

Lemma split_colon_cons a b :
  count_colon a = 0%nat → split_colon (a ++ String ":" b) = a :: split_colon b.
Proof.
  induction a as [|c a IH]; [done|].
  intros H. apply split_colon_free in H. rewrite string_app_cons. cbn in H |- *.
  destruct (Ascii.eqb c ":") eqn:E; [done|].
  destruct (split_colon a) as [|p ps] eqn:Hs; [by apply split_colon_nonempty in Hs|].
  injection H as -> ->.
  rewrite IH; [done|]. apply split_colon_free. done.
Qed.

Lemma split_colon_app a b :
  count_colon a = 0%nat → split_colon (a ++ ":" ++ b) = a :: split_colon b.
Proof. apply split_colon_cons. Qed.

Lemma count_colon_app a b :
  count_colon a = 0%nat → count_colon b = 0%nat → count_colon (a ++ b) = 0%nat.
Proof.
  intros Ha Hb. apply split_colon_free. apply split_colon_free in Hb.
  induction a as [|c a IH]; [done|].
  apply split_colon_free in Ha. rewrite string_app_cons. cbn in Ha |- *.
  destruct (Ascii.eqb c ":"); [done|].
  destruct (split_colon a) as [|p ps] eqn:E; [by apply split_colon_nonempty in E|].
  injection Ha as -> ->. rewrite IH; [done|]. by apply split_colon_free.
Qed.

(** [':'.join(s.split(':'))] is [s]. *)
Lemma split_colon_join s : String.concat ":" (split_colon s) = s.
Proof.
  induction s as [|c s IH]; [done|]. cbn [split_colon].
  destruct (Ascii.eqb c ":") eqn:E.
  - apply Ascii.eqb_eq in E. subst.
    destruct (split_colon s) as [|p ps] eqn:Hs; [by apply split_colon_nonempty in Hs|].
    rewrite concat_cons2, IH. reflexivity.
  - destruct (split_colon s) as [|p ps] eqn:Hs; [by apply split_colon_nonempty in Hs|].
    destruct ps as [|q ps].
    + cbn [String.concat] in *. by rewrite IH.
    + rewrite concat_cons2 in *. rewrite string_app_cons. by rewrite IH.
Qed.

End StringFacts.

(** ** Persistence and the other keys *)

Module PersistenceFacts.

Import ErrorHistory ErrorHistoryFacts.

(** The tracker a first [get_tracker] builds and stores: the snapshot of
    the file when there is one, an empty history otherwise. *)
Lemma get_tracker_fresh history_file max_days w :
  _tracker w = None →
  (history_file = None → mkdir_ok w data_dir = true) →
  let path := default default_history_file history_file in
  ∃ ref,
    (get_tracker history_file max_days w).1 = Ok ref ∧
    objects (get_tracker history_file max_days w).2 !! ref =
      Some (Tracker path max_days
              (match files w !! path with Some (Snapshot h) => h | _ => ∅ end)) ∧
    objects w !! ref = None ∧
    _tracker (get_tracker history_file max_days w).2 = Some ref ∧
    files (get_tracker history_file max_days w).2 = files w.
Proof.
  intros Hg Hmk path. unfold get_tracker. rewrite Hg.
  assert (∃ lg, __init__ history_file max_days w =
            (Ok (Tracker path max_days
                   (match files w !! path with Some (Snapshot h) => h | _ => ∅ end)),
             set_log lg w)) as [lg ->].
  { unfold __init__, _load_history, logging. subst path.
    destruct history_file as [p|]; cbn [default]; [|rewrite Hmk by done];
      (destruct (files w !! _) as [[h|]|]; eauto). }
  eexists. cbn [fst snd]. split; [done|]. cbn [objects set_tracker_global set_objects set_log].
  rewrite lookup_insert_eq. split; [done|]. split; [|done].
  apply not_elem_of_dom, is_fresh.
Qed.

(** X1.  A history [add_error] has saved is read back whole: when the
    call returns [True], the file holds the tracker's history as the call
    left it, pruning included, and a process that starts with that file and
    asks [get_tracker] for the same path gets a tracker with exactly that
    history, whatever retention window it asks for. *)
Theorem saved_history_reloads model_name error_value forecast_date additional_metrics
    self w self' w' max_days' restarted :
  add_error model_name error_value forecast_date additional_metrics self w
    = (Ok true, self', w') →
  files restarted = files w' → _tracker restarted = None →
  files w' !! history_file self = Some (Snapshot (history self')) ∧
  ∃ ref,
    (get_tracker (Some (history_file self)) max_days' restarted).1 = Ok ref ∧
    objects (get_tracker (Some (history_file self)) max_days' restarted).2 !! ref
      = Some (Tracker (history_file self) max_days' (history self')).
Proof.
  rewrite add_error_unfold. cbn zeta.
  destruct (cutoff_date w (max_days self)) as [cutoff|e]; [|done].
  unfold _save_history. cbn [history_file history].
  destruct (writable w (history_file self)); [|done].
  cbn [fst snd]. intros [= <- <-] Hfiles Hg. cbn [history].
  assert (files restarted !! history_file self
          = Some (Snapshot (recent_entries cutoff <$>
                    inserted model_name (written_date w forecast_date)
                      (new_entry error_value w additional_metrics) (history self)))) as Hfile
    by (rewrite Hfiles; cbn; apply lookup_insert_eq).
  split; [by rewrite <- Hfiles|].
  destruct (get_tracker_fresh (Some (history_file self)) max_days' restarted Hg)
    as (ref & Hr & Hobj & _); [done|].
  change (default default_history_file (Some (history_file self)))
    with (history_file self) in Hobj.
  exists ref. split; [done|]. by rewrite Hobj, Hfile.
Qed.

Lemma saved_history_reloads_witness :
  files Cases.saved_world !! "data/error_history.json"
    = Some (Snapshot Cases.saved_history) ∧
  ∃ ref,
    (get_tracker (Some "data/error_history.json") 7
       (Cases.world_with_file Cases.saved_history)).1 = Ok ref ∧
    objects (get_tracker (Some "data/error_history.json") 7
               (Cases.world_with_file Cases.saved_history)).2 !! ref
      = Some (Tracker "data/error_history.json" 7 Cases.saved_history).
Proof.
  apply (saved_history_reloads "ARIMA" 3 None None Sample.tracker Sample.world
           (Tracker "data/error_history.json" 30 Cases.saved_history) Cases.saved_world 7
           (Cases.world_with_file Cases.saved_history));
    vm_compute; reflexivity.
Defined.

(** X2.  The first [get_tracker] of a process never fails on the file:
    when the data directory can be made, it returns a new tracker that
    holds the snapshot of the history file if the file parses, and an empty
    history if the file is missing or is not valid JSON; the file itself is
    left as it was. *)
Theorem first_get_tracker_loads_or_starts_empty history_file max_days w :
  _tracker w = None →
  mkdir_ok w data_dir = true →
  let path := default default_history_file history_file in
  ∃ ref,
    (get_tracker history_file max_days w).1 = Ok ref ∧
    objects (get_tracker history_file max_days w).2 !! ref =
      Some (Tracker path max_days
              (match files w !! path with Some (Snapshot h) => h | _ => ∅ end)) ∧
    objects w !! ref = None ∧
    files (get_tracker history_file max_days w).2 = files w.
Proof.
  intros Hg Hmk path.
  destruct (get_tracker_fresh history_file max_days w Hg (λ _, Hmk))
    as (ref & ? & ? & ? & _ & ?). eauto.
Qed.

Lemma first_get_tracker_loads_or_starts_empty_witness :
  ∃ ref,
    (get_tracker None 30 Sample.world).1 = Ok ref ∧
    objects (get_tracker None 30 Sample.world).2 !! ref =
      Some (Tracker "data/error_history.json" 30
              (match files Sample.world !! "data/error_history.json" with
               | Some (Snapshot h) => h | _ => ∅ end)) ∧
    objects Sample.world !! ref = None ∧
    files (get_tracker None 30 Sample.world).2 = files Sample.world.
Proof.
  exact (first_get_tracker_loads_or_starts_empty None 30 Sample.world eq_refl eq_refl).
Defined.

(** X3.  [add_error] touches one key: under every other (model, date)
    key the tracker holds afterwards what it held before, unless the date
    is older than the cutoff, in which case the entry is pruned; no other
    key comes into being. *)
Theorem add_error_leaves_other_keys model_name error_value forecast_date additional_metrics
    self w m date :
  (m, date) ≠ (model_name, written_date w forecast_date) →
  get_model_history
    (add_error model_name error_value forecast_date additional_metrics self w).1.2 m !! date
  = if retained w self date then get_model_history self m !! date else None.
Proof.
  intros Hne. rewrite add_error_lookup. rewrite decide_False; [done|].
  intros [-> ->]. by apply Hne.
Qed.

Lemma add_error_leaves_other_keys_witness :
  get_model_history
    (add_error "LSTM" 3 None None Sample.busy_tracker Sample.world).1.2 "ARIMA" !! "2026-11-02"
  = if retained Sample.world Sample.busy_tracker "2026-11-02"
    then get_model_history Sample.busy_tracker "ARIMA" !! "2026-11-02" else None.
Proof.
  apply (add_error_leaves_other_keys "LSTM" 3 None None Sample.busy_tracker Sample.world
           "ARIMA" "2026-11-02").
  intros H. discriminate H.
Defined.

(** X4.  [add_error] never drops a model: afterwards the history has a
    dict for the model written and for every model it had, also for one
    whose entries were all pruned, which keeps an empty dict. *)
Theorem add_error_keeps_models model_name error_value forecast_date additional_metrics
    self w :
  dom (history (add_error model_name error_value forecast_date additional_metrics self w).1.2)
  = dom (history self) ∪ {[model_name]}.
Proof.
  rewrite add_error_unfold. cbn zeta.
  assert (dom (inserted model_name (written_date w forecast_date)
                 (new_entry error_value w additional_metrics) (history self))
          = dom (history self) ∪ {[model_name]}) as H.
  { apply set_eq. intros m. rewrite elem_of_dom, inserted_lookup, elem_of_union,
      elem_of_singleton, elem_of_dom.
    destruct (decide (m = model_name)); [|tauto]. split; eauto. }
  destruct (cutoff_date w (max_days self)); cbn [fst snd history]; [|done].
  by rewrite dom_fmap_L.
Qed.

(** A model whose only entry is two months old keeps its key, with
    nothing under it, when another model is written. *)
Example pruned_model_keeps_empty_dict :
  let self := Tracker "data/error_history.json" 30
                (<["ARIMA" := <["2026-09-01" := Sample.observation 4]> ∅]> ∅) in
  history (add_error "LSTM" 3 None None self Sample.world).1.2 !! "ARIMA" = Some ∅.
Proof. vm_compute. reflexivity. Qed.

End PersistenceFacts.

(** ** Reading the history *)

Module RecentErrorsFacts.

Import ErrorHistory Views FloatFacts CalendarFacts ErrorHistoryFacts StringFacts.

#[export] Instance by_date_total : Total by_date.
Proof. intros a b. apply String.leb_total. Qed.

#[export] Instance by_date_trans : Transitive by_date.
Proof. intros a b c. apply string_leb_trans. Qed.

Lemma window_elem self m cutoff date entry :
  (date, entry) ∈ window self m cutoff ↔
  get_model_history self m !! date = Some entry ∧ str_ge date cutoff = true.
Proof.
  unfold window. rewrite list_elem_of_In, filter_In, <- list_elem_of_In, elem_of_map_to_list.
  done.
Qed.

Lemma window_NoDup self m cutoff : NoDup (window self m cutoff).*1.
Proof.
  unfold window. generalize (NoDup_fst_map_to_list (get_model_history self m)).
  generalize (map_to_list (get_model_history self m)).
  induction l as [|[k v] l IH]; cbn -[str_ge]; [done|].
  intros [Hnin Hnd]%NoDup_cons. destruct (str_ge k cutoff); cbn -[str_ge]; [|auto].
  apply NoDup_cons. split; [|auto].
  intros ([k' v'] & -> & Hin)%list_elem_of_fmap. apply Hnin.
  apply list_elem_of_fmap. exists (k', v'). split; [done|].
  apply list_elem_of_In in Hin. apply filter_In in Hin as [Hin _]. by apply list_elem_of_In.
Qed.

(** The comprehension of [get_recent_errors]: it pairs each item with its
    [error], or raises [KeyError] at an item that has none. *)
Lemma date_errors_spec items :
  match date_errors items with
  | Ok recent =>
      Forall2 (λ it r, r.1 = it.1 ∧ it.2 !! "error" = Some r.2) items recent
  | Raise e => e = KeyError "error" ∧ Exists (λ it, it.2 !! "error" = None) items
  end.
Proof.
  induction items as [|[date entry] rest IH]; cbn; [constructor|].
  destruct (entry !! "error") as [v|] eqn:E.
  - destruct (date_errors rest) as [tl|e]; cbn.
    + constructor; [done|exact IH].
    + destruct IH as [-> IH]. split; [done|]. by apply Exists_cons_tl.
  - split; [done|]. by apply Exists_cons_hd.
Qed.

Lemma date_errors_fst items recent :
  Forall2 (λ (it : string * gmap string value) (r : string * value),
             r.1 = it.1 ∧ it.2 !! "error" = Some r.2) items recent →
  recent.*1 = items.*1.
Proof. induction 1 as [|it r ? ? [? ?]]; cbn; congruence. Qed.

Lemma date_errors_elem items recent date v :
  Forall2 (λ (it : string * gmap string value) (r : string * value),
             r.1 = it.1 ∧ it.2 !! "error" = Some r.2) items recent →
  (date, v) ∈ recent ↔ ∃ entry, (date, entry) ∈ items ∧ entry !! "error" = Some v.
Proof.
  induction 1 as [|[d e] [d' v'] items recent [Hd He] _ IH]; cbn in *.
  - split; [by intros ?%elem_of_nil|]. by intros (? & ?%elem_of_nil & _).
  - subst d'. rewrite elem_of_cons, IH. split.
    + intros [[= -> ->]|(entry & Hin & Hv)].
      * exists e. split; [left|done].
      * exists entry. split; [by right|done].
    + intros (entry & [[= -> ->]|Hin]%elem_of_cons & Hv).
      * left. congruence.
      * right. eauto.
Qed.

(** What [get_recent_errors] returns when it returns: the window's items
    with their errors, sorted. *)
Lemma get_recent_errors_Ok self m days w cutoff recent :
  cutoff_date w days = Ok cutoff →
  get_recent_errors self m days w = Ok recent →
  ∃ unsorted,
    Forall2 (λ it r, r.1 = it.1 ∧ it.2 !! "error" = Some r.2) (window self m cutoff) unsorted ∧
    recent = merge_sort by_date unsorted.
Proof.
  intros Hc. unfold get_recent_errors. destruct (size _ =? 0)%nat eqn:E.
  - intros [= <-]. apply Nat.eqb_eq, map_size_empty_iff in E.
    exists []. split; [|done]. unfold window. rewrite E, map_to_list_empty. constructor.
  - rewrite Hc. cbn [mbind result_mbind result_bind]. fold (window self m cutoff).
    pose proof (date_errors_spec (window self m cutoff)) as H.
    destruct (date_errors (window self m cutoff)) as [unsorted|e]; [|done].
    cbn. intros [= <-]. eauto.
Qed.

(** The pairs [get_recent_errors] returns. *)
Lemma get_recent_errors_elem self m days w cutoff recent date v :
  cutoff_date w days = Ok cutoff →
  get_recent_errors self m days w = Ok recent →
  (date, v) ∈ recent ↔
  str_ge date cutoff = true ∧
  ∃ entry, get_model_history self m !! date = Some entry ∧ entry !! "error" = Some v.
Proof.
  intros Hc Hr. destruct (get_recent_errors_Ok _ _ _ _ _ _ Hc Hr) as (unsorted & HF & ->).
  rewrite (merge_sort_Permutation by_date unsorted).
  rewrite (date_errors_elem _ _ date v HF). split.
  - intros (entry & [? ?]%window_elem & ?). eauto.
  - intros (? & entry & ? & ?). exists entry. by rewrite window_elem.
Qed.

(** A call that returns a pair has computed its cutoff. *)
Lemma get_recent_errors_cutoff self m days w recent :
  get_recent_errors self m days w = Ok recent → recent ≠ [] →
  ∃ cutoff, cutoff_date w days = Ok cutoff.
Proof.
  unfold get_recent_errors. destruct (size _ =? 0)%nat; [by intros [= <-]|].
  destruct (cutoff_date w days) as [cutoff|]; [eauto|done].
Qed.

Lemma sorted_strict_dates (l : list (string * value)) :
  StronglySorted by_date l → NoDup l.*1 →
  StronglySorted (λ a b, String.ltb a.1 b.1 = true) l.
Proof.
  induction 1 as [|a l Hs IH Hall]; cbn; [constructor|].
  intros [Hnin Hnd]%NoDup_cons. constructor; [auto|].
  rewrite Forall_forall in *. intros b Hb. apply string_leb_ltb; [by apply Hall|].
  intros Heq. apply Hnin. rewrite Heq. apply list_elem_of_fmap. eauto.
Qed.

(** X5.  What [get_recent_errors] returns is in strictly ascending order
    of date, so no date occurs twice; and it holds the pair (date, error)
    exactly for the model's entries dated at or after the cutoff, the
    ['%Y-%m-%d'] string of [days] days before the call. *)
Theorem recent_errors_sorted_window self model_name days w cutoff recent :
  cutoff_date w days = Ok cutoff →
  get_recent_errors self model_name days w = Ok recent →
  StronglySorted (λ a b, String.ltb a.1 b.1 = true) recent ∧
  ∀ date v,
    (date, v) ∈ recent ↔
    str_ge date cutoff = true ∧
    ∃ entry, get_model_history self model_name !! date = Some entry ∧
             entry !! "error" = Some v.
Proof.
  intros Hc Hr. split; [|intros; by eapply get_recent_errors_elem].
  destruct (get_recent_errors_Ok _ _ _ _ _ _ Hc Hr) as (unsorted & HF & ->).
  assert (NoDup (merge_sort by_date unsorted).*1) as Hnd.
  { rewrite (merge_sort_Permutation by_date unsorted), (date_errors_fst _ _ HF).
    apply window_NoDup. }
  apply sorted_strict_dates; [|done]. apply StronglySorted_merge_sort; apply _.
Qed.

Lemma recent_errors_sorted_window_witness :
  let recent : list (string * value) :=
    [("2026-11-01", VFloat 3); ("2026-11-02", VFloat 7); ("2026-11-03", VFloat 12)] in
  StronglySorted (λ a b, String.ltb a.1 b.1 = true) recent ∧
  ∀ date v,
    (date, v) ∈ recent ↔
    str_ge date "2026-10-27" = true ∧
    ∃ entry, get_model_history Sample.busy_tracker "ARIMA" !! date = Some entry ∧
             entry !! "error" = Some v.
Proof.
  exact (recent_errors_sorted_window Sample.busy_tracker "ARIMA" 7 Sample.world "2026-10-27"
           [("2026-11-01", VFloat 3); ("2026-11-02", VFloat 7); ("2026-11-03", VFloat 12)]
           eq_refl eq_refl).
Defined.

(** X6.  [get_recent_errors] raises [KeyError('error')] exactly when some
    entry of the model dated at or after the cutoff has no [error] key; an
    entry older than the cutoff is never looked into. *)
Theorem recent_errors_key_error self model_name days w cutoff :
  cutoff_date w days = Ok cutoff →
  (∃ date entry, get_model_history self model_name !! date = Some entry ∧
                 str_ge date cutoff = true ∧ entry !! "error" = None) ↔
  get_recent_errors self model_name days w = Raise (KeyError "error").
Proof.
  intros Hc. unfold get_recent_errors. destruct (size _ =? 0)%nat eqn:E.
  - apply Nat.eqb_eq, map_size_empty_iff in E. rewrite E. split; [|done].
    intros (date & entry & H & _). by rewrite lookup_empty in H.
  - rewrite Hc. cbn [mbind result_mbind result_bind]. fold (window self model_name cutoff).
    pose proof (date_errors_spec (window self model_name cutoff)) as H.
    destruct (date_errors (window self model_name cutoff)) as [unsorted|e]; cbn.
    + split; [|done]. intros (date & entry & Hl & Hge & Hnone). exfalso.
      assert ((date, entry) ∈ window self model_name cutoff) as Hin by by apply window_elem.
      clear -H Hin Hnone. induction H as [|it r ? ? [? ?]]; [by apply elem_of_nil in Hin|].
      apply elem_of_cons in Hin as [<-|Hin]; [cbn in *; congruence|auto].
    + destruct H as [-> H]. split; [done|]. intros _.
      apply Exists_exists in H as ([date entry] & Hin & Hnone).
      apply window_elem in Hin as [? ?]. eauto.
Qed.

Lemma recent_errors_key_error_witness :
  (∃ date entry, get_model_history Cases.malformed_tracker "ARIMA" !! date = Some entry ∧
                 str_ge date "2026-10-27" = true ∧ entry !! "error" = None) ↔
  get_recent_errors Cases.malformed_tracker "ARIMA" 7 Sample.world = Raise (KeyError "error").
Proof.
  exact (recent_errors_key_error Cases.malformed_tracker "ARIMA" 7 Sample.world "2026-10-27"
           eq_refl).
Defined.

(** The broken entry of 2026-11-02 makes the 7-day read raise; a read of
    the same day's zero-day window does not reach it. *)
Example broken_entry_outside_window :
  get_recent_errors Cases.malformed_tracker "ARIMA" 7 Sample.world = Raise (KeyError "error") ∧
  get_recent_errors Cases.malformed_tracker "ARIMA" 0 Sample.world
    = Ok [("2026-11-03", VFloat 4)].
Proof. split; vm_compute; reflexivity. Qed.








Lemma floats_length vs fs : floats vs = Ok fs → List.length fs = List.length vs.
Proof.
  revert fs. induction vs as [|[f|s] vs IH]; intros fs; cbn; [by intros [= <-]| |done].
  destruct (floats vs) as [tl|]; cbn; [|done]. intros [= <-]. cbn. by rewrite (IH tl).
Qed.

(** X8.  The statistics [get_error_statistics] returns are consistent:
    [count] is the number of recent entries, the violations are at most
    [count], and [avg], [min] and [max] are [None] exactly when [count] is
    0, so a caller that has checked [count] can format them. *)
Theorem statistics_are_consistent self model_name days w stats :
  get_error_statistics self model_name days w = Ok stats →
  (above_threshold_count stats ≤ count stats)%nat ∧
  (∀ recent, get_recent_errors self model_name days w = Ok recent →
             count stats = List.length recent) ∧
  (count stats = 0%nat ↔ avg stats = None) ∧
  (avg stats = None ↔ min stats = None) ∧
  (avg stats = None ↔ max stats = None).
Proof.
  unfold get_error_statistics.
  destruct (get_recent_errors self model_name days w) as [recent|]; [|done].
  cbn [mbind result_mbind result_bind].
  destruct (floats (recent.*2)) as [errors|] eqn:E; [|done].
  cbn. intros [= <-]. apply floats_length in E. rewrite length_fmap in E.
  destruct errors as [|e es].
  - cbn in *. repeat split; try done. by intros ? [= <-].
  - cbn [statistics count avg min max above_threshold_count]. repeat split; try done.
    + unfold count_if. apply List.filter_length_le.
    + intros ? [= <-]. done.
Qed.

Lemma statistics_are_consistent_witness :
  (2 ≤ 3)%nat ∧
  (∀ recent, get_recent_errors Sample.busy_tracker "ARIMA" 30 Sample.world = Ok recent →
             3%nat = List.length recent) ∧
  (3%nat = 0%nat ↔ Some (22 / 3)%float = None) ∧
  (Some (22 / 3)%float = None ↔ Some 3%float = None) ∧
  (Some (22 / 3)%float = None ↔ Some 12%float = None).
Proof.
  exact (statistics_are_consistent Sample.busy_tracker "ARIMA" 30 Sample.world
           (MkStats 3 (Some 3%float) (Some 12%float) (Some (22 / 3)%float) 2) eq_refl).
Defined.

End RecentErrorsFacts.

(** ** The notifier's token and its sends *)

Module NotifierFacts.

Import Telegram StringFacts SchedulerFacts.

(** The first two fields of a token with at least two of them. *)
Lemma fixed_fields (t p0 p1 : string) rest :
  split_colon t = p0 :: p1 :: rest →
  count_colon (p0 ++ ":" ++ List.hd "" (split_colon p1)) = 1%nat ∧
  List.hd "" (split_colon p1) = p1 ∧
  ∃ tail, t = (p0 ++ ":" ++ p1) ++ tail ∧ (rest ≠ [] → ∃ tail', tail = ":" ++ tail').
Proof.
  intros Hs. pose proof (split_colon_fields t) as HF. rewrite Hs in HF.
  apply Forall_cons in HF as [H0 [H1 _]%Forall_cons].
  pose proof H1 as H1'. apply split_colon_free in H1'. rewrite H1'. cbn [List.hd].
  split; [|split; [done|]].
  - unfold count_colon. rewrite split_colon_app by done. by rewrite H1'.
  - pose proof (split_colon_join t) as Hj. rewrite Hs in Hj.
    destruct rest as [|p2 rest].
    + exists "". split; [|done]. cbn [String.concat] in Hj. rewrite <- Hj.
      by rewrite string_app_empty.
    + exists (":" ++ String.concat ":" (p2 :: rest)). split; [|eauto].
      rewrite <- Hj. cbn [String.concat]. by rewrite !string_app_assoc.
Qed.

(** What [_validate_and_fix_token] leaves in the notifier. *)
Lemma validate_and_fix_token_spec self w :
  let self' := (_validate_and_fix_token self w).1 in
  (count_colon (token self') ≤ 1)%nat ∧
  ((count_colon (token self) ≤ 1)%nat → token self' = token self) ∧
  (∃ tail, token self = token self' ++ tail) ∧
  chat_id self' = chat_id self ∧ timezone self' = timezone self.
Proof.
  cbn zeta. unfold _validate_and_fix_token.
  destruct (String.eqb (token self) "") eqn:Hempty.
  { apply String.eqb_eq in Hempty. cbn [fst]. rewrite Hempty.
    split; [cbn; lia|]. split; [done|]. split; [by exists ""|done]. }
  destruct (1 <? count_colon (token self))%nat eqn:Hmany.
  - apply Nat.ltb_lt in Hmany.
    destruct (split_colon (token self)) as [|p0 [|p1 rest]] eqn:Hs;
      [unfold count_colon in Hmany; rewrite Hs in Hmany; cbn in Hmany; lia..|].
    destruct (fixed_fields _ _ _ _ Hs) as (Hone & Hhd & tail & Htail & _).
    rewrite Hhd in Hone |- *.
    cbn [token]. rewrite Hone. cbn [Nat.eqb fst token chat_id timezone].
    split; [lia|]. split; [lia|]. split; [by exists tail|done].
  - apply Nat.ltb_ge in Hmany.
    assert (∀ w1 w2, (if (count_colon (token self) =? 0)%nat then (self, w1) else (self, w2)).1
                     = self) as ->
      by (intros; by destruct (_ =? _)%nat).
    split; [lia|]. split; [done|]. split; [|done]. exists "". by rewrite string_app_empty.
Qed.

(** X9.  After [_validate_and_fix_token] the token has at most one
    colon; a token that had at most one is unchanged; a token with more
    is cut before its second colon, so that exactly one colon is left and
    the result, followed by a colon, starts the token given; nothing is
    rewritten, and the chat id and the time zone are left alone. *)
Theorem fixed_token_is_a_prefix self w :
  let self' := (_validate_and_fix_token self w).1 in
  (count_colon (token self') ≤ 1)%nat ∧
  ((count_colon (token self) ≤ 1)%nat → token self' = token self) ∧
  ((1 < count_colon (token self))%nat →
   count_colon (token self') = 1%nat ∧
   ∃ tail, token self = token self' ++ ":" ++ tail) ∧
  chat_id self' = chat_id self ∧ timezone self' = timezone self.
Proof.
  pose proof (validate_and_fix_token_spec self w) as (Hle & Hsame & _ & Hchat & Htz).
  cbn zeta. split; [done|]. split; [done|]. split; [|done].
  intros Hmany. unfold _validate_and_fix_token.
  destruct (String.eqb (token self) "") eqn:Hempty.
  { apply String.eqb_eq in Hempty. rewrite Hempty in Hmany. cbn in Hmany. lia. }
  rewrite (proj2 (Nat.ltb_lt _ _) Hmany).
  destruct (split_colon (token self)) as [|p0 [|p1 [|p2 rest]]] eqn:Hs;
    [unfold count_colon in Hmany; rewrite Hs in Hmany; cbn in Hmany; lia..|].
  destruct (fixed_fields _ _ _ _ Hs) as (Hone & Hhd & tail & Htail & Hcolon).
  destruct Hcolon as [tail' ->]; [done|].
  rewrite Hhd in Hone |- *. cbn [token]. rewrite Hone. cbn [Nat.eqb fst token].
  split; [done|]. exists tail'. by rewrite Htail.
Qed.

(** X10.  The repair of a token that was written twice does not give the
    token back: for a token [number:secret] pasted twice in a row, what
    [_validate_and_fix_token] keeps is [number:secret] followed by
    [number], which is not the token as soon as [number] is not empty. *)
Theorem duplicated_token_is_not_recovered (number secret : string) chat tz w :
  count_colon number = 0%nat → count_colon secret = 0%nat →
  let t := number ++ ":" ++ secret in
  token (_validate_and_fix_token (Notifier (t ++ t) chat tz) w).1
    = number ++ ":" ++ secret ++ number ∧
  (number ≠ "" → token (_validate_and_fix_token (Notifier (t ++ t) chat tz) w).1 ≠ t).
Proof.
  intros Hn Hs t.
  assert (t ++ t = number ++ ":" ++ (secret ++ number) ++ ":" ++ secret) as Htt.
  { subst t. by rewrite !string_app_assoc. }
  pose proof (count_colon_app _ _ Hs Hn) as Hsn.
  assert (split_colon (t ++ t) = [number; secret ++ number; secret]) as Hsplit.
  { rewrite Htt. rewrite split_colon_app by done. rewrite split_colon_app by done.
    apply split_colon_free in Hs. by rewrite Hs. }
  assert (token (_validate_and_fix_token (Notifier (t ++ t) chat tz) w).1
          = number ++ ":" ++ secret ++ number) as Hfix.
  { unfold _validate_and_fix_token. cbn [token chat_id timezone].
    destruct (String.eqb (t ++ t) "") eqn:Hempty.
    { apply String.eqb_eq in Hempty. rewrite Htt in Hempty.
      apply (f_equal String.length) in Hempty. rewrite !string_app_length in Hempty.
      cbn in Hempty. lia. }
    unfold count_colon at 1. rewrite Hsplit. cbn [List.length Nat.sub Nat.ltb Nat.leb].
    apply split_colon_free in Hsn. rewrite Hsn. cbn [List.hd].
    by destruct (_ =? _)%nat. }
  split; [exact Hfix|].
  intros Hne Heq. rewrite Hfix in Heq. subst t.
  apply (f_equal String.length) in Heq. rewrite !string_app_length in Heq.
  destruct number; [done|]. cbn in Heq. lia.
Qed.

Lemma duplicated_token_is_not_recovered_witness :
  token (_validate_and_fix_token
           (Notifier "123456:ABCDEF123456:ABCDEF" "42" "Asia/Kolkata") Sample.world).1
    = "123456:ABCDEF123456" ∧
  ("123456" ≠ "" →
   token (_validate_and_fix_token
            (Notifier "123456:ABCDEF123456:ABCDEF" "42" "Asia/Kolkata") Sample.world).1
     ≠ "123456:ABCDEF").
Proof.
  exact (duplicated_token_is_not_recovered "123456" "ABCDEF" "42" "Asia/Kolkata" Sample.world
           eq_refl eq_refl).
Defined.

(** X11.  A notifier is built exactly when both credentials resolve to a
    non-empty string, the argument first and the environment variable when
    the argument is missing or empty; otherwise the constructor raises
    [ValueError].  Either way nothing is posted; and the notifier built has
    the chat id and time zone given and a token with at most one colon that
    is a prefix of the one given. *)
Theorem notifier_needs_both_credentials token chat_id tz w :
  let t := default "" (or_environ token "TELEGRAM_BOT_TOKEN" w) in
  let c := default "" (or_environ chat_id "TELEGRAM_CHAT_ID" w) in
  posted (__init__ token chat_id tz w).2 = posted w ∧
  if String.eqb t "" || String.eqb c ""
  then (__init__ token chat_id tz w).1 = Raise (ValueError "Missing Telegram token or chat_id")
  else ∃ self,
         (__init__ token chat_id tz w).1 = Ok self ∧
         Telegram.chat_id self = c ∧ timezone self = tz ∧
         (count_colon (Telegram.token self) ≤ 1)%nat ∧
         ∃ tail, t = Telegram.token self ++ tail.
Proof.
  cbn zeta. split; [apply telegram_init_channel|].
  unfold __init__.
  destruct (or_environ token "TELEGRAM_BOT_TOKEN" w) as [t|]; [|reflexivity].
  destruct (or_environ chat_id "TELEGRAM_CHAT_ID" w) as [c|].
  2:{ change (String.eqb (default "" None) "") with true. by rewrite orb_true_r. }
  change (default "" (Some t)) with t. change (default "" (Some c)) with c.
  destruct (String.eqb t "" || String.eqb c ""); [done|].
  pose proof (validate_and_fix_token_spec (Notifier t c tz) w) as (H1 & _ & H3 & H4 & H5).
  destruct (_validate_and_fix_token (Notifier t c tz) w) as [self w1].
  exists self. cbn in *. done.
Qed.

Lemma send_message_result self message w :
  (_send_message self message w).1 = negb (rejected (http w (api_url self) message)).
Proof.
  unfold _send_message. destruct (http w _ _) as [status|ex]; cbn [rejected].
  - by destruct ((400 <=? status)%nat && (status <? 600)%nat).
  - by destruct ex.
Qed.

Lemma test_connection_posts self w :
  posted (test_connection self w).2
  = (posted w ++ [(api_url self,
       [Lit "🔄 *Connection Test*"; Lit nl; Lit nl;
        Lit "This is a test message from the Electric Load Forecasting system."])])%list.
Proof.
  unfold test_connection.
  pose proof (send_message_posts self
    [Lit "🔄 *Connection Test*"; Lit nl; Lit nl;
     Lit "This is a test message from the Electric Load Forecasting system."] w) as Hp.
  by destruct (_send_message self _ w) as [r w2].
Qed.

(** X12.  [send_alert] resolves the notifier's time zone first: for a
    zone the database does not know it raises the [KeyError] of the lookup
    and posts nothing.  For a known zone it answers with the channel's
    verdict and nothing else, as [test_connection] always does: each posts
    exactly one request to the bot's URL, whatever the outcome, and returns
    [True] exactly when the channel neither fails nor answers with a 4xx or
    5xx status; the last line [test_connection] logs is an error exactly
    when it returns [False]. *)
Theorem send_result_is_channel_verdict known self message error_level model_name
    error_value w :
  let text := formatted_message self message error_level model_name error_value w in
  let test := [Lit "🔄 *Connection Test*"; Lit nl; Lit nl;
               Lit "This is a test message from the Electric Load Forecasting system."] in
  let run := Zoned.send_alert known self message error_level model_name error_value w in
  (if known (timezone self)
   then run.1 = Ok (negb (rejected (http w (api_url self) text))) ∧
        posted run.2 = (posted w ++ [(api_url self, text)])%list
   else run = (Raise (KeyError (timezone self)), w)) ∧
  (test_connection self w).1 = negb (rejected (http w (api_url self) test)) ∧
  posted (test_connection self w).2 = (posted w ++ [(api_url self, test)])%list ∧
  fst <$> last (log (test_connection self w).2)
    = Some (if (test_connection self w).1 then INFO else ERROR).
Proof.
  cbn zeta. split; [|split; [|split; [apply test_connection_posts|]]].
  - unfold Zoned.send_alert. destruct (known (timezone self)); [|done].
    pose proof (send_message_result self
                  (formatted_message self message error_level model_name error_value w) w)
      as Hr.
    pose proof (send_message_posts self
                  (formatted_message self message error_level model_name error_value w) w)
      as Hp.
    unfold send_alert. destruct (_send_message self _ w) as [sent w'].
    cbn [fst snd] in *. by rewrite Hr.
  - unfold test_connection.
    pose proof (send_message_result self
      [Lit "🔄 *Connection Test*"; Lit nl; Lit nl;
       Lit "This is a test message from the Electric Load Forecasting system."] w) as Hr.
    by destruct (_send_message self _ w) as [r w2].
  - unfold test_connection. destruct (_send_message self _ w) as [r w2].
    cbn. by rewrite last_snoc.
Qed.

(** A notifier with a time zone that does not exist: the alert raises,
    nothing is posted; the connection test, which formats no time, goes
    through. *)
Example unknown_time_zone :
  let self := Notifier "123456:ABCDEF" "42" "Mars/Olympus" in
  let known := String.eqb "Asia/Kolkata" in
  Zoned.send_alert known self [Lit "Manual review recommended."] "error" (Some "ARIMA")
    (Some 8.75%float) Sample.world = (Raise (KeyError "Mars/Olympus"), Sample.world) ∧
  (test_connection self Sample.world).1 = true.
Proof. split; reflexivity. Qed.

End NotifierFacts.

(** ** The scheduler, further *)

Module AlertFacts.

Import ErrorHistory Scheduler Session FloatFacts ErrorHistoryFacts SchedulerFacts.

(** Rounding a non-negative magnitude gives nothing below zero. *)
Lemma round_nonneg m e l :
  SFltb (binary_round_aux prec emax false m e l) (S754_zero false) = false.
Proof.
  unfold binary_round_aux.
  destruct (shr_fexp prec emax m e l) as [mrs' e'].
  destruct (shr_fexp prec emax _ e' loc_Exact) as [mrs'' e''].
  destruct (shr_m mrs''); try reflexivity.
  destruct (e'' <=? emax - prec)%Z; reflexivity.
Qed.

Lemma abs_times_100_nonneg q : PrimFloat.ltb (PrimFloat.abs q * 100) 0 = false.
Proof.
  rewrite FloatAxioms.ltb_spec, mul_spec, abs_spec.
  change (Prim2SF 0) with (S754_zero false).
  replace (Prim2SF 100) with (S754_finite false 7036874417766400 (-46)) by (by vm_compute).
  destruct (Prim2SF q) as [s|s| |s m e]; try reflexivity.
  unfold SF64mul, SFmul, SFabs. cbn [xorb]. apply round_nonneg.
Qed.

(** X13.  The error [evaluate_forecast_and_notify] returns is never below
    zero, for any two floats, infinities and NaN included: [error < 0] is
    false. *)
Theorem error_pct_is_never_negative actual predicted model_name forecast_date w :
  ∃ error_pct,
    (evaluate_forecast_and_notify actual predicted model_name forecast_date w).1
      = Ok error_pct ∧
    PrimFloat.ltb error_pct 0 = false.
Proof.
  rewrite evaluate_returns. unfold error_pct_of, truediv.
  destruct (is_zero actual).
  - eexists. split; [done|]. by destruct (is_zero predicted).
  - eexists. split; [done|]. apply abs_times_100_nonneg.
Qed.

(** What [notify] leaves when the notifier cannot be built. *)
Lemma notify_without_credentials error_pct model_name stats w :
  default "" (environ w !! "TELEGRAM_BOT_TOKEN") = "" ∨
  default "" (environ w !! "TELEGRAM_CHAT_ID") = "" →
  ∃ failure,
    notify error_pct model_name stats w
    = (Ok tt, print [Lit "Failed to send notification: "] (logging ERROR failure w)).
Proof.
  intros H. unfold notify, try_except, bind, Telegram.__init__, Telegram.or_environ.
  destruct (environ w !! "TELEGRAM_BOT_TOKEN") as [t|] eqn:Et;
  destruct (environ w !! "TELEGRAM_CHAT_ID") as [c|] eqn:Ec; cbn in H;
    try (eexists; reflexivity).
  assert (orb (String.eqb t "") (String.eqb c "") = true) as Hor.
  { destruct H as [->| ->]; [done|]. by rewrite orb_true_r. }
  rewrite Hor. eexists; reflexivity.
Qed.

(** X14.  Without a bot token or a chat id in the environment (unset or
    empty), [evaluate_forecast_and_notify] posts nothing, whatever the
    error: it still returns the error, and for an error above 5.0 the last
    line it prints is the failure of the notification. *)
Theorem missing_credentials_post_nothing actual predicted model_name forecast_date w
    error_pct :
  default "" (environ w !! "TELEGRAM_BOT_TOKEN") = "" ∨
  default "" (environ w !! "TELEGRAM_CHAT_ID") = "" →
  error_pct_of actual predicted = Ok error_pct →
  let run := evaluate_forecast_and_notify actual predicted model_name forecast_date w in
  run.1 = Ok error_pct ∧
  posted run.2 = posted w ∧
  (gt error_pct 5.0%float = true →
   last (stdout run.2) = Some [Lit "Failed to send notification: "]).
Proof.
  intros Henv He run. subst run.
  destruct (evaluate_unfold actual predicted model_name forecast_date w error_pct He)
    as (stats & w1 & w2 & Hsave & Hnotify & ->). cbn [fst snd]. split; [done|].
  cbn zeta in Hsave.
  match type of Hsave with save_to_history _ _ _ _ ?d ?w0 = _ =>
    pose proof (save_to_history_channel actual predicted error_pct model_name d w0)
      as (_ & Hposted & _ & Henviron) end.
  rewrite Hsave in Hposted, Henviron. cbn [snd] in Hposted, Henviron.
  change (posted (print _ w)) with (posted w) in Hposted.
  change (environ (print _ w)) with (environ w) in Henviron.
  rewrite <- Henviron in Henv.
  destruct (notify_without_credentials error_pct model_name stats w1 Henv) as [failure Hn].
  destruct (gt error_pct 5.0%float).
  - rewrite Hn in Hnotify. injection Hnotify as <-. split; [done|].
    intros _. cbn. apply last_snoc.
  - injection Hnotify as <-. done.
Qed.

Lemma missing_credentials_post_nothing_witness :
  let run := evaluate_forecast_and_notify 100 108 "ARIMA" None Cases.anonymous_world in
  run.1 = Ok 8%float ∧
  posted run.2 = posted Cases.anonymous_world ∧
  (gt 8 5.0%float = true →
   last (stdout run.2) = Some [Lit "Failed to send notification: "]).
Proof.
  apply (missing_credentials_post_nothing 100 108 "ARIMA" None Cases.anonymous_world 8);
    [left; reflexivity | reflexivity].
Defined.

(** X15.  An alert is lost whenever the 7-day average is zero: for an
    error above 5.0 and statistics whose average is 0.0 or -0.0, the
    comparison with the average divides by it, the [ZeroDivisionError] is
    caught by [notify]'s own handler, and [notify] posts nothing and prints
    the failure. *)
Theorem zero_average_loses_the_alert error_pct model_name stats a w :
  avg stats = Some a → is_zero a = true → gt error_pct 5.0%float = true →
  with_trend error_pct stats (severity error_pct).2 = Raise ZeroDivisionError ∧
  posted (notify error_pct model_name stats w).2 = posted w ∧
  last (stdout (notify error_pct model_name stats w).2)
    = Some [Lit "Failed to send notification: "].
Proof.
  intros Havg Hzero Hgt.
  assert (∀ message, with_trend error_pct stats message = Raise ZeroDivisionError) as Htrend.
  { intros message. unfold with_trend, truediv. rewrite Havg.
    by rewrite (zero_times_above_5 a error_pct Hzero Hgt), Hzero. }
  split; [apply Htrend|].
  unfold notify, try_except, bind.
  pose proof (telegram_init_channel None None "Asia/Kolkata" w) as (_ & Hposted & _).
  destruct (Telegram.__init__ None None "Asia/Kolkata" w) as [[notifier|e] w1];
    cbn [snd] in Hposted.
  - destruct (severity error_pct) as [tier message]. unfold pure. rewrite Htrend.
    cbn. split; [done|]. apply last_snoc.
  - cbn. split; [done|]. apply last_snoc.
Qed.

Lemma zero_average_loses_the_alert_witness :
  with_trend 8 (MkStats 1 (Some 0%float) (Some 0%float) (Some 0%float) 0) (severity 8).2
    = Raise ZeroDivisionError ∧
  posted (notify 8 "ARIMA" (MkStats 1 (Some 0%float) (Some 0%float) (Some 0%float) 0)
            Sample.world).2 = posted Sample.world ∧
  last (stdout (notify 8 "ARIMA" (MkStats 1 (Some 0%float) (Some 0%float) (Some 0%float) 0)
                  Sample.world).2)
    = Some [Lit "Failed to send notification: "].
Proof.
  exact (zero_average_loses_the_alert 8 "ARIMA"
           (MkStats 1 (Some 0%float) (Some 0%float) (Some 0%float) 0) 0 Sample.world
           eq_refl eq_refl eq_refl).
Defined.

(** [notify] posts at most one request. *)
Lemma notify_posts_once error_pct model_name stats w :
  ∃ extra, posted (notify error_pct model_name stats w).2 = (posted w ++ extra)%list ∧
           (List.length extra ≤ 1)%nat.
Proof.
  unfold notify, try_except, bind.
  pose proof (telegram_init_channel None None "Asia/Kolkata" w) as (_ & Hposted & _).
  destruct (Telegram.__init__ None None "Asia/Kolkata" w) as [[notifier|e] w1]; cbn [snd] in *.
  2:{ exists []. rewrite app_nil_r. split; [done|cbn; lia]. }
  destruct (severity error_pct) as [tier message].
  unfold pure. destruct (with_trend error_pct stats message) as [message'|e].
  2:{ exists []. rewrite app_nil_r. split; [done|cbn; lia]. }
  unfold total, Telegram.send_alert, Telegram._send_message.
  set (text := Telegram.formatted_message notifier message' tier (Some model_name)
                 (Some error_pct) w1).
  exists [(Telegram.api_url notifier, text)]. split; [|cbn; lia].
  destruct (http w1 (Telegram.api_url notifier) text) as [status|ex].
  - destruct ((400 <=? status)%nat && (status <? 600)%nat); cbn; by rewrite Hposted.
  - destruct ex; cbn; by rewrite Hposted.
Qed.

(** X16.  One evaluation posts at most one request, and none unless the
    error is above 5.0: an error that is NaN, which is neither above nor at
    most 5.0, raises no alert. *)
Theorem evaluate_posts_at_most_once actual predicted model_name forecast_date w error_pct :
  error_pct_of actual predicted = Ok error_pct →
  ∃ extra,
    posted (evaluate_forecast_and_notify actual predicted model_name forecast_date w).2
      = (posted w ++ extra)%list ∧
    (List.length extra ≤ 1)%nat ∧
    (gt error_pct 5.0%float = false → extra = []).
Proof.
  intros He.
  destruct (evaluate_unfold actual predicted model_name forecast_date w error_pct He)
    as (stats & w1 & w2 & Hsave & Hnotify & ->). cbn [fst snd].
  cbn zeta in Hsave.
  match type of Hsave with save_to_history _ _ _ _ ?d ?w0 = _ =>
    pose proof (save_to_history_channel actual predicted error_pct model_name d w0)
      as (_ & Hposted & _) end.
  rewrite Hsave in Hposted. cbn [snd] in Hposted.
  change (posted (print _ w)) with (posted w) in Hposted.
  destruct (gt error_pct 5.0%float).
  - destruct (notify_posts_once error_pct model_name stats w1) as (extra & Hp & Hlen).
    rewrite Hnotify in Hp. cbn [snd] in Hp. exists extra. rewrite Hp, Hposted. done.
  - injection Hnotify as <-. exists []. rewrite app_nil_r.
    split; [done|]. split; [cbn; lia|done].
Qed.

Lemma evaluate_posts_at_most_once_witness :
  ∃ extra,
    posted (evaluate_forecast_and_notify nan 100 "ARIMA" None Sample.world).2
      = (posted Sample.world ++ extra)%list ∧
    (List.length extra ≤ 1)%nat ∧
    (gt nan 5.0%float = false → extra = []).
Proof.
  exact (evaluate_posts_at_most_once nan 100 "ARIMA" None Sample.world nan eq_refl).
Defined.

Lemma telegram_init_files token chat_id tz w :
  files (Telegram.__init__ token chat_id tz w).2 = files w.
Proof.
  unfold Telegram.__init__, Telegram._validate_and_fix_token.
  repeat case_match; simplify_eq; done.
Qed.

(** [notify] writes no file. *)
Lemma notify_files error_pct model_name stats w :
  files (notify error_pct model_name stats w).2 = files w.
Proof.
  unfold notify, try_except, bind.
  pose proof (telegram_init_files None None "Asia/Kolkata" w) as Hfiles.
  destruct (Telegram.__init__ None None "Asia/Kolkata" w) as [[notifier|e] w1];
    cbn [snd] in Hfiles; [|done].
  destruct (severity error_pct) as [tier message].
  unfold pure. destruct (with_trend error_pct stats message) as [message'|e]; [|done].
  unfold total, Telegram.send_alert, Telegram._send_message.
  destruct (http w1 _ _) as [status|ex].
  - by destruct ((400 <=? status)%nat && (status <? 600)%nat).
  - by destruct ex.
Qed.

(** X17.  A history that cannot be opened does not hold the alert back:
    when the process has no tracker yet and the data directory cannot be
    made, [evaluate_forecast_and_notify] prints the failure, returns the
    error, and runs [notify] for an error above 5.0 with the empty
    statistics; no file is written. *)
Theorem history_failure_does_not_block_alert actual predicted model_name forecast_date w
    error_pct :
  error_pct_of actual predicted = Ok error_pct →
  _tracker w = None → mkdir_ok w data_dir = false →
  let w1 := print [Lit "Failed to save error history: "]
              (print [Lit model_name; Lit " forecast error: "; Fmt ".2f" error_pct; Lit "%"]
                 w) in
  evaluate_forecast_and_notify actual predicted model_name forecast_date w
    = (Ok error_pct,
       if gt error_pct 5.0%float then (notify error_pct model_name no_stats w1).2 else w1) ∧
  files (evaluate_forecast_and_notify actual predicted model_name forecast_date w).2
    = files w.
Proof.
  intros He Hg Hmk w1.
  assert (evaluate_forecast_and_notify actual predicted model_name forecast_date w
    = (Ok error_pct,
       if gt error_pct 5.0%float then (notify error_pct model_name no_stats w1).2 else w1))
    as Heval.
  { unfold evaluate_forecast_and_notify, bind at 1, pure. rewrite He.
    unfold bind at 1, effect. unfold bind at 1. unfold bind at 1.
    unfold save_to_history, try_except, bind at 1, get_tracker, ErrorHistory.__init__.
    cbn [_tracker print set_stdout mkdir_ok]. rewrite Hg, Hmk.
    unfold bind at 2, effect, ret. fold w1. unfold bind at 1.
    destruct (gt error_pct 5.0%float); [|done].
    subst w1.
    match goal with
    | |- context [notify ?e ?m ?s ?w0] => destruct (notify_absorbs e m s w0) as [w2 ->]
    end. done. }
  split; [exact Heval|]. rewrite Heval. cbn [snd].
  destruct (gt error_pct 5.0%float); [|done]. by rewrite notify_files.
Qed.

Lemma history_failure_does_not_block_alert_witness :
  let w1 := print [Lit "Failed to save error history: "]
              (print [Lit "ARIMA"; Lit " forecast error: "; Fmt ".2f" 8; Lit "%"]
                 Cases.no_data_dir_world) in
  evaluate_forecast_and_notify 100 108 "ARIMA" None Cases.no_data_dir_world
    = (Ok 8%float,
       if gt 8 5.0%float then (notify 8 "ARIMA" no_stats w1).2 else w1) ∧
  files (evaluate_forecast_and_notify 100 108 "ARIMA" None Cases.no_data_dir_world).2
    = files Cases.no_data_dir_world.
Proof.
  exact (history_failure_does_not_block_alert 100 108 "ARIMA" None Cases.no_data_dir_world 8
           eq_refl eq_refl eq_refl).
Defined.

(** With the directory missing, the alert for an 8 % error still goes
    out: one request is posted. *)
Example alert_without_history :
  List.length
    (posted (evaluate_forecast_and_notify 100 108 "ARIMA" None Cases.no_data_dir_world).2)
  = 1%nat.
Proof. vm_compute. reflexivity. Qed.

End AlertFacts.

(** ** The legacy notification module and the test scripts *)

Module ScriptFacts.

Import ErrorHistory Scheduler Session FloatFacts SchedulerFacts NotifierFacts.

(** X18.  [send_forecast_alert] of [notification.py] never raises.
    Without a token or a chat id it returns [False] and does not call the
    library; with both it calls the library once, with the text it has
    formatted, and returns [True] exactly when that call returns. *)
Theorem legacy_alert_outcome model_name error_value message w :
  let run := Notification.send_forecast_alert model_name error_value message w in
  let url := "https://api.telegram.org/bot" ++ Notification.TELEGRAM_BOT_TOKEN w
             ++ "/sendMessage" in
  let text := Notification.text model_name error_value message w in
  if String.eqb (Notification.TELEGRAM_BOT_TOKEN w) ""
     || String.eqb (Notification.TELEGRAM_CHAT_ID w) ""
  then run.1 = Ok false ∧ posted run.2 = posted w
  else run.1 = Ok (negb (Telegram.rejected (http w url text))) ∧
       posted run.2 = (posted w ++ [(url, text)])%list.
Proof.
  cbn zeta. unfold Notification.send_forecast_alert.
  destruct (String.eqb (Notification.TELEGRAM_BOT_TOKEN w) "") eqn:Et; [done|].
  destruct (String.eqb (Notification.TELEGRAM_CHAT_ID w) "") eqn:Ec; [done|].
  cbn [orb]. unfold try_except, bind, Notification.send_message, effect, ret.
  destruct (http w _ _) as [status|e]; cbn [Telegram.rejected].
  - by destruct ((400 <=? status)%nat && (status <? 600)%nat).
  - done.
Qed.

(** X19.  The two alerting paths draw their lines at the same values:
    [notification.py] calls an error Critical exactly when it is above
    10.0 and Warning exactly when it is above 5.0 and not above 10.0; for
    an error above 5.0, the scheduler's tier is [critical] exactly when the
    legacy severity is Critical, and [error] exactly when it is Warning. *)
Theorem legacy_tiers_match_scheduler error_value :
  ((Notification.tier error_value).2 = "Critical" ↔ gt error_value 10.0%float = true) ∧
  ((Notification.tier error_value).2 = "Warning" ↔
     gt error_value 5.0%float = true ∧ gt error_value 10.0%float = false) ∧
  (gt error_value 5.0%float = true →
     ((severity error_value).1 = "critical" ↔ (Notification.tier error_value).2 = "Critical") ∧
     ((severity error_value).1 = "error" ↔ (Notification.tier error_value).2 = "Warning")).
Proof.
  unfold Notification.tier, severity.
  destruct (gt error_value 10.0%float) eqn:E10.
  - pose proof (gt_10_gt_5 _ E10) as E5. rewrite E5. cbn. repeat split; try done.
    all: try by intros [? ?].
  - destruct (gt error_value 5.0%float) eqn:E5; cbn; repeat split; try done.
    all: try by intros [? ?].
Qed.

(** The wrapper of [test_alert.py], once the notifier is built: the alert
    is posted, and the [await] of the [bool] it got back raises. *)
Lemma fallback_wrapper_spec model_name error_value message w :
  match Telegram.__init__ None None "Asia/Kolkata" w with
  | (Ok notifier, w1) =>
      ∃ text failure,
        TestAlert.send_forecast_alert model_name error_value message w
        = (Ok false,
           logging ERROR failure
             (Telegram.send_alert notifier text
                (if gt error_value 10.0%float then "critical" else "error")
                (Some model_name) (Some error_value) w1).2) ∧
        posted (Telegram.send_alert notifier text
                  (if gt error_value 10.0%float then "critical" else "error")
                  (Some model_name) (Some error_value) w1).2
        = (posted w ++ [(Telegram.api_url notifier,
                         Telegram.formatted_message notifier text
                           (if gt error_value 10.0%float then "critical" else "error")
                           (Some model_name) (Some error_value) w1)])%list
  | (Raise e, w1) =>
      TestAlert.send_forecast_alert model_name error_value message w = (Raise e, w1)
  end.
Proof.
  pose proof (telegram_init_channel None None "Asia/Kolkata" w) as (_ & Hposted & _).
  destruct (Telegram.__init__ None None "Asia/Kolkata" w) as [[notifier|e] w1] eqn:Hinit.
  2:{ unfold TestAlert.send_forecast_alert. unfold bind at 1. by rewrite Hinit. }
  cbn [snd] in Hposted.
  unfold TestAlert.send_forecast_alert. unfold bind at 1. rewrite Hinit.
  unfold try_except, bind, total, pure, TestAlert.await_bool, effect, ret.
  set (text := [Lit match message with
                    | Some m => if String.eqb m "" then _ else m
                    | None => _
                    end]).
  set (tier := if gt error_value 10.0%float then "critical" else "error").
  exists text, [Lit "Error sending alert: "].
  assert (posted (Telegram.send_alert notifier text tier (Some model_name)
                    (Some error_value) w1).2
          = (posted w ++ [(Telegram.api_url notifier,
                           Telegram.formatted_message notifier text tier (Some model_name)
                             (Some error_value) w1)])%list) as Hp.
  { unfold Telegram.send_alert. by rewrite send_message_posts, Hposted. }
  destruct (Telegram.send_alert notifier text tier (Some model_name) (Some error_value) w1)
    as [sent w2].
  split; [reflexivity|exact Hp].
Qed.

(** X20.  With the wrapper [test_alert.py] defines when [notification]
    cannot be imported, the test reports failure in every world: the
    wrapper awaits the [bool] that [send_alert] returns, the [TypeError] is
    caught, and the wrapper never returns [True].  When the notifier can be
    built the alert has been posted all the same. *)
Theorem fallback_wrapper_reports_failure w :
  (TestAlert.test_notification TestAlert.send_forecast_alert w).1 = Ok false ∧
  (∀ model_name error_value message,
     let run := TestAlert.send_forecast_alert model_name error_value message w in
     run.1 ≠ Ok true ∧
     ∀ notifier w1,
       Telegram.__init__ None None "Asia/Kolkata" w = (Ok notifier, w1) →
       run.1 = Ok false ∧
       ∃ text, posted run.2 = (posted w ++ [(Telegram.api_url notifier, text)])%list).
Proof.
  split.
  - unfold TestAlert.test_notification. unfold bind at 1, effect, try_except.
    unfold bind at 1.
    set (w0 := logging INFO _ w).
    pose proof (fallback_wrapper_spec "ARIMA" 8.75
                  (Some "This is a test alert from the Electric Load Forecasting system.")
                  w0) as H.
    destruct (Telegram.__init__ None None "Asia/Kolkata" w0) as [[notifier|e] w1].
    + destruct H as (text & failure & -> & _). reflexivity.
    + rewrite H. reflexivity.
  - intros model_name error_value message run. subst run.
    pose proof (fallback_wrapper_spec model_name error_value message w) as H.
    destruct (Telegram.__init__ None None "Asia/Kolkata" w) as [[notifier|e] w1].
    + destruct H as (text & failure & Hrun & Hposted). rewrite Hrun. split; [done|].
      intros ? ? [= <- <-]. split; [done|]. cbn [snd].
      change (posted (logging ERROR failure ?x)) with (posted x). eauto.
    + rewrite H. split; [done|]. intros ? ? [=].
Qed.

(** With a channel that takes the alert, the wrapper still answers
    [False]; the legacy function answers [True]. *)
Example delivered_but_reported_failed :
  (TestAlert.test_notification TestAlert.send_forecast_alert Sample.world).1 = Ok false ∧
  List.length
    (posted (TestAlert.test_notification TestAlert.send_forecast_alert Sample.world).2)
    = 1%nat ∧
  (TestAlert.test_notification Notification.send_forecast_alert Sample.world).1 = Ok true.
Proof. repeat split; vm_compute; reflexivity. Qed.

Lemma unset_spec name w :
  TestTelegram.unset name w = false →
  ∃ v, environ w !! name = Some v ∧ String.eqb v "" = false.
Proof.
  unfold TestTelegram.unset. destruct (environ w !! name) as [v|]; cbn; [eauto|done].
Qed.

(** With both variables set, the notifier is built. *)
Lemma telegram_init_ok w :
  TestTelegram.unset "TELEGRAM_BOT_TOKEN" w = false →
  TestTelegram.unset "TELEGRAM_CHAT_ID" w = false →
  ∃ notifier w1, Telegram.__init__ None None "Asia/Kolkata" w = (Ok notifier, w1).
Proof.
  intros (t & Ht & Hte)%unset_spec (c & Hc & Hce)%unset_spec.
  unfold Telegram.__init__, Telegram.or_environ. rewrite Ht, Hc, Hte, Hce. cbn [orb].
  destruct (Telegram._validate_and_fix_token _ w). eauto.
Qed.

(** The run of [test_telegram.py] once the notifier is built. *)
Lemma test_notification_unfold error_value model_name w notifier w1 :
  TestTelegram.unset "TELEGRAM_BOT_TOKEN" w = false →
  TestTelegram.unset "TELEGRAM_CHAT_ID" w = false →
  Telegram.__init__ None None "Asia/Kolkata" w = (Ok notifier, w1) →
  TestTelegram.test_notification error_value model_name w =
    let w2 := (Telegram.test_connection notifier w1).2 in
    if (Telegram.test_connection notifier w1).1 then
      match error_value with
      | None => (Ok true, print [Lit "✅ Connection to Telegram API successful!"] w2)
      | Some e =>
          let sent :=
            Telegram.send_alert notifier
              [Lit (if gt e 5.0%float then "Manual review recommended."
                    else "Forecasting within acceptable range.")]
              (if gt e 5.0%float then "error" else "info")
              (Some (match model_name with
                     | Some m => if String.eqb m "" then "ARIMA" else m
                     | None => "ARIMA"
                     end))
              (Some e)
              (print [Lit "Sending sample alert with "; Fmt "" e; Lit "% error..."]
                 (print [Lit "✅ Connection to Telegram API successful!"] w2)) in
          (Ok false,
           print [Lit "❌ Error: "]
             (print [Lit (if sent.1 then "✅ Alert sent successfully! Check your Telegram."
                          else "❌ Failed to send alert. Message queued for retry.")]
                sent.2))
      end
    else (Ok false, print [Lit "❌ Failed to connect to Telegram API."] w2).
Proof.
  intros Et Ec Hinit. unfold TestTelegram.test_notification. rewrite Et, Ec. cbn [orb].
  unfold try_except. unfold bind at 1. rewrite Hinit. unfold bind at 1, total.
  destruct (Telegram.test_connection notifier w1) as [[] w2]; cbn [fst snd]; [|reflexivity].
  destruct error_value as [e|]; [|reflexivity].
  unfold bind, effect, total, pure, ret. cbn zeta.
  destruct (Telegram.send_alert _ _ _ _ _ _) as [success w3]. reflexivity.
Qed.

Lemma posted_print msg w : posted (print msg w) = posted w.
Proof. reflexivity. Qed.

(** X21.  [test_notification] of [test_telegram.py] returns [False]
    whenever it is given an error value: after the sample alert it calls
    [notifier.process_queue()], which the notifier does not have, and the
    [AttributeError] ends the run in the outer handler.  Without an error
    value, and with both credentials set, it returns what
    [test_connection] returns.  When the connection test passes, the run
    with an error value has posted both the test message and the alert
    before it reports failure. *)
Theorem sample_alert_run_reports_failure error_value model_name w :
  (TestTelegram.test_notification (Some error_value) model_name w).1 = Ok false ∧
  ∀ notifier w1,
    TestTelegram.unset "TELEGRAM_BOT_TOKEN" w = false →
    TestTelegram.unset "TELEGRAM_CHAT_ID" w = false →
    Telegram.__init__ None None "Asia/Kolkata" w = (Ok notifier, w1) →
    (TestTelegram.test_notification None model_name w).1
      = Ok (Telegram.test_connection notifier w1).1 ∧
    ((Telegram.test_connection notifier w1).1 = true →
     ∃ test alert,
       posted (TestTelegram.test_notification (Some error_value) model_name w).2
       = (posted w ++ [(Telegram.api_url notifier, test);
                       (Telegram.api_url notifier, alert)])%list).
Proof.
  split.
  - destruct (TestTelegram.unset "TELEGRAM_BOT_TOKEN" w) eqn:Et;
      [unfold TestTelegram.test_notification; by rewrite Et|].
    destruct (TestTelegram.unset "TELEGRAM_CHAT_ID" w) eqn:Ec;
      [unfold TestTelegram.test_notification; by rewrite Et, Ec|].
    destruct (telegram_init_ok w Et Ec) as (notifier & w1 & Hinit).
    rewrite (test_notification_unfold _ _ _ _ _ Et Ec Hinit). cbn zeta.
    by destruct (Telegram.test_connection notifier w1).1.
  - intros notifier w1 Et Ec Hinit.
    rewrite !(test_notification_unfold _ _ _ _ _ Et Ec Hinit). cbn zeta.
    pose proof (telegram_init_channel None None "Asia/Kolkata" w) as (_ & Hposted & _).
    rewrite Hinit in Hposted. cbn [snd] in Hposted.
    split; [by destruct (Telegram.test_connection notifier w1).1|].
    intros ->. cbn [snd]. do 2 eexists.
    rewrite !posted_print. unfold Telegram.send_alert.
    rewrite send_message_posts, !posted_print, test_connection_posts, Hposted, <- app_assoc.
    reflexivity.
Qed.

(** In the sample world the connection test passes: the run without an
    error value succeeds, the run with one does not. *)
Example sample_alert_run :
  (TestTelegram.test_notification None None Sample.world).1 = Ok true ∧
  (TestTelegram.test_notification (Some 8.75%float) None Sample.world).1 = Ok false ∧
  List.length (posted (TestTelegram.test_notification (Some 8.75%float) None
                         Sample.world).2) = 2%nat.
Proof. repeat split; vm_compute; reflexivity. Qed.

(** X22.  [test_forecast_alert] reports on the credentials only: it
    returns [True] exactly when both variables are set and non-empty,
    whatever the values tested and whether or not the alert the evaluation
    raised was delivered. *)
Theorem forecast_test_ignores_delivery actual predicted error_pct model w :
  (TestForecastAlert.test_forecast_alert actual predicted error_pct model w).1
  = Ok (negb (TestTelegram.unset "TELEGRAM_BOT_TOKEN" w
              || TestTelegram.unset "TELEGRAM_CHAT_ID" w)).
Proof.
  unfold TestForecastAlert.test_forecast_alert.
  destruct (_ || _); [done|]. cbn [negb].
  unfold bind at 1, effect, try_except, bind at 1.
  match goal with
  | |- context [evaluate_forecast_and_notify ?a ?p ?m ?d ?w0] =>
      destruct (error_pct_of_total a p) as [e He];
      destruct (evaluate_unfold a p m d w0 e He) as (stats & w1 & w2 & _ & _ & ->)
  end.
  reflexivity.
Qed.

(** The default run: an error of 8 %, reported as a success also when
    the channel is down. *)
Example forecast_test_with_channel_down :
  (TestForecastAlert.test_forecast_alert 100 None None "ARIMA" Sample.offline_world).1
    = Ok true ∧
  error_pct_of 100 (100 * 0x1.147ae147ae148p+0) = Ok 8%float.
Proof. split; vm_compute; reflexivity. Qed.

End ScriptFacts.

(** ** The dashboard *)

Module DashboardFacts.

Import ErrorHistory Dashboard StringFacts RecentErrorsFacts.

#[export] Instance date_le_total : Total date_le.
Proof. intros a b. apply String.leb_total. Qed.

#[export] Instance date_le_trans : Transitive date_le.
Proof. intros a b c. apply string_leb_trans. Qed.

(** One date of one model: a cell is added for the date, and the totals
    grow by the error read, if any. *)
Lemma visit_spec model_dates date md me t md' me' t' :
  visit model_dates date (md, me, t) = Ok (md', me', t') →
  name md' = name md ∧
  (∃ cell, errors md' = (errors md ++ [cell])%list ∧ cell_date cell = date ∧
           cell_value cell = error_of model_dates date) ∧
  (∃ new, me' = (me ++ new)%list ∧ total_errors t' = (total_errors t ++ new)%list ∧
          total_forecasts t' = (total_forecasts t + List.length new)%nat ∧
          (threshold_violations t ≤ threshold_violations t')%nat ∧
          (threshold_violations t' ≤ threshold_violations t + List.length new)%nat).
Proof.
  unfold visit, error_of.
  destruct (model_dates !! date) as [entry|]; cbn.
  - destruct (entry !! "error") as [[e|s]|]; try done. intros [= <- <- <-]. cbn.
    split; [done|]. split.
    + eexists. split; [done|]. cbn. eauto.
    + exists [e]. cbn. repeat split; try done; try destruct (PrimFloat.ltb 5 e); lia.
  - intros [= <- <- <-]. cbn. split; [done|]. split.
    + eexists. split; [done|]. cbn. split; done.
    + exists []. rewrite !app_nil_r. repeat split; first [done | cbn; lia].
Qed.

Lemma for_each_visit model_dates sorted_dates : ∀ md me t md' me' t',
  for_each (visit model_dates) sorted_dates (md, me, t) = Ok (md', me', t') →
  name md' = name md ∧
  (∃ cells, errors md' = (errors md ++ cells)%list ∧ cell_date <$> cells = sorted_dates ∧
            Forall (λ cell, cell_value cell = error_of model_dates (cell_date cell)) cells) ∧
  (∃ new, me' = (me ++ new)%list ∧ total_errors t' = (total_errors t ++ new)%list ∧
          total_forecasts t' = (total_forecasts t + List.length new)%nat ∧
          (threshold_violations t ≤ threshold_violations t')%nat ∧
          (threshold_violations t' ≤ threshold_violations t + List.length new)%nat).
Proof.
  induction sorted_dates as [|date rest IH]; intros md me t md' me' t'; cbn [for_each].
  - intros [= <- <- <-]. split; [done|]. split.
    + exists []. by rewrite app_nil_r.
    + exists []. rewrite !app_nil_r. repeat split; first [done | cbn; lia].
  - destruct (visit model_dates date (md, me, t)) as [[[md1 me1] t1]|] eqn:Hv; cbn; [|done].
    intros H.
    apply IH in H as (Hn & (cells & Hc & Hd & Hv') & (new & -> & Ht & Hf & Hlo & Hhi)).
    apply visit_spec in Hv
      as (Hn1 & (cell & Hc1 & Hd1 & Hv1) & (new1 & -> & Ht1 & Hf1 & Hlo1 & Hhi1)).
    split; [congruence|]. split.
    + exists (cell :: cells). rewrite Hc, Hc1, <- app_assoc. split; [done|].
      cbn. split; [congruence|]. constructor; [congruence|done].
    + exists (new1 ++ new)%list. rewrite Ht, Ht1, Hf, Hf1, !length_app, <- !app_assoc.
      repeat split; first [done | lia].
Qed.

(** The loop over the models: every row it lists is aligned with the
    dates, and the totals count the errors it has read. *)
Lemma format_models_spec sorted_dates : ∀ history_data models totals models' r,
  format_models sorted_dates history_data models totals = (models', r) →
  (∃ added, models' = (models ++ added)%list ∧
            Forall (aligned history_data sorted_dates) added) ∧
  (∀ totals', r = Ok totals' →
     ∃ new, total_errors totals' = (total_errors totals ++ new)%list ∧
            total_forecasts totals' = (total_forecasts totals + List.length new)%nat ∧
            (threshold_violations totals ≤ threshold_violations totals')%nat ∧
            (threshold_violations totals' ≤ threshold_violations totals + List.length new)%nat).
Proof.
  induction history_data as [|[model model_dates] rest IH]; intros models totals models' r;
    cbn [format_models].
  - intros [= <- <-]. split.
    + exists []. by rewrite app_nil_r.
    + intros ? [= <-]. exists []. rewrite app_nil_r. repeat split; first [done | cbn; lia].
  - destruct (for_each (visit model_dates) sorted_dates
                (MkModelData model [] 0 0 infinity 0, [], totals))
      as [[[md me] t1]|e] eqn:Hrow.
    2:{ intros [= <- <-]. split; [|done]. exists []. by rewrite app_nil_r. }
    apply for_each_visit in Hrow
      as (Hn & (cells & Hc & Hd & Hv) & (new & Hme & Ht & Hf & Hlo & Hhi)).
    cbn in Hn, Hc, Hme. subst me.
    intros H. apply IH in H as ((added & -> & Hadded) & Htot). split.
    + assert (Forall (aligned ((model, model_dates) :: rest) sorted_dates) added) as Hadded'.
      { eapply Forall_impl; [exact Hadded|]. intros [m d] (? & ? & md0 & ? & ?).
        repeat split; try done. exists md0. split; [by right|done]. }
      destruct new as [|e new].
      * exists added. done.
      * eexists (_ :: added). rewrite <- app_assoc. split; [reflexivity|].
        constructor; [|done]. repeat split; cbn; try done; [congruence|].
        exists model_dates. split; [left|]. by rewrite Hc.
    + intros totals' ->. destruct (Htot _ eq_refl) as (new' & Ht' & Hf' & Hlo' & Hhi').
      exists (new ++ new')%list. rewrite Ht', Ht, Hf', Hf, length_app, <- app_assoc.
      repeat split; first [done | lia].
Qed.

(** A listed date whose entry has no [error] makes the model's loop
    raise. *)
Lemma for_each_visit_raises model_dates date entry :
  model_dates !! date = Some entry → entry !! "error" = None →
  ∀ sorted_dates s, date ∈ sorted_dates →
    ∃ e, for_each (visit model_dates) sorted_dates s = Raise e.
Proof.
  intros Hd He. induction sorted_dates as [|d rest IH]; intros s Hin.
  - by apply elem_of_nil in Hin.
  - cbn [for_each]. destruct (visit model_dates d s) as [s'|e] eqn:Hv; cbn; [|eauto].
    apply elem_of_cons in Hin as [<-|Hin]; [|by apply IH].
    exfalso. destruct s as [[md me] t]. unfold visit in Hv. by rewrite Hd, He in Hv.
Qed.

Lemma format_models_raises sorted_dates model model_dates :
  (∀ s, ∃ e, for_each (visit model_dates) sorted_dates s = Raise e) →
  ∀ history_data models totals, (model, model_dates) ∈ history_data →
    ∃ e, (format_models sorted_dates history_data models totals).2 = Raise e.
Proof.
  intros Hrow. induction history_data as [|[m d] rest IH]; intros models totals Hin.
  - by apply elem_of_nil in Hin.
  - cbn [format_models].
    destruct (for_each (visit d) sorted_dates (MkModelData m [] 0 0 infinity 0, [], totals))
      as [[[md me] t1]|e] eqn:Hr; [|cbn; eauto].
    apply elem_of_cons in Hin as [[= <- <-]|Hin]; [|by apply IH].
    destruct (Hrow (MkModelData model [] 0 0 infinity 0, [], totals)) as [e He]. congruence.
Qed.

Lemma all_dates_elem history_data cutoff date :
  date ∈ all_dates history_data cutoff ↔
  str_ge date cutoff = true ∧
  ∃ model model_dates, (model, model_dates) ∈ history_data ∧ is_Some (model_dates !! date).
Proof.
  unfold all_dates. rewrite elem_of_union_list. split.
  - intros (X & ([model model_dates] & -> & Hin)%list_elem_of_fmap & Hd).
    apply elem_of_filter in Hd as [Hge Hd%elem_of_dom]. eauto.
  - intros (Hge & model & model_dates & Hin & Hd). eexists. split.
    + apply list_elem_of_fmap. exists (model, model_dates). split; [reflexivity|done].
    + apply elem_of_filter. split; [done|]. by apply elem_of_dom.
Qed.

Lemma sorted_dates_elem history_data cutoff date :
  date ∈ merge_sort date_le (elements (all_dates history_data cutoff)) ↔
  str_ge date cutoff = true ∧
  ∃ model model_dates, (model, model_dates) ∈ history_data ∧ is_Some (model_dates !! date).
Proof. by rewrite merge_sort_Permutation, elem_of_elements, all_dates_elem. Qed.

Lemma sorted_dates_strict (X : gset string) :
  StronglySorted (λ a b, String.ltb a b = true) (merge_sort date_le (elements X)).
Proof.
  apply sorted_strict_strings.
  - apply (StronglySorted_merge_sort date_le); apply _.
  - rewrite merge_sort_Permutation. apply NoDup_elements.
Qed.

(** The dates of the result are assigned before any model is read. *)
Lemma format_history_dates history_data cutoff :
  dates (format_history history_data cutoff)
  = merge_sort date_le (elements (all_dates history_data cutoff)).
Proof.
  unfold format_history. destruct (format_models _ _ _ _) as [models [totals|e]]; [|done].
  by destruct (total_errors totals).
Qed.

(** X23.  The table the dashboard gets is rectangular, in whatever order
    the models are read and also when the function gave up on an
    exception: the dates are strictly ascending, they are the dates at or
    after the cutoff that some model has an entry for, and each listed
    model carries its own name and one cell per date, in the order of the
    dates, each holding the float its entry of that date has under [error]
    and no value where the model has no entry. *)
Theorem dashboard_rows_are_aligned history_data cutoff :
  let r := format_history history_data cutoff in
  StronglySorted (λ a b, String.ltb a b = true) (dates r) ∧
  (∀ date, date ∈ dates r ↔
     str_ge date cutoff = true ∧
     ∃ model model_dates, (model, model_dates) ∈ history_data ∧
                          is_Some (model_dates !! date)) ∧
  (∀ model model_data, (model, model_data) ∈ models r →
     name model_data = model ∧
     cell_date <$> errors model_data = dates r ∧
     ∃ model_dates, (model, model_dates) ∈ history_data ∧
       Forall (λ cell, cell_value cell = error_of model_dates (cell_date cell))
              (errors model_data)).
Proof.
  cbn zeta. rewrite format_history_dates.
  split; [apply sorted_dates_strict|]. split; [apply sorted_dates_elem|].
  intros model model_data Hin.
  assert (Forall (aligned history_data
                    (merge_sort date_le (elements (all_dates history_data cutoff))))
                 (models (format_history history_data cutoff))) as Hall.
  { unfold format_history.
    destruct (format_models _ history_data [] (MkTotals [] 0 0)) as [ms r] eqn:E.
    apply format_models_spec in E as ((added & -> & Hadded) & _).
    destruct r as [totals|e]; [destruct (total_errors totals)|]; exact Hadded. }
  rewrite Forall_forall in Hall. exact (Hall _ Hin).
Qed.

(** X24.  The overall figures are consistent: [has_data] is set exactly
    when at least one forecast was counted, exactly then the violation rate
    exists, and the violations counted never exceed the forecasts
    counted. *)
Theorem dashboard_totals history_data cutoff :
  let r := format_history history_data cutoff in
  (has_data r = true ↔ (0 < overall_total_forecasts r)%nat) ∧
  (overall_threshold_violations r ≤ overall_total_forecasts r)%nat ∧
  (has_data r = true ↔ is_Some (violation_rate r)).
Proof.
  cbn zeta. unfold format_history.
  destruct (format_models _ history_data [] (MkTotals [] 0 0)) as [ms r] eqn:E.
  apply format_models_spec in E as (_ & Htot).
  destruct r as [totals|e].
  - destruct (Htot _ eq_refl) as (new & Ht & Hf & Hlo & Hhi). cbn in Ht, Hf, Hlo, Hhi.
    subst new. destruct (total_errors totals) as [|e es]; cbn in *.
    + repeat split; first [done | lia | by intros [? ?]].
    + repeat split; first [done | lia | eauto].
  - cbn. repeat split; first [done | lia | by intros [? ?]].
Qed.

(** X25.  A failure does not give the empty structure back: when an
    entry of the file dated within the window has no [error] key, the
    [KeyError] is caught and [get_formatted_error_history] returns
    [has_data = False] with the dates already filled in, the date of the
    broken entry among them. *)
Theorem dashboard_failure_keeps_dates days w history_data cutoff model model_dates date entry :
  files w !! default_history_file = Some (Snapshot history_data) →
  cutoff_date w days = Ok cutoff →
  history_data !! model = Some model_dates →
  model_dates !! date = Some entry →
  str_ge date cutoff = true →
  entry !! "error" = None →
  let r := get_formatted_error_history days w in
  has_data r = false ∧ date ∈ dates r ∧ r ≠ empty_result.
Proof.
  intros Hfile Hcut Hm Hd Hge He r.
  assert (r = format_history (map_to_list history_data) cutoff) as Hr.
  { subst r. unfold get_formatted_error_history. rewrite Hfile, Hcut.
    destruct (size history_data =? 0)%nat eqn:E; [|done].
    apply Nat.eqb_eq, map_size_empty_iff in E. subst. by rewrite lookup_empty in Hm. }
  assert ((model, model_dates) ∈ map_to_list history_data) as Hin
    by by apply elem_of_map_to_list.
  assert (date ∈ dates r) as Hdate.
  { rewrite Hr, format_history_dates. apply sorted_dates_elem. split; [done|]. eauto. }
  split; [|split; [done|]].
  - rewrite Hr. unfold format_history.
    rewrite Hr, format_history_dates in Hdate.
    destruct (format_models_raises _ model model_dates
                (λ s, for_each_visit_raises model_dates date entry Hd He _ s Hdate)
                (map_to_list history_data) [] (MkTotals [] 0 0) Hin) as [e Hraise].
    destruct (format_models _ _ _ _) as [ms res]. cbn in Hraise. by rewrite Hraise.
  - intros Heq. rewrite Heq in Hdate. by apply elem_of_nil in Hdate.
Qed.

Lemma dashboard_failure_keeps_dates_witness :
  let r := get_formatted_error_history 30
             (Cases.world_with_file (history Cases.malformed_tracker)) in
  has_data r = false ∧ "2026-11-02" ∈ dates r ∧ r ≠ empty_result.
Proof.
  apply (dashboard_failure_keeps_dates 30
           (Cases.world_with_file (history Cases.malformed_tracker))
           (history Cases.malformed_tracker) "2026-10-04" "ARIMA"
           (<["2026-11-02" := Cases.broken_entry]>
              (<["2026-11-03" := Sample.observation 4]> ∅))
           "2026-11-02" Cases.broken_entry);
    vm_compute; reflexivity.
Defined.

(** The same file read by the dashboard: both dates are listed, no model
    is, and nothing says that the read failed. *)
Example dashboard_of_broken_file :
  let r := get_formatted_error_history 30
             (Cases.world_with_file (history Cases.malformed_tracker)) in
  dates r = ["2026-11-02"; "2026-11-03"] ∧ models r = [] ∧ has_data r = false.
Proof. repeat split; vm_compute; reflexivity. Qed.

(** X26.  The dashboard and the tracker look at the same window: when
    the file holds the tracker's history, every date [get_recent_errors]
    returns for a model over [days] days is among the dates
    [get_formatted_error_history] lists for the same [days]. *)
Theorem dashboard_lists_recent_dates self model_name days w recent :
  files w !! default_history_file = Some (Snapshot (history self)) →
  get_recent_errors self model_name days w = Ok recent →
  ∀ date v, (date, v) ∈ recent → date ∈ dates (get_formatted_error_history days w).
Proof.
  intros Hfile Hrecent date v Hin.
  assert (recent ≠ []) as Hne by (intros ->; by apply elem_of_nil in Hin).
  destruct (get_recent_errors_cutoff _ _ _ _ _ Hrecent Hne) as [cutoff Hcut].
  apply (get_recent_errors_elem _ _ _ _ _ _ date v Hcut Hrecent) in Hin
    as (Hge & entry & Hentry & _).
  unfold get_model_history in Hentry.
  destruct (history self !! model_name) as [model_dates|] eqn:Hm; cbn in Hentry;
    [|by rewrite lookup_empty in Hentry].
  unfold get_formatted_error_history. rewrite Hfile, Hcut.
  destruct (size (history self) =? 0)%nat eqn:E.
  { apply Nat.eqb_eq, map_size_empty_iff in E. rewrite E in Hm. by rewrite lookup_empty in Hm. }
  rewrite format_history_dates. apply sorted_dates_elem. split; [done|].
  exists model_name, model_dates. split; [by apply elem_of_map_to_list|eauto].
Qed.

Lemma dashboard_lists_recent_dates_witness :
  "2026-11-02" ∈ dates (get_formatted_error_history 7
                          (Cases.world_with_file (history Sample.busy_tracker))).
Proof.
  apply (dashboard_lists_recent_dates Sample.busy_tracker "ARIMA" 7
           (Cases.world_with_file (history Sample.busy_tracker))
           [("2026-11-01", VFloat 3); ("2026-11-02", VFloat 7); ("2026-11-03", VFloat 12)]
           eq_refl eq_refl "2026-11-02" (VFloat 7)).
  apply list_elem_of_further, list_elem_of_here.
Defined.

(** The dashboard of the three sample errors: one row of three cells, two
    violations out of three forecasts. *)
Example dashboard_of_three_errors :
  let r := get_formatted_error_history 30
             (Cases.world_with_file (history Sample.busy_tracker)) in
  has_data r = true ∧
  dates r = ["2026-11-01"; "2026-11-02"; "2026-11-03"] ∧
  (λ item, (item.1, cell_value <$> errors item.2)) <$> models r
    = [("ARIMA", [Some 3%float; Some 7%float; Some 12%float])] ∧
  overall_total_forecasts r = 3%nat ∧ overall_threshold_violations r = 2%nat.
Proof. repeat split; vm_compute; reflexivity. Qed.

End DashboardFacts.
